(** * EmbyClient: the authenticated session and request layer

    A shallow embedding of the [EmbyClient] class (constructor,
    [ensureAuthenticated], [authenticate], the four user-scoped data
    operations, the connectivity probe and the URL builders) together with
    the properties its specification states about them.

    Conventions of the embedding
    - a JavaScript string is a [string]: the bytes of its UTF-8 encoding;
    - an optional field [f?: string] is an [option string]; [None] is
      [undefined].  JavaScript truthiness is kept: the empty string is falsy;
    - [await fetch(..)] is a call to a transport oracle [net] that sees the
      requests issued so far and the current one, and either answers with a
      response or rejects; every call is appended to the [calls] log;
    - [throw] is the [Throw] outcome of a state-and-exception monad over the
      object's mutable fields; [console.log] and [console.error] have no
      effect on the results and are left out. *)

From Stdlib Require Import String Ascii List ZArith Bool DecimalString.
Import ListNotations.
Open Scope Z_scope.
Open Scope string_scope.

(** ** JavaScript primitives *)

(** [if (x)] on a value of type [string | undefined]. *)
Definition truthy (x : option string) : bool :=
  match x with
  | Some s => negb (s =? "")
  | None => false
  end.

(** [a || b]. *)
Definition js_or (a b : option string) : option string :=
  if truthy a then a else b.

(** [`${x}`] on a value of type [string | undefined]. *)
Definition tpl (x : option string) : string :=
  match x with
  | Some s => s
  | None => "undefined"
  end.

(** [n.toString()] and [`${n}`] on an integral number below 1e21 in absolute
    value, which JavaScript prints with all its digits.  Larger numbers are
    printed in exponent form and fractions with a point.  The general
    statements below carry the number as [num_toString n] and use none of its
    digits; digits are computed only at concrete numbers of that range (an
    HTTP status, a width, a stream index). *)
Definition num_toString (n : Z) : string :=
  NilZero.string_of_int (Z.to_int n).

(** [b.toString()]. *)
Definition bool_toString (b : bool) : string :=
  if b then "true" else "false".

(** [s.endsWith(suffix)]: some tail of [s] is [suffix]. *)
Fixpoint endsWith (s suffix : string) : bool :=
  if s =? suffix then true
  else match s with
       | EmptyString => false
       | String _ rest => endsWith rest suffix
       end.

(** [s.replace(/\/$/, '')]: drop the last character when it is a slash. *)
Fixpoint strip_trailing_slash (s : string) : string :=
  match s with
  | EmptyString => EmptyString
  | String c EmptyString => if Ascii.eqb c "/" then EmptyString else s
  | String c rest => String c (strip_trailing_slash rest)
  end.

(** [hay.includes(needle)], used to read the claims about what a message or
    a URL contains. *)
Fixpoint includes (hay needle : string) : bool :=
  if prefix needle hay then true
  else match hay with
       | EmptyString => false
       | String _ rest => includes rest needle
       end.

(** ** URLSearchParams *)

Definition hex_digit (n : nat) : ascii :=
  match n with
  | 0 => "0" | 1 => "1" | 2 => "2" | 3 => "3" | 4 => "4"
  | 5 => "5" | 6 => "6" | 7 => "7" | 8 => "8" | 9 => "9"
  | 10 => "A" | 11 => "B" | 12 => "C" | 13 => "D" | 14 => "E"
  | _ => "F"
  end%nat%char.

(** Bytes the application/x-www-form-urlencoded serializer leaves as they
    are: ASCII letters and digits and [* - . _]. *)
Definition form_safe (c : ascii) : bool :=
  let n := nat_of_ascii c in
  ((48 <=? n) && (n <=? 57) || (65 <=? n) && (n <=? 90)
   || (97 <=? n) && (n <=? 122)
   || (n =? 42) || (n =? 45) || (n =? 46) || (n =? 95))%nat.

Fixpoint form_encode (s : string) : string :=
  match s with
  | EmptyString => EmptyString
  | String c rest =>
      let n := nat_of_ascii c in
      if form_safe c then String c (form_encode rest)
      else if (n =? 32)%nat then String "+" (form_encode rest)
      else String "%" (String (hex_digit (n / 16))
                         (String (hex_digit (n mod 16)) (form_encode rest)))
  end.

Definition search_params := list (string * string).

Definition sp_delete (k : string) (l : search_params) : search_params :=
  filter (fun p => negb (fst p =? k)) l.

(** [searchParams.set(k, v)]: overwrite the first pair named [k] and drop
    the other ones, or append. *)
Fixpoint sp_set (k v : string) (l : search_params) : search_params :=
  match l with
  | [] => [(k, v)]
  | (k', v') :: rest =>
      if k' =? k then (k, v) :: sp_delete k rest
      else (k', v') :: sp_set k v rest
  end.

(** [searchParams.toString()]. *)
Fixpoint sp_toString (l : search_params) : string :=
  match l with
  | [] => ""
  | [(k, v)] => form_encode k ++ "=" ++ form_encode v
  | (k, v) :: rest => form_encode k ++ "=" ++ form_encode v ++ "&" ++ sp_toString rest
  end.

(** ** JSON payloads *)

(** The value [response.json()] resolves to.  Numbers are kept as integers:
    nothing in the client computes with them. *)
#[warnings="-register-all"]
Inductive json : Type :=
| JNull
| JBool (b : bool)
| JNum (n : Z)
| JStr (s : string)
| JArr (items : list json)
| JObj (fields : list (string * json)).

Fixpoint assoc (k : string) (l : list (string * json)) : option json :=
  match l with
  | [] => None
  | (k', v) :: rest => if k' =? k then Some v else assoc k rest
  end.

(** [x || y] where [x] is a property that was read ([None] is
    [undefined]). *)
Definition json_truthy (x : option json) : bool :=
  match x with
  | None | Some JNull => false
  | Some (JBool b) => b
  | Some (JNum n) => negb (n =? 0)%Z
  | Some (JStr s) => negb (s =? "")
  | Some (JArr _) | Some (JObj _) => true
  end.

(** A property declared [string] in the response type, as the session stores
    it.  The session fields are [string | undefined]: a value of another JSON
    type is outside the declared type
    [{ AccessToken: string; User: { Id: string } }], the code would store it
    as it is, and it is read here as absent.  Every statement about a login
    that succeeds therefore asks for a string token and a string user id
    ([auth_payload]). *)
Definition as_string (x : option json) : option string :=
  match x with
  | Some (JStr s) => Some s
  | _ => None
  end.

(** ** Data model *)

Record EmbyConfig := {
  ServerURL : string;
  ApiKey : option string;
  Username : option string;
  Password : option string;
  UserId : option string;
  AuthToken : option string
}.

Record MediaStream := {
  Type_ : string;
  Index : Z;
  DisplayTitle : option string;
  Language : option string;
  Codec : option string;
  IsExternal : option bool;
  DeliveryUrl : option string
}.

Record MediaSource := {
  ms_Id : string;
  MediaStreams : option (list MediaStream)
}.

(** The fields of [EmbyItem] that the client reads. *)
Record EmbyItem := {
  Id : string;
  MediaSources : option (list MediaSource)
}.

Record GetItemsParams := {
  ParentId : option string;
  IncludeItemTypes : option string;
  Recursive : option bool;
  Fields : option string;
  SortBy : option string;
  SortOrder : option string;
  StartIndex : option Z;
  Limit : option Z;
  searchTerm : option string
}.

Inductive ImageType := Primary | Backdrop | Logo.

Definition ImageType_toString (t : ImageType) : string :=
  match t with
  | Primary => "Primary"
  | Backdrop => "Backdrop"
  | Logo => "Logo"
  end.

Record Subtitle := {
  sub_url : string;
  sub_language : string;
  sub_label : string
}.

(** The private fields of an [EmbyClient] instance. *)
Record EmbyClient := {
  serverUrl : string;
  apiKey : option string;
  userId : option string;
  authToken : option string;
  username : option string;
  password : option string
}.

(** ** Transport *)

Record request := {
  meth : string;
  url : string;
  headers : list (string * string);
  body : option string
}.

(** A response: its status, what [text()] gives and what [json()] gives
    ([None] when the body is not JSON and [json()] rejects). *)
Record response := {
  status : Z;
  text : string;
  parsed : option json
}.

(** [response.ok]. *)
Definition ok (r : response) : bool :=
  ((200 <=? status r) && (status r <=? 299))%Z.

Inductive fetch_result :=
| Responded (r : response)
| Rejected (reason : string).

(** What the network does with a request, given the requests before it. *)
Definition transport := list request -> request -> fetch_result.

(** ** The monad of the client's methods *)

Inductive exn :=
| Error (message : string)
| TypeError
| SyntaxError
| FetchError (reason : string).

Inductive outcome (A : Type) :=
| Return (a : A)
| Throw (e : exn).

Arguments Return {A} a.
Arguments Throw {A} e.

Record state := {
  this : EmbyClient;
  calls : list request
}.

Definition M (A : Type) : Type := state -> outcome A * state.

Definition ret {A} (a : A) : M A := fun st => (Return a, st).

Definition throw {A} (e : exn) : M A := fun st => (Throw e, st).

Definition bind {A B} (c : M A) (k : A -> M B) : M B :=
  fun st =>
    match c st with
    | (Return a, st') => k a st'
    | (Throw e, st') => (Throw e, st')
    end.

Notation "x <- c ;; k" := (bind c (fun x => k))
  (at level 61, c at next level, right associativity).
Notation "c ;; k" := (bind c (fun _ => k))
  (at level 61, right associativity).

(** [try { c } catch { return a }]. *)
Definition try_catch {A} (c : M A) (a : A) : M A :=
  fun st =>
    match c st with
    | (Return x, st') => (Return x, st')
    | (Throw _, st') => (Return a, st')
    end.

Definition get_this : M EmbyClient := fun st => (Return (this st), st).

Definition set_authToken (v : option string) : M unit :=
  fun st =>
    let c := this st in
    (Return tt,
     {| this := {| serverUrl := serverUrl c; apiKey := apiKey c;
                   userId := userId c; authToken := v;
                   username := username c; password := password c |};
        calls := calls st |}).

Definition set_userId (v : option string) : M unit :=
  fun st =>
    let c := this st in
    (Return tt,
     {| this := {| serverUrl := serverUrl c; apiKey := apiKey c;
                   userId := v; authToken := authToken c;
                   username := username c; password := password c |};
        calls := calls st |}).

(** [x.k] on a parsed value: a [TypeError] on [null], [undefined] when [x]
    is not an object or has no such field. *)
Definition prop (x : json) (k : string) : M (option json) :=
  match x with
  | JNull => throw TypeError
  | JObj fields => ret (assoc k fields)
  | _ => ret None
  end.

(** [x.k] where [x] was itself read from a property. *)
Definition prop_of (x : option json) (k : string) : M (option json) :=
  match x with
  | None => throw TypeError
  | Some v => prop v k
  end.

(** [await response.json()]. *)
Definition response_json (r : response) : M json :=
  match parsed r with
  | Some d => ret d
  | None => throw SyntaxError
  end.

Definition GET (u : string) : request :=
  {| meth := "GET"; url := u; headers := []; body := None |}.

(** ** The constructor *)

(** The endpoint normalization of the constructor. *)
Definition normalize (ServerURL : string) : string :=
  let serverUrl := strip_trailing_slash ServerURL in
  if negb (endsWith serverUrl "/emby") then serverUrl ++ "/emby"
  else serverUrl.

Definition new_EmbyClient (config : EmbyConfig) : EmbyClient :=
  {| serverUrl := normalize (ServerURL config);
     apiKey := ApiKey config;
     userId := UserId config;
     authToken := AuthToken config;
     username := Username config;
     password := Password config |}.

(** A client that has made no call yet. *)
Definition fresh (config : EmbyConfig) : state :=
  {| this := new_EmbyClient config; calls := [] |}.

(** ** Requests the client builds *)

Definition dquote : string := String (ascii_of_nat 34) EmptyString.

Definition client_identification : string :=
  "MediaBrowser Client=" ++ dquote ++ "LunaTV" ++ dquote
  ++ ", Device=" ++ dquote ++ "Web" ++ dquote
  ++ ", DeviceId=" ++ dquote ++ "lunatv-web" ++ dquote
  ++ ", Version=" ++ dquote ++ "1.0.0" ++ dquote.

Definition login_request (c : EmbyClient) (username password : string) : request :=
  {| meth := "POST";
     url := serverUrl c ++ "/Users/AuthenticateByName";
     headers := [("Content-Type", "application/x-www-form-urlencoded");
                 ("X-Emby-Authorization", client_identification)];
     body := Some (sp_toString [("Username", username); ("Pw", password)]) |}.

(** [if (v) searchParams.set(k, v)]. *)
Definition set_if_truthy (k : string) (v : option string) (sp : search_params)
  : search_params :=
  match v with
  | Some s => if truthy v then sp_set k s sp else sp
  | None => sp
  end.

(** [if (v !== undefined) searchParams.set(k, v.toString())]. *)
Definition set_if_defined {A} (k : string) (v : option A) (show : A -> string)
    (sp : search_params) : search_params :=
  match v with
  | Some a => sp_set k (show a) sp
  | None => sp
  end.

(** The filters of [getItems], before the credential is added. *)
Definition items_filters (params : GetItemsParams) : search_params :=
  let sp := [] in
  let sp := set_if_truthy "ParentId" (ParentId params) sp in
  let sp := set_if_truthy "IncludeItemTypes" (IncludeItemTypes params) sp in
  let sp := set_if_defined "Recursive" (Recursive params) bool_toString sp in
  let sp := set_if_truthy "Fields" (Fields params) sp in
  let sp := set_if_truthy "SortBy" (SortBy params) sp in
  let sp := set_if_truthy "SortOrder" (SortOrder params) sp in
  let sp := set_if_defined "StartIndex" (StartIndex params) num_toString sp in
  let sp := set_if_defined "Limit" (Limit params) num_toString sp in
  set_if_truthy "searchTerm" (searchTerm params) sp.

(** [`${token ? `&api_key=${token}` : ''}`] and its [?] variant. *)
Definition api_key_suffix (sep : string) (token : option string) : string :=
  if truthy token then sep ++ "api_key=" ++ tpl token else "".

Definition msg_no_user_id : string :=
  "未配置 Emby 用户 ID，请在管理面板重新保存 Emby 配置".

Definition label_login : string := "Emby 认证失败".
Definition label_current_user : string := "获取当前用户信息失败".
Definition label_items : string := "获取 Emby 媒体列表失败".
Definition label_item : string := "获取 Emby 媒体详情失败".
Definition label_seasons : string := "获取 Emby 季列表失败".
Definition label_episodes : string := "获取 Emby 集列表失败".

(** [`${label} (${response.status}): ${errorText}`]. *)
Definition status_message (label : string) (r : response) : string :=
  label ++ " (" ++ num_toString (status r) ++ "): " ++ text r.

(** The test that guards the re-authentication of the data operations:
    [response.status === 401 && this.username && this.password && !this.apiKey]. *)
Definition expired (c : EmbyClient) (r : response) : bool :=
  (status r =? 401)%Z && truthy (username c) && truthy (password c)
  && negb (truthy (apiKey c)).

(** A field known to hold a string where it is read. *)
Definition the (x : option string) : string :=
  match x with
  | Some s => s
  | None => ""
  end.

(** [data.Items || []]. *)
Definition items_or_empty (items : option json) : json :=
  match items with
  | Some v => if json_truthy items then v else JArr []
  | None => JArr []
  end.

Section Client.

(** The network the client talks to. *)
Variable net : transport.

(** [await fetch(..)]: log the call, ask the network. *)
Definition fetch (r : request) : M response :=
  fun st =>
    let st' := {| this := this st; calls := (calls st ++ [r])%list |} in
    match net (calls st) r with
    | Responded resp => (Return resp, st')
    | Rejected reason => (Throw (FetchError reason), st')
    end.

Definition authenticate (username password : string) : M json :=
  c <- get_this ;;
  response <- fetch (login_request c username password) ;;
  if negb (ok response) then
    throw (Error (status_message label_login response))
  else
    data <- response_json response ;;
    AccessToken <- prop data "AccessToken" ;;
    set_authToken (as_string AccessToken) ;;
    User <- prop data "User" ;;
    User_Id <- prop_of User "Id" ;;
    set_userId (as_string User_Id) ;;
    ret data.

(** [this.authToken = authResult.AccessToken;
     this.userId = authResult.User.Id;] *)
Definition adopt (authResult : json) : M unit :=
  AccessToken <- prop authResult "AccessToken" ;;
  set_authToken (as_string AccessToken) ;;
  User <- prop authResult "User" ;;
  User_Id <- prop_of User "Id" ;;
  set_userId (as_string User_Id).

Definition ensureAuthenticated : M unit :=
  c <- get_this ;;
  if truthy (apiKey c) then ret tt
  else if truthy (authToken c) then ret tt
  else if truthy (username c) && truthy (password c) then
    authResult <- authenticate (the (username c)) (the (password c)) ;;
    adopt authResult
  else ret tt.

Definition getHeaders (c : EmbyClient) : list (string * string) :=
  let headers := [("Content-Type", "application/json")] in
  if truthy (apiKey c) then (headers ++ [("X-Emby-Token", the (apiKey c))])%list
  else if truthy (authToken c) then
    (headers ++ [("X-Emby-Token", the (authToken c))])%list
  else headers.

Definition getCurrentUser : M json :=
  c <- get_this ;;
  let url := serverUrl c ++ "/Users/Me" in
  let headers := getHeaders c in
  response <- fetch {| meth := "GET"; url := url; headers := headers;
                       body := None |} ;;
  if negb (ok response) then
    throw (Error (status_message label_current_user response))
  else response_json response.

Definition items_url (c : EmbyClient) (sp : search_params) : string :=
  serverUrl c ++ "/Users/" ++ tpl (userId c) ++ "/Items?" ++ sp_toString sp.

Definition getItems (params : GetItemsParams) : M json :=
  ensureAuthenticated ;;
  c <- get_this ;;
  if negb (truthy (userId c)) then throw (Error msg_no_user_id)
  else
    let searchParams := items_filters params in
    let token := js_or (apiKey c) (authToken c) in
    let searchParams := set_if_truthy "X-Emby-Token" token searchParams in
    response <- fetch (GET (items_url c searchParams)) ;;
    c <- get_this ;;
    if expired c response then
      authResult <- authenticate (the (username c)) (the (password c)) ;;
      adopt authResult ;;
      c <- get_this ;;
      let searchParams := sp_set "X-Emby-Token" (tpl (authToken c)) searchParams in
      retryResponse <- fetch (GET (items_url c searchParams)) ;;
      if negb (ok retryResponse) then
        throw (Error (status_message label_items retryResponse))
      else response_json retryResponse
    else if negb (ok response) then
      throw (Error (status_message label_items response))
    else response_json response.

Definition item_url (c : EmbyClient) (itemId : string) (token : option string)
  : string :=
  serverUrl c ++ "/Users/" ++ tpl (userId c) ++ "/Items/" ++ itemId
  ++ "?Fields=MediaSources" ++ api_key_suffix "&" token.

Definition getItem (itemId : string) : M json :=
  ensureAuthenticated ;;
  c <- get_this ;;
  if negb (truthy (userId c)) then throw (Error msg_no_user_id)
  else
    let token := js_or (apiKey c) (authToken c) in
    response <- fetch (GET (item_url c itemId token)) ;;
    c <- get_this ;;
    if expired c response then
      authResult <- authenticate (the (username c)) (the (password c)) ;;
      adopt authResult ;;
      c <- get_this ;;
      let retryToken := authToken c in
      retryResponse <- fetch (GET (item_url c itemId retryToken)) ;;
      if negb (ok retryResponse) then throw (Error label_item)
      else response_json retryResponse
    else if negb (ok response) then throw (Error label_item)
    else response_json response.

Definition seasons_url (c : EmbyClient) (seriesId : string)
    (token : option string) : string :=
  serverUrl c ++ "/Shows/" ++ seriesId ++ "/Seasons?userId=" ++ tpl (userId c)
  ++ api_key_suffix "&" token.

Definition getSeasons (seriesId : string) : M json :=
  ensureAuthenticated ;;
  c <- get_this ;;
  if negb (truthy (userId c)) then throw (Error msg_no_user_id)
  else
    let token := js_or (apiKey c) (authToken c) in
    response <- fetch (GET (seasons_url c seriesId token)) ;;
    c <- get_this ;;
    if expired c response then
      authResult <- authenticate (the (username c)) (the (password c)) ;;
      adopt authResult ;;
      c <- get_this ;;
      let retryToken := authToken c in
      retryResponse <- fetch (GET (seasons_url c seriesId retryToken)) ;;
      if negb (ok retryResponse) then throw (Error label_seasons)
      else
        retryData <- response_json retryResponse ;;
        Items <- prop retryData "Items" ;;
        ret (items_or_empty Items)
    else if negb (ok response) then throw (Error label_seasons)
    else
      data <- response_json response ;;
      Items <- prop data "Items" ;;
      ret (items_or_empty Items).

Definition episodes_url (c : EmbyClient) (seriesId : string)
    (seasonId token : option string) : string :=
  let searchParams := [("userId", tpl (userId c)); ("Fields", "MediaSources")] in
  let searchParams := set_if_truthy "seasonId" seasonId searchParams in
  let searchParams := set_if_truthy "api_key" token searchParams in
  serverUrl c ++ "/Shows/" ++ seriesId ++ "/Episodes?" ++ sp_toString searchParams.

Definition getEpisodes (seriesId : string) (seasonId : option string) : M json :=
  ensureAuthenticated ;;
  c <- get_this ;;
  if negb (truthy (userId c)) then throw (Error msg_no_user_id)
  else
    let token := js_or (apiKey c) (authToken c) in
    response <- fetch (GET (episodes_url c seriesId seasonId token)) ;;
    c <- get_this ;;
    if expired c response then
      authResult <- authenticate (the (username c)) (the (password c)) ;;
      adopt authResult ;;
      c <- get_this ;;
      retryResponse <-
        fetch (GET (episodes_url c seriesId seasonId (authToken c))) ;;
      if negb (ok retryResponse) then throw (Error label_episodes)
      else
        retryData <- response_json retryResponse ;;
        Items <- prop retryData "Items" ;;
        ret (items_or_empty Items)
    else if negb (ok response) then throw (Error label_episodes)
    else
      data <- response_json response ;;
      Items <- prop data "Items" ;;
      ret (items_or_empty Items).

Definition probe_url (c : EmbyClient) : string :=
  let token := js_or (apiKey c) (authToken c) in
  serverUrl c ++ "/System/Info/Public" ++ api_key_suffix "?" token.

Definition checkConnectivity : M bool :=
  try_catch
    (c <- get_this ;;
     response <- fetch (GET (probe_url c)) ;;
     ret (ok response))
    false.

End Client.

(** ** Resource URL builders *)

Definition getImageUrl (c : EmbyClient) (itemId : string)
    (imageType : option ImageType) (maxWidth : option Z) : string :=
  let imageType := match imageType with Some t => t | None => Primary end in
  let params : search_params := [] in
  let token := js_or (apiKey c) (authToken c) in
  let params :=
    match maxWidth with
    | Some w => if negb (w =? 0)%Z then sp_set "maxWidth" (num_toString w) params
                else params
    | None => params
    end in
  let params := set_if_truthy "api_key" token params in
  let queryString := sp_toString params in
  serverUrl c ++ "/Items/" ++ itemId ++ "/Images/" ++ ImageType_toString imageType
  ++ (if negb (queryString =? "") then "?" ++ queryString else "").

Definition getStreamUrl (c : EmbyClient) (itemId : string) (direct : option bool)
  : string :=
  let direct := match direct with Some b => b | None => true end in
  if direct then
    serverUrl c ++ "/Videos/" ++ itemId ++ "/stream?Static=true&api_key="
    ++ tpl (js_or (apiKey c) (authToken c))
  else
    serverUrl c ++ "/Videos/" ++ itemId ++ "/master.m3u8?api_key="
    ++ tpl (js_or (apiKey c) (authToken c)).

(** [stream.Type === 'Subtitle']. *)
Definition is_subtitle (stream : MediaStream) : bool :=
  Type_ stream =? "Subtitle".

(** [stream.IsExternal && stream.DeliveryUrl]. *)
Definition is_external (stream : MediaStream) : bool :=
  match IsExternal stream with
  | Some true => truthy (DeliveryUrl stream)
  | _ => false
  end.

Definition subtitle_language (stream : MediaStream) : string :=
  tpl (js_or (Language stream) (Some "unknown")).

Definition subtitle_label (stream : MediaStream) : string :=
  let language := subtitle_language stream in
  tpl (js_or (DisplayTitle stream)
         (Some (language ++ " (" ++ tpl (Codec stream) ++ ")"))).

(** The body of the [forEach] of [getSubtitles]. *)
Definition subtitle_entry (c : EmbyClient) (item : EmbyItem)
    (mediaSource : MediaSource) (token : option string) (stream : MediaStream)
  : Subtitle :=
  let language := subtitle_language stream in
  let label := subtitle_label stream in
  if is_external stream then
    {| sub_url := serverUrl c ++ the (DeliveryUrl stream);
       sub_language := language;
       sub_label := label |}
  else
    {| sub_url := serverUrl c ++ "/Videos/" ++ Id item ++ "/" ++ ms_Id mediaSource
                  ++ "/Subtitles/" ++ num_toString (Index stream)
                  ++ "/Stream.vtt?api_key=" ++ tpl token;
       sub_language := language;
       sub_label := label |}.

Definition getSubtitles (c : EmbyClient) (item : EmbyItem) : list Subtitle :=
  match MediaSources item with
  | None | Some [] => []
  | Some (mediaSource :: _) =>
      match MediaStreams mediaSource with
      | None => []
      | Some streams =>
          let token := js_or (apiKey c) (authToken c) in
          map (subtitle_entry c item mediaSource token)
              (filter is_subtitle streams)
      end
  end.

(** ** Vocabulary of the properties *)

(** The four user-scoped data operations. *)
Inductive data_op :=
| GetItems (params : GetItemsParams)
| GetItem (itemId : string)
| GetSeasons (seriesId : string)
| GetEpisodes (seriesId : string) (seasonId : option string).

Definition run_op (net : transport) (op : data_op) : M json :=
  match op with
  | GetItems params => getItems net params
  | GetItem itemId => getItem net itemId
  | GetSeasons seriesId => getSeasons net seriesId
  | GetEpisodes seriesId seasonId => getEpisodes net seriesId seasonId
  end.

(** The list-style operations whose result is the [Items] collection. *)
Definition returns_collection (op : data_op) : bool :=
  match op with
  | GetSeasons _ | GetEpisodes _ _ => true
  | GetItems _ | GetItem _ => false
  end.

(** The request an operation builds first, from the client's credential. *)
Definition first_request (c : EmbyClient) (op : data_op) : request :=
  let token := js_or (apiKey c) (authToken c) in
  match op with
  | GetItems params =>
      GET (items_url c (set_if_truthy "X-Emby-Token" token (items_filters params)))
  | GetItem itemId => GET (item_url c itemId token)
  | GetSeasons seriesId => GET (seasons_url c seriesId token)
  | GetEpisodes seriesId seasonId => GET (episodes_url c seriesId seasonId token)
  end.

(** The request an operation builds for its retry; [c] is the client after
    the re-login, [authToken c] the token that login returned. *)
Definition retry_request (c : EmbyClient) (op : data_op) : request :=
  match op with
  | GetItems params =>
      GET (items_url c (sp_set "X-Emby-Token" (tpl (authToken c))
                          (items_filters params)))
  | GetItem itemId => GET (item_url c itemId (authToken c))
  | GetSeasons seriesId => GET (seasons_url c seriesId (authToken c))
  | GetEpisodes seriesId seasonId =>
      GET (episodes_url c seriesId seasonId (authToken c))
  end.

(** The error an operation throws on a response that is not successful. *)
Definition request_error (op : data_op) (r : response) : exn :=
  match op with
  | GetItems _ => Error (status_message label_items r)
  | GetItem _ => Error label_item
  | GetSeasons _ => Error label_seasons
  | GetEpisodes _ _ => Error label_episodes
  end.

Definition op_label (op : data_op) : string :=
  match op with
  | GetItems _ => label_items
  | GetItem _ => label_item
  | GetSeasons _ => label_seasons
  | GetEpisodes _ _ => label_episodes
  end.

(** The client once a login has answered with [token] and [user]. *)
Definition logged_in (c : EmbyClient) (token user : option string) : EmbyClient :=
  {| serverUrl := serverUrl c; apiKey := apiKey c; userId := user;
     authToken := token; username := username c; password := password c |}.

(** A call to the login endpoint of the client's server. *)
Definition is_login_call (c : EmbyClient) (r : request) : bool :=
  (meth r =? "POST") && (url r =? serverUrl c ++ "/Users/AuthenticateByName").

(** A call to a data endpoint: any [GET]. *)
Definition is_data_call (r : request) : bool := meth r =? "GET".

Definition login_calls (c : EmbyClient) (l : list request) : nat :=
  length (filter (is_login_call c) l).

Definition data_calls (l : list request) : nat :=
  length (filter is_data_call l).

(** A login response of the declared shape
    [{ AccessToken: token, User: { Id: user } }]. *)
Definition auth_payload (data : json) (token user : string) : Prop :=
  exists fields ufields,
    data = JObj fields
    /\ assoc "AccessToken" fields = Some (JStr token)
    /\ assoc "User" fields = Some (JObj ufields)
    /\ assoc "Id" ufields = Some (JStr user).

(** The message of a thrown [Error]. *)
Definition message_of {A} (o : outcome A) : option string :=
  match o with
  | Throw (Error m) => Some m
  | _ => None
  end.

Definition throws {A} (o : outcome A) : bool :=
  match o with
  | Throw _ => true
  | Return _ => false
  end.

(** The state once [r] has been sent. *)
Definition logged (r : request) (st : state) : state :=
  {| this := this st; calls := (calls st ++ [r])%list |}.

(** The field [k] of a parsed value that is not [null]. *)
Definition field (data : json) (k : string) : option json :=
  match data with
  | JObj fields => assoc k fields
  | _ => None
  end.

(** The re-login of the data operations: [authenticate] with the stored
    credentials, then the two assignments. *)
Definition relogin (net : transport) : M unit :=
  c <- get_this ;;
  authResult <- authenticate net (the (username c)) (the (password c)) ;;
  adopt authResult.

(** The last response a data operation receives from its data endpoint: the
    first one, or the one of the retry when the first one made the client
    log in again; [None] when the operation stops before it has one. *)
Definition final_response (net : transport) (op : data_op) (st : state)
  : option response :=
  match ensureAuthenticated net st with
  | (Return _, st1) =>
      if truthy (userId (this st1)) then
        let first := first_request (this st1) op in
        match net (calls st1) first with
        | Responded r1 =>
            if expired (this st1) r1 then
              match relogin net (logged first st1) with
              | (Return _, st2) =>
                  match net (calls st2) (retry_request (this st2) op) with
                  | Responded r2 => Some r2
                  | Rejected _ => None
                  end
              | (Throw _, _) => None
              end
            else Some r1
        | Rejected _ => None
        end
      else None
  | (Throw _, _) => None
  end.

(** What an operation returns from a successful response. *)
Definition deliver (op : data_op) (r : response) : M json :=
  if returns_collection op then
    data <- response_json r ;;
    Items <- prop data "Items" ;;
    ret (items_or_empty Items)
  else response_json r.

(** The sequence the four data operations share, written once. *)
Definition protocol (net : transport) (op : data_op) : M json :=
  ensureAuthenticated net ;;
  c <- get_this ;;
  if negb (truthy (userId c)) then throw (Error msg_no_user_id)
  else
    response <- fetch net (first_request c op) ;;
    c <- get_this ;;
    if expired c response then
      authResult <- authenticate net (the (username c)) (the (password c)) ;;
      adopt authResult ;;
      c <- get_this ;;
      retryResponse <- fetch net (retry_request c op) ;;
      if negb (ok retryResponse) then throw (request_error op retryResponse)
      else deliver op retryResponse
    else if negb (ok response) then throw (request_error op response)
    else deliver op response.

(** ** Scenarios

    Concrete clients, responses and networks on which the statements below
    are exercised. *)

Definition config_password_only : EmbyConfig :=
  {| ServerURL := "http://host:8096/"; ApiKey := None;
     Username := Some "alice"; Password := Some "secret";
     UserId := Some "u0"; AuthToken := None |}.

Definition config_with_token : EmbyConfig :=
  {| ServerURL := "http://host:8096/"; ApiKey := None;
     Username := Some "alice"; Password := Some "secret";
     UserId := Some "u0"; AuthToken := Some "stale" |}.

Definition config_no_credential : EmbyConfig :=
  {| ServerURL := "http://host:8096/"; ApiKey := None;
     Username := None; Password := None;
     UserId := Some "u0"; AuthToken := None |}.

Definition config_api_key : EmbyConfig :=
  {| ServerURL := "http://host:8096/"; ApiKey := Some "key";
     Username := Some "alice"; Password := Some "secret";
     UserId := Some "u0"; AuthToken := None |}.

Definition login_payload : json :=
  JObj [("AccessToken", JStr "fresh"); ("User", JObj [("Id", JStr "u1")])].

Definition response_login_ok : response :=
  {| status := 200; text := "{..}"; parsed := Some login_payload |}.

Definition response_401 : response :=
  {| status := 401; text := "token expired"; parsed := None |}.

Definition response_500 : response :=
  {| status := 500; text := "boom"; parsed := None |}.

Definition response_404 : response :=
  {| status := 404; text := "gone"; parsed := None |}.

(** A successful response whose body is an object without [Items]. *)
Definition response_no_items : response :=
  {| status := 200; text := "{}"; parsed := Some (JObj []) |}.

(** Logins succeed, every data call is refused as unauthorized. *)
Definition net_always_401 : transport :=
  fun _ r => if meth r =? "POST" then Responded response_login_ok
             else Responded response_401.

(** Nothing is authorized, not even the login. *)
Definition net_login_refused : transport :=
  fun _ _ => Responded response_401.

(** Logins succeed; a data call is refused while no login has been seen and
    answered with an empty object afterwards. *)
Definition net_expired_once : transport :=
  fun history r =>
    if meth r =? "POST" then Responded response_login_ok
    else if existsb (fun q => meth q =? "POST") history
         then Responded response_no_items
         else Responded response_401.

Definition net_500 : transport := fun _ _ => Responded response_500.

Definition net_404 : transport := fun _ _ => Responded response_404.

Definition net_no_items : transport := fun _ _ => Responded response_no_items.

Definition net_down : transport := fun _ _ => Rejected "ECONNREFUSED".

Definition sample_params : GetItemsParams :=
  {| ParentId := Some "lib1"; IncludeItemTypes := Some "Movie";
     Recursive := Some true; Fields := None; SortBy := None;
     SortOrder := None; StartIndex := Some 0; Limit := Some 20;
     searchTerm := None |}.

(** A login answer that lacks the [User] object. *)
Definition response_login_no_user : response :=
  {| status := 200; text := "{..}";
     parsed := Some (JObj [("AccessToken", JStr "fresh")]) |}.

Definition net_login_no_user : transport :=
  fun _ _ => Responded response_login_no_user.

Definition config_empty_api_key : EmbyConfig :=
  {| ServerURL := "http://host:8096/"; ApiKey := Some "";
     Username := Some "alice"; Password := Some "secret";
     UserId := Some "u0"; AuthToken := None |}.

Definition config_empty_token : EmbyConfig :=
  {| ServerURL := "http://host:8096/"; ApiKey := None;
     Username := None; Password := None;
     UserId := Some "u0"; AuthToken := Some "" |}.

Definition stream_external : MediaStream :=
  {| Type_ := "Subtitle"; Index := 5; DisplayTitle := Some "English (SRT)";
     Language := Some "eng"; Codec := Some "srt"; IsExternal := Some true;
     DeliveryUrl := Some "/sub1.vtt" |}.

Definition stream_embedded : MediaStream :=
  {| Type_ := "Subtitle"; Index := 2; DisplayTitle := None;
     Language := None; Codec := Some "ass"; IsExternal := None;
     DeliveryUrl := None |}.

Definition stream_video : MediaStream :=
  {| Type_ := "Video"; Index := 0; DisplayTitle := None;
     Language := None; Codec := Some "h264"; IsExternal := None;
     DeliveryUrl := None |}.

Definition item_with_subtitles : EmbyItem :=
  {| Id := "item1";
     MediaSources :=
       Some [ {| ms_Id := "src1";
                 MediaStreams :=
                   Some [stream_video; stream_external; stream_embedded] |} ] |}.

(** ** The admin route

    [POST /api/admin/emby].  The handler's collaborators (the auth cookie
    reader, the configuration loader, the user database) are inputs; what
    they answer, or that they throw, is given with the request. *)

Record AuthInfo := {
  auth_username : option string
}.

Record UserInfo := {
  role : string;
  banned : bool
}.

(** The object the route writes to [adminConfig.EmbyConfig]. *)
Record StoredEmbyConfig := {
  stored_Enabled : bool;
  stored_ServerURL : option string;
  stored_ApiKey : option string;
  stored_Username : option string;
  stored_Password : option string;
  stored_UserId : option string;
  stored_AuthToken : option string;
  stored_Libraries : json;
  stored_LastSyncTime : option Z
}.

(** The admin configuration: its [EmbyConfig] and everything else. *)
Record AdminConfig := {
  admin_EmbyConfig : option StoredEmbyConfig;
  admin_others : json
}.

(** The fields the handler destructures from the request body. *)
Record RequestBody := {
  body_action : option string;
  body_Enabled : bool;
  body_ServerURL : option string;
  body_ApiKey : option string;
  body_Username : option string;
  body_Password : option string;
  body_UserId : option string;
  body_Libraries : option json
}.

(** [process.env]. *)
Record Environment := {
  NEXT_PUBLIC_STORAGE_TYPE : option string;
  USERNAME : option string
}.

(** What the collaborators answer during one request; [error_message] is
    [error.message] for the exceptions the runtime words itself. *)
Record Collaborators := {
  request_json : outcome RequestBody;
  getAuthInfoFromCookie : outcome (option AuthInfo);
  getConfig : outcome AdminConfig;
  getUserInfoV2 : string -> outcome (option UserInfo);
  saveAdminConfig : AdminConfig -> outcome unit;
  Date_now : Z;
  error_message : exn -> string
}.

Inductive RouteBody :=
| ErrorBody (error : string)
| ResultBody (success : bool) (message : string).

(** [NextResponse.json(body, { status })]. *)
Record RouteResponse := {
  http_status : Z;
  route_body : RouteBody
}.

(** What a request did to the outside: the requests sent to the media
    server and the configurations handed to [db.saveAdminConfig]. *)
Record Effects := {
  sent : list request;
  saved : list AdminConfig
}.

Definition no_effects : Effects := {| sent := []; saved := [] |}.

(** A handler step continues, returns a response, or throws. *)
Inductive flow (A : Type) :=
| Continue (a : A)
| Respond (r : RouteResponse)
| Raise (e : exn).

Arguments Continue {A} a.
Arguments Respond {A} r.
Arguments Raise {A} e.

Definition Step (A : Type) : Type := Effects -> flow A * Effects.

Definition continue {A} (a : A) : Step A := fun eff => (Continue a, eff).

Definition reply {A} (status : Z) (b : RouteBody) : Step A :=
  fun eff => (Respond {| http_status := status; route_body := b |}, eff).

Definition hbind {A B} (c : Step A) (k : A -> Step B) : Step B :=
  fun eff =>
    match c eff with
    | (Continue a, eff') => k a eff'
    | (Respond r, eff') => (Respond r, eff')
    | (Raise e, eff') => (Raise e, eff')
    end.

Notation "x <~ c ;; k" := (hbind c (fun x => k))
  (at level 61, c at next level, right associativity).

(** [await] on what a collaborator answers. *)
Definition await {A} (o : outcome A) : Step A :=
  fun eff =>
    match o with
    | Return a => (Continue a, eff)
    | Throw e => (Raise e, eff)
    end.

(** A method call on the handler's client: it runs on the requests sent so
    far and leaves the client as the method left it. *)
Definition on_client {A} (m : M A) (client : EmbyClient)
  : Step (outcome A * EmbyClient) :=
  fun eff =>
    match m {| this := client; calls := sent eff |} with
    | (o, st) => (Continue (o, this st),
                  {| sent := calls st; saved := saved eff |})
    end.

(** [await db.saveAdminConfig(adminConfig)]. *)
Definition save (co : Collaborators) (adminConfig : AdminConfig) : Step unit :=
  fun eff =>
    let eff' := {| sent := sent eff;
                   saved := (saved eff ++ [adminConfig])%list |} in
    match saveAdminConfig co adminConfig with
    | Return _ => (Continue tt, eff')
    | Throw e => (Raise e, eff')
    end.

(** [(error as Error).message]. *)
Definition message_of_exn (co : Collaborators) (e : exn) : string :=
  match e with
  | Error m => m
  | _ => error_message co e
  end.

(** [adminConfig.EmbyConfig = emby]. *)
Definition with_EmbyConfig (adminConfig : AdminConfig) (emby : StoredEmbyConfig)
  : AdminConfig :=
  {| admin_EmbyConfig := Some emby; admin_others := admin_others adminConfig |}.

(** [a !== b] on a string and an optional string. *)
Definition differs (a : string) (b : option string) : bool :=
  match b with
  | Some s => negb (a =? s)
  | None => true
  end.

(** [action === name]. *)
Definition action_is (body : RequestBody) (name : string) : bool :=
  match body_action body with
  | Some a => a =? name
  | None => false
  end.

(** [!ApiKey && (!Username || !Password)]. *)
Definition lacks_credential (body : RequestBody) : bool :=
  negb (truthy (body_ApiKey body))
  && (negb (truthy (body_Username body)) || negb (truthy (body_Password body))).

(** [!ApiKey && Username && Password]. *)
Definition uses_password (body : RequestBody) : bool :=
  negb (truthy (body_ApiKey body)) && truthy (body_Username body)
  && truthy (body_Password body).

Definition msg_storage : string := "不支持本地存储进行管理员配置".
Definition msg_forbidden : string := "权限不足".
Definition msg_saved_disabled : string := "Emby 配置已保存（未启用）".
Definition msg_need_server : string := "请填写 Emby 服务器地址".
Definition msg_need_credential : string := "请填写 API Key 或用户名密码".
Definition msg_auth_failed : string := "Emby 认证失败: ".
Definition msg_unreachable : string := "Emby 连接失败，请检查服务器地址和认证信息".
Definition msg_saved : string := "Emby 配置已保存并测试成功".
Definition msg_test_ok : string := "Emby 连接测试成功".
Definition msg_unsupported : string := "不支持的操作".
Definition msg_failed : string := "Emby 配置保存失败: ".

(** The configuration stored for a disabled integration. *)
Definition disabled_config (body : RequestBody) : StoredEmbyConfig :=
  {| stored_Enabled := false;
     stored_ServerURL := js_or (body_ServerURL body) (Some "");
     stored_ApiKey := js_or (body_ApiKey body) (Some "");
     stored_Username := js_or (body_Username body) (Some "");
     stored_Password := js_or (body_Password body) (Some "");
     stored_UserId := None;
     stored_AuthToken := None;
     stored_Libraries := items_or_empty (body_Libraries body);
     stored_LastSyncTime := None |}.

(** The configuration stored once the connection test has passed. *)
Definition enabled_config (co : Collaborators) (body : RequestBody)
    (finalUserId authToken : option string) : StoredEmbyConfig :=
  {| stored_Enabled := true;
     stored_ServerURL := body_ServerURL body;
     stored_ApiKey := js_or (body_ApiKey body) None;
     stored_Username := js_or (body_Username body) None;
     stored_Password := js_or (body_Password body) None;
     stored_UserId := finalUserId;
     stored_AuthToken := authToken;
     stored_Libraries := items_or_empty (body_Libraries body);
     stored_LastSyncTime := Some (Date_now co) |}.

(** [testConfig] of the two actions; the test action passes no [UserId]. *)
Definition testConfig (body : RequestBody) (UserId : option string) : EmbyConfig :=
  {| ServerURL := the (body_ServerURL body);
     ApiKey := body_ApiKey body;
     Username := body_Username body;
     Password := body_Password body;
     UserId := UserId;
     AuthToken := None |}.

Section Route.

Variable env : Environment.
Variable co : Collaborators.
Variable net : transport.

(** The [try] block of the save action's login:
    [authResult = await client.authenticate(Username, Password);
     finalUserId = authResult.User.Id; authToken = authResult.AccessToken]. *)
Definition save_login (body : RequestBody) : M (option string * option string) :=
  authResult <- authenticate net (the (body_Username body))
                  (the (body_Password body)) ;;
  User <- prop authResult "User" ;;
  User_Id <- prop_of User "Id" ;;
  AccessToken <- prop authResult "AccessToken" ;;
  ret (as_string User_Id, as_string AccessToken).

Definition save_action (body : RequestBody) (adminConfig : AdminConfig)
  : Step unit :=
  if negb (body_Enabled body) then
    _ <~ save co (with_EmbyConfig adminConfig (disabled_config body)) ;;
    reply 200 (ResultBody true msg_saved_disabled)
  else if negb (truthy (body_ServerURL body)) then
    reply 400 (ErrorBody msg_need_server)
  else if lacks_credential body then
    reply 400 (ErrorBody msg_need_credential)
  else
    let client := new_EmbyClient (testConfig body (body_UserId body)) in
    logged <~
      (if uses_password body then
         r <~ on_client (save_login body) client ;;
         match r with
         | (Return (finalUserId, authToken), client) =>
             continue (finalUserId, authToken, client)
         | (Throw error, _) =>
             reply 400 (ErrorBody (msg_auth_failed ++ message_of_exn co error))
         end
       else continue (body_UserId body, None, client)) ;;
    let '(finalUserId, authToken, client) := logged in
    r <~ on_client (checkConnectivity net) client ;;
    isConnected <~ await (fst r) ;;
    if negb isConnected then reply 400 (ErrorBody msg_unreachable)
    else
      _ <~ save co (with_EmbyConfig adminConfig
                      (enabled_config co body finalUserId authToken)) ;;
      reply 200 (ResultBody true msg_saved).

Definition test_action (body : RequestBody) : Step unit :=
  if negb (truthy (body_ServerURL body)) then
    reply 400 (ErrorBody msg_need_server)
  else if lacks_credential body then
    reply 400 (ErrorBody msg_need_credential)
  else
    let client := new_EmbyClient (testConfig body None) in
    client <~
      (if uses_password body then
         r <~ on_client (authenticate net (the (body_Username body))
                           (the (body_Password body))) client ;;
         match r with
         | (Return _, client) => continue client
         | (Throw error, _) =>
             reply 200 (ResultBody false
                          (msg_auth_failed ++ message_of_exn co error))
         end
       else continue client) ;;
    r <~ on_client (checkConnectivity net) client ;;
    isConnected <~ await (fst r) ;;
    if negb isConnected then reply 200 (ResultBody false msg_unreachable)
    else reply 200 (ResultBody true msg_test_ok).

(** The [try] block of the handler. *)
Definition handler : Step unit :=
  body <~ await (request_json co) ;;
  authInfo <~ await (getAuthInfoFromCookie co) ;;
  match authInfo with
  | None => reply 401 (ErrorBody "Unauthorized")
  | Some info =>
      if negb (truthy (auth_username info)) then
        reply 401 (ErrorBody "Unauthorized")
      else
        let username := the (auth_username info) in
        adminConfig <~ await (getConfig co) ;;
        _ <~ (if differs username (USERNAME env) then
                userInfo <~ await (getUserInfoV2 co username) ;;
                match userInfo with
                | None => reply 401 (ErrorBody msg_forbidden)
                | Some u =>
                    if negb (role u =? "admin") || banned u then
                      reply 401 (ErrorBody msg_forbidden)
                    else continue tt
                end
              else continue tt) ;;
        _ <~ (if action_is body "save" then save_action body adminConfig
              else continue tt) ;;
        _ <~ (if action_is body "test" then test_action body
              else continue tt) ;;
        reply 400 (ErrorBody msg_unsupported)
  end.

Definition POST : RouteResponse * Effects :=
  let storageType := tpl (js_or (NEXT_PUBLIC_STORAGE_TYPE env)
                            (Some "localstorage")) in
  if storageType =? "localstorage" then
    ({| http_status := 400; route_body := ErrorBody msg_storage |}, no_effects)
  else
    match handler no_effects with
    | (Respond r, eff) => (r, eff)
    | (Raise error, eff) =>
        ({| http_status := 500;
            route_body := ErrorBody (msg_failed ++ message_of_exn co error) |},
         eff)
    | (Continue _, eff) =>
        ({| http_status := 400; route_body := ErrorBody msg_unsupported |}, eff)
    end.

End Route.

(** ** Vocabulary of the further properties *)

(** The fields of a client that no method assigns. *)
Definition same_settings (c c' : EmbyClient) : Prop :=
  serverUrl c' = serverUrl c /\ apiKey c' = apiKey c
  /\ username c' = username c /\ password c' = password c.

(** The re-login and retry of a data operation, after a 401. *)
Definition retry_phase (net : transport) (op : data_op) : M json :=
  relogin net ;;
  c <- get_this ;;
  retryResponse <- fetch net (retry_request c op) ;;
  if negb (ok retryResponse) then throw (request_error op retryResponse)
  else deliver op retryResponse.

(** A data operation from its user id check on. *)
Definition data_phase (net : transport) (op : data_op) : M json :=
  c <- get_this ;;
  if negb (truthy (userId c)) then throw (Error msg_no_user_id)
  else
    response <- fetch net (first_request c op) ;;
    c <- get_this ;;
    if expired c response then retry_phase net op
    else if negb (ok response) then throw (request_error op response)
    else deliver op response.

Inductive call_kind := LoginCall | DataCall.

(** A request of the given kind, made by client [c]: the login with the
    stored credentials, or a bare [GET] below the client's endpoint. *)
Definition call_matches (c : EmbyClient) (k : call_kind) (r : request) : Prop :=
  match k with
  | LoginCall => r = login_request c (the (username c)) (the (password c))
  | DataCall => exists suffix, r = GET (serverUrl c ++ suffix)
  end.

Definition gate_shapes : list (list call_kind) := [ []; [LoginCall] ].

Definition retry_shapes : list (list call_kind) :=
  [ [LoginCall]; [LoginCall; DataCall] ].

Definition data_shapes : list (list call_kind) :=
  [ []; [DataCall]; [DataCall; LoginCall]; [DataCall; LoginCall; DataCall] ].

(** The sequences of calls a data operation can make. *)
Definition op_shapes : list (list call_kind) :=
  [ []; [DataCall]; [DataCall; LoginCall]; [DataCall; LoginCall; DataCall];
    [LoginCall]; [LoginCall; DataCall]; [LoginCall; DataCall; LoginCall];
    [LoginCall; DataCall; LoginCall; DataCall] ].

Definition count_kind (k : call_kind) (ks : list call_kind) : nat :=
  length (filter (fun k' => match k, k' with
                            | LoginCall, LoginCall | DataCall, DataCall => true
                            | _, _ => false
                            end) ks).

(** A filter as it reaches the query: dropped when absent or empty. *)
Definition kept (v : option string) : option string :=
  if truthy v then v else None.

(** The query parameter of an optional value. *)
Definition param (k : string) (v : option string) : search_params :=
  match v with
  | Some s => [(k, s)]
  | None => []
  end.

(** [searchParams.has(k)]. *)
Definition sp_has (k : string) (l : search_params) : bool :=
  existsb (fun p => fst p =? k) l.

Definition hex_value (c : ascii) : option nat :=
  let n := nat_of_ascii c in
  if ((48 <=? n) && (n <=? 57))%nat then Some (n - 48)%nat
  else if ((65 <=? n) && (n <=? 70))%nat then Some (n - 55)%nat
  else if ((97 <=? n) && (n <=? 102))%nat then Some (n - 87)%nat
  else None.

(** How a server reads a form-encoded component back: [+] is a space and
    [%XY] the byte with that hexadecimal code. *)
Fixpoint form_decode (s : string) : option string :=
  match s with
  | EmptyString => Some EmptyString
  | String c rest =>
      if Ascii.eqb c "+" then option_map (String " ") (form_decode rest)
      else if Ascii.eqb c "%" then
        match rest with
        | String a (String b rest') =>
            match hex_value a, hex_value b, form_decode rest' with
            | Some x, Some y, Some r =>
                Some (String (ascii_of_nat (16 * x + y)) r)
            | _, _, _ => None
            end
        | _ => None
        end
      else option_map (String c) (form_decode rest)
  end.

(** The characters a form-encoded component is made of. *)
Definition form_output (c : ascii) : bool :=
  form_safe c || Ascii.eqb c "+" || Ascii.eqb c "%".

(** ** Vocabulary of the route properties *)

(** The storage check lets the request through. *)
Definition database_storage (env : Environment) : bool :=
  negb (tpl (js_or (NEXT_PUBLIC_STORAGE_TYPE env) (Some "localstorage"))
        =? "localstorage").

(** The user name the auth cookie gives, when it gives one. *)
Definition requester (co : Collaborators) : option string :=
  match getAuthInfoFromCookie co with
  | Return (Some info) => kept (auth_username info)
  | _ => None
  end.

(** The permission check lets the request through: the requester is the
    owner named by the environment, or an admin that is not banned. *)
Definition authorized (env : Environment) (co : Collaborators) : bool :=
  match requester co with
  | None => false
  | Some username =>
      if differs username (USERNAME env) then
        match getUserInfoV2 co username with
        | Return (Some u) => (role u =? "admin") && negb (banned u)
        | _ => false
        end
      else true
  end.

(** How the handler ends: with the response returned, or with the 500 of
    its [catch]. *)
Definition finish (co : Collaborators) (r : flow unit * Effects)
  : RouteResponse * Effects :=
  match r with
  | (Respond r, eff) => (r, eff)
  | (Raise error, eff) =>
      ({| http_status := 500;
          route_body := ErrorBody (msg_failed ++ message_of_exn co error) |},
       eff)
  | (Continue _, eff) =>
      ({| http_status := 400; route_body := ErrorBody msg_unsupported |}, eff)
  end.

(** A step that never falls through: it returns a response or throws. *)
Definition ends (r : flow unit * Effects) : Prop :=
  match fst r with
  | Continue _ => False
  | _ => True
  end.

(** The end of the save action: probe, then store. *)
Definition probe_and_save (co : Collaborators) (net : transport)
    (body : RequestBody) (adminConfig : AdminConfig)
    (finalUserId authToken : option string) (client : EmbyClient) : Step unit :=
  r <~ on_client (checkConnectivity net) client ;;
  isConnected <~ await (fst r) ;;
  if negb isConnected then reply 400 (ErrorBody msg_unreachable)
  else
    _ <~ save co (with_EmbyConfig adminConfig
                    (enabled_config co body finalUserId authToken)) ;;
    reply 200 (ResultBody true msg_saved).

(** The end of the test action: probe, then report. *)
Definition probe_and_report (net : transport) (client : EmbyClient) : Step unit :=
  r <~ on_client (checkConnectivity net) client ;;
  isConnected <~ await (fst r) ;;
  if negb isConnected then reply 200 (ResultBody false msg_unreachable)
  else reply 200 (ResultBody true msg_test_ok).

(** The effects once [q] has been sent. *)
Definition and_sent (q : request) (eff : Effects) : Effects :=
  {| sent := (sent eff ++ [q])%list; saved := saved eff |}.

(** The effects once [adminConfig] has been handed to the database. *)
Definition and_saved (adminConfig : AdminConfig) (eff : Effects) : Effects :=
  {| sent := sent eff; saved := (saved eff ++ [adminConfig])%list |}.

(** The probe answered with a success. *)
Definition reachable (net : transport) (history : list request) (q : request)
  : bool :=
  match net history q with
  | Responded r => ok r
  | Rejected _ => false
  end.

(** The request passes the storage check, its body parses to [body], the
    configuration loads as [adminConfig] and the permission check passes. *)
Definition admitted (env : Environment) (co : Collaborators)
    (body : RequestBody) (adminConfig : AdminConfig) : Prop :=
  database_storage env = true
  /\ request_json co = Return body
  /\ getConfig co = Return adminConfig
  /\ authorized env co = true.

(** A step that hands nothing to the database. *)
Definition stores_nothing {A} (c : Step A) : Prop :=
  forall eff, saved (snd (c eff)) = saved eff.

(** The requests of an action: at most a login and a probe, both below the
    address of the body. *)
Definition on_address (body : RequestBody) (l : list request) : Prop :=
  (length l <= 2)%nat
  /\ Forall (fun q => exists path,
                 url q = normalize (the (body_ServerURL body)) ++ path) l.

(** The client of the save action and its probe. *)
Definition save_client (body : RequestBody) : EmbyClient :=
  new_EmbyClient (testConfig body (body_UserId body)).

(** ** Further scenarios *)

Definition config_token_only : EmbyConfig :=
  {| ServerURL := "http://host:8096/emby"; ApiKey := None;
     Username := None; Password := None;
     UserId := Some "u0"; AuthToken := Some "stale" |}.

Definition config_key_and_token : EmbyConfig :=
  {| ServerURL := "http://host:8096"; ApiKey := Some "key";
     Username := None; Password := None;
     UserId := Some "u0"; AuthToken := Some "stale" |}.

Definition config_key_no_user : EmbyConfig :=
  {| ServerURL := "http://host:8096"; ApiKey := Some "key";
     Username := Some "alice"; Password := Some "secret";
     UserId := None; AuthToken := None |}.

(** A token with characters the form encoding escapes. *)
Definition config_odd_token : EmbyConfig :=
  {| ServerURL := "http://host:8096"; ApiKey := None;
     Username := None; Password := None;
     UserId := Some "u0"; AuthToken := Some "a/b c=" |}.

(** An external subtitle for which the server gave no delivery URL. *)
Definition stream_external_without_url : MediaStream :=
  {| Type_ := "Subtitle"; Index := 7; DisplayTitle := None;
     Language := Some "fra"; Codec := None; IsExternal := Some true;
     DeliveryUrl := None |}.

Definition item_external_without_url : EmbyItem :=
  {| Id := "item2";
     MediaSources :=
       Some [ {| ms_Id := "src2";
                 MediaStreams := Some [stream_external_without_url] |} ] |}.

Definition env_database : Environment :=
  {| NEXT_PUBLIC_STORAGE_TYPE := Some "redis"; USERNAME := Some "root" |}.

Definition env_default : Environment :=
  {| NEXT_PUBLIC_STORAGE_TYPE := None; USERNAME := Some "root" |}.

Definition admin_config0 : AdminConfig :=
  {| admin_EmbyConfig := None; admin_others := JObj [("SiteName", JStr "tv")] |}.

(** The owner sends [body]; every collaborator answers. *)
Definition owner_sends (body : RequestBody) : Collaborators :=
  {| request_json := Return body;
     getAuthInfoFromCookie := Return (Some {| auth_username := Some "root" |});
     getConfig := Return admin_config0;
     getUserInfoV2 := fun _ => Return None;
     saveAdminConfig := fun _ => Return tt;
     Date_now := 1700000000000;
     error_message := fun _ => "internal error" |}.

(** A plain user sends [body]. *)
Definition user_sends (body : RequestBody) : Collaborators :=
  {| request_json := Return body;
     getAuthInfoFromCookie := Return (Some {| auth_username := Some "bob" |});
     getConfig := Return admin_config0;
     getUserInfoV2 := fun _ => Return (Some {| role := "user"; banned := false |});
     saveAdminConfig := fun _ => Return tt;
     Date_now := 1700000000000;
     error_message := fun _ => "internal error" |}.

(** The body is not JSON. *)
Definition garbage_sent : Collaborators :=
  {| request_json := Throw SyntaxError;
     getAuthInfoFromCookie := Return None;
     getConfig := Return admin_config0;
     getUserInfoV2 := fun _ => Return None;
     saveAdminConfig := fun _ => Return tt;
     Date_now := 1700000000000;
     error_message := fun _ => "Unexpected token" |}.

Definition body_save_password : RequestBody :=
  {| body_action := Some "save"; body_Enabled := true;
     body_ServerURL := Some "http://host:8096/"; body_ApiKey := Some "";
     body_Username := Some "alice"; body_Password := Some "secret";
     body_UserId := Some "typed-by-hand"; body_Libraries := None |}.

Definition body_save_key : RequestBody :=
  {| body_action := Some "save"; body_Enabled := true;
     body_ServerURL := Some "http://host:8096/"; body_ApiKey := Some "key";
     body_Username := None; body_Password := None;
     body_UserId := Some "u0"; body_Libraries := None |}.

Definition body_save_disabled : RequestBody :=
  {| body_action := Some "save"; body_Enabled := false;
     body_ServerURL := None; body_ApiKey := None;
     body_Username := None; body_Password := None;
     body_UserId := None; body_Libraries := None |}.

Definition body_test_key : RequestBody :=
  {| body_action := Some "test"; body_Enabled := true;
     body_ServerURL := Some "http://host:8096/"; body_ApiKey := Some "key";
     body_Username := None; body_Password := None;
     body_UserId := None; body_Libraries := None |}.

Definition body_save_no_credential : RequestBody :=
  {| body_action := Some "save"; body_Enabled := true;
     body_ServerURL := Some "http://host:8096/"; body_ApiKey := None;
     body_Username := Some "alice"; body_Password := None;
     body_UserId := None; body_Libraries := None |}.

(** Every request is answered with a success and the login payload. *)
Definition net_all_ok : transport := fun _ _ => Responded response_login_ok.

Definition body_test_password : RequestBody :=
  {| body_action := Some "test"; body_Enabled := true;
     body_ServerURL := Some "http://host:8096/"; body_ApiKey := None;
     body_Username := Some "alice"; body_Password := Some "secret";
     body_UserId := None; body_Libraries := None |}.

(** * Properties *)

(** ** Strings *)

Lemma endsWith_here (s : string) : endsWith s s = true.
Proof.
  destruct s; cbn [endsWith]; now rewrite String.eqb_refl.
Qed.

Lemma endsWith_cons (c : ascii) (s suffix : string) :
  endsWith (String c s) suffix
  = if String c s =? suffix then true else endsWith s suffix.
Proof. reflexivity. Qed.

Lemma endsWith_append (y suffix : string) : endsWith (y ++ suffix) suffix = true.
Proof.
  induction y as [|c y IH].
  - apply endsWith_here.
  - change (String c y ++ suffix) with (String c (y ++ suffix)).
    rewrite endsWith_cons, IH.
    now destruct (String c (y ++ suffix) =? suffix).
Qed.

Lemma endsWith_split (s suffix : string) :
  endsWith s suffix = true -> exists y, s = y ++ suffix.
Proof.
  induction s as [|c s IH].
  - cbn [endsWith].
    destruct (String.eqb_spec "" suffix) as [E|E]; [|discriminate].
    intros _. exists "". now rewrite <- E.
  - rewrite endsWith_cons.
    destruct (String.eqb_spec (String c s) suffix) as [E|E].
    + intros _. exists "". exact E.
    + intros H. destruct (IH H) as [y Hy]. exists (String c y).
      simpl. now rewrite Hy.
Qed.

Lemma strip_cons (c d : ascii) (r : string) :
  strip_trailing_slash (String c (String d r))
  = String c (strip_trailing_slash (String d r)).
Proof. reflexivity. Qed.

(** A string that ends with the API root has no trailing slash to lose. *)
Lemma strip_emby (y : string) :
  strip_trailing_slash (y ++ "/emby") = y ++ "/emby".
Proof.
  induction y as [|c y IH]; [reflexivity|].
  destruct y as [|d y].
  - reflexivity.
  - change (String c (String d y) ++ "/emby")
      with (String c (String d (y ++ "/emby"))).
    rewrite strip_cons. f_equal. exact IH.
Qed.

(** Exactly one slash is removed. *)
Lemma strip_one_slash (x : string) : strip_trailing_slash (x ++ "/") = x.
Proof.
  induction x as [|c x IH]; [reflexivity|].
  destruct x as [|d x].
  - reflexivity.
  - change (String c (String d x) ++ "/") with (String c (String d (x ++ "/"))).
    rewrite strip_cons. f_equal. exact IH.
Qed.

Lemma normalize_ends_with_root (x : string) :
  exists y, normalize x = y ++ "/emby".
Proof.
  unfold normalize.
  destruct (endsWith (strip_trailing_slash x) "/emby") eqn:E; simpl.
  - now apply endsWith_split.
  - now exists (strip_trailing_slash x).
Qed.

(** An address that does not end with a slash loses nothing. *)
Lemma strip_without_slash (x : string) :
  endsWith x "/" = false -> strip_trailing_slash x = x.
Proof.
  induction x as [|c x IH]; [reflexivity|].
  destruct x as [|d x].
  - cbn [endsWith strip_trailing_slash String.eqb].
    destruct (Ascii.eqb c "/"); [discriminate | reflexivity].
  - rewrite endsWith_cons, strip_cons.
    destruct (String c (String d x) =? "/"); [discriminate|].
    intros H. now rewrite (IH H).
Qed.

(** C8.  The constructor stores the normalized endpoint; normalization drops
    one trailing slash, appends the API root [/emby] when the result does not
    end with it (whether or not a slash was dropped), and is idempotent;
    [http://host:8096], [http://host:8096/] and [http://host:8096/emby] all
    normalize to [http://host:8096/emby]. *)
Theorem normalize_idempotent :
  (forall config, serverUrl (new_EmbyClient config) = normalize (ServerURL config))
  /\ (forall x, normalize (x ++ "/")
                = if endsWith x "/emby" then x else x ++ "/emby")
  /\ (forall x, normalize (normalize x) = normalize x)
  /\ normalize "http://host:8096/" = "http://host:8096/emby"
  /\ normalize "http://host:8096/emby" = "http://host:8096/emby"
  /\ (forall x, endsWith x "/" = false ->
                normalize x = if endsWith x "/emby" then x else x ++ "/emby")
  /\ (forall x, endsWith x "/" = false -> endsWith x "/emby" = false ->
                normalize x = x ++ "/emby"
                /\ normalize (x ++ "/") = x ++ "/emby")
  /\ normalize "http://host:8096" = "http://host:8096/emby".
Proof.
  split; [reflexivity|].
  split.
  { intros x. unfold normalize. rewrite strip_one_slash.
    now destruct (endsWith x "/emby"). }
  split.
  { intros x. destruct (normalize_ends_with_root x) as [y Hy].
    rewrite Hy. unfold normalize.
    now rewrite strip_emby, endsWith_append. }
  split; [reflexivity|]. split; [reflexivity|].
  split.
  { intros x Hx. unfold normalize. rewrite (strip_without_slash _ Hx).
    now destruct (endsWith x "/emby"). }
  split; [|reflexivity].
  intros x Hx Hroot. unfold normalize.
  now rewrite (strip_without_slash _ Hx), strip_one_slash, Hroot.
Qed.

Lemma normalize_idempotent_witness :
  normalize "http://media.example:8096/jellyfin"
  = "http://media.example:8096/jellyfin/emby"
  /\ normalize "http://media.example:8096/jellyfin/"
     = "http://media.example:8096/jellyfin/emby".
Proof.
  destruct normalize_idempotent as (_ & _ & _ & _ & _ & _ & H & _).
  exact (H "http://media.example:8096/jellyfin" eq_refl eq_refl).
Defined.

(** ** Resource URLs *)

Lemma js_or_absent (a b : option string) :
  truthy a = false -> js_or a b = b.
Proof. unfold js_or. now intros ->. Qed.

Lemma js_or_present (a b : option string) :
  truthy a = true -> js_or a b = a.
Proof. unfold js_or. now intros ->. Qed.

(** C10, as the code has it.  With no API key and no token (each absent or
    empty), both variants of [getStreamUrl] still write the credential
    parameter: filled with the text [undefined] when the token is absent,
    left empty when the token is the empty string.  [getImageUrl] leaves the
    [api_key] parameter out: its query string is empty or holds [maxWidth]
    alone. *)
Theorem stream_url_writes_undefined
    (c : EmbyClient) (itemId : string) (imageType : option ImageType)
    (maxWidth : option Z) :
  truthy (apiKey c) = false ->
  truthy (authToken c) = false ->
  let written :=
    match authToken c with
    | None => "undefined"
    | Some _ => ""
    end in
  getStreamUrl c itemId (Some true)
  = serverUrl c ++ "/Videos/" ++ itemId ++ "/stream?Static=true&api_key="
    ++ written
  /\ getStreamUrl c itemId None
     = serverUrl c ++ "/Videos/" ++ itemId ++ "/stream?Static=true&api_key="
       ++ written
  /\ getStreamUrl c itemId (Some false)
     = serverUrl c ++ "/Videos/" ++ itemId ++ "/master.m3u8?api_key=" ++ written
  /\ getImageUrl c itemId imageType maxWidth
     = serverUrl c ++ "/Items/" ++ itemId ++ "/Images/"
       ++ ImageType_toString (match imageType with Some t => t | None => Primary end)
       ++ match maxWidth with
          | Some w =>
              if (w =? 0)%Z then ""
              else "?maxWidth=" ++ form_encode (num_toString w)
          | None => ""
          end.
Proof.
  intros Hkey Htok written.
  assert (Hprint : tpl (authToken c) = written).
  { subst written. destruct (authToken c) as [t|]; [|reflexivity].
    cbn [truthy] in Htok. cbn [tpl].
    destruct (String.eqb_spec t ""); [assumption | discriminate]. }
  unfold getStreamUrl, getImageUrl.
  rewrite (js_or_absent _ _ Hkey), Hprint.
  split; [reflexivity|]. split; [reflexivity|]. split; [reflexivity|].
  assert (Hnone : forall l, set_if_truthy "api_key" (authToken c) l = l).
  { intros l. unfold set_if_truthy. rewrite Htok. now destruct (authToken c). }
  rewrite Hnone.
  destruct maxWidth as [w|]; [|reflexivity].
  destruct (w =? 0)%Z; reflexivity.
Qed.

Lemma stream_url_writes_undefined_witness :
  getStreamUrl (new_EmbyClient config_no_credential) "item1" (Some false)
  = "http://host:8096/emby/Videos/item1/master.m3u8?api_key=undefined"
  /\ getImageUrl (new_EmbyClient config_no_credential) "item1" None (Some 300)
     = "http://host:8096/emby/Items/item1/Images/Primary?maxWidth=300".
Proof.
  destruct (stream_url_writes_undefined (new_EmbyClient config_no_credential)
              "item1" None (Some 300) eq_refl eq_refl) as (_ & _ & H3 & H4).
  split; [exact H3 | exact H4].
Defined.

(** C10 as stated fails for a token that is the empty string: neither the
    API key nor the token is set, and the stream URLs carry an empty
    credential, not the text [undefined]. *)
Lemma stream_url_empty_token_counterexample :
  let c := new_EmbyClient config_empty_token in
  truthy (apiKey c) = false
  /\ truthy (authToken c) = false
  /\ getStreamUrl c "item1" None
     = "http://host:8096/emby/Videos/item1/stream?Static=true&api_key="
  /\ getStreamUrl c "item1" (Some false)
     = "http://host:8096/emby/Videos/item1/master.m3u8?api_key="
  /\ includes (getStreamUrl c "item1" None) "api_key=undefined" = false
  /\ includes (getStreamUrl c "item1" (Some false)) "api_key=undefined" = false.
Proof. repeat split. Qed.

(** An item without a media source has no subtitle. *)
Lemma getSubtitles_no_source (c : EmbyClient) (item : EmbyItem) :
  MediaSources item = None \/ MediaSources item = Some [] ->
  getSubtitles c item = [].
Proof.
  unfold getSubtitles. now intros [-> | ->].
Qed.

Lemma Forall2_map_r {A B} (P : A -> B -> Prop) (f : A -> B) (l : list A) :
  (forall a, In a l -> P a (f a)) -> Forall2 P l (map f l).
Proof.
  induction l as [|a l IH]; intros H; simpl; constructor.
  - apply H. now left.
  - apply IH. intros b Hb. apply H. now right.
Qed.

Lemma truthy_nonempty (s : string) : s <> "" -> truthy (Some s) = true.
Proof.
  intros H. simpl. now destruct (String.eqb_spec s "").
Qed.





(** ** The four data operations follow one protocol *)

Lemma sp_delete_idem (k : string) (l : search_params) :
  sp_delete k (sp_delete k l) = sp_delete k l.
Proof.
  unfold sp_delete. induction l as [|[k' v'] l IH]; simpl; [reflexivity|].
  destruct (k' =? k) eqn:E; simpl; [exact IH|].
  now rewrite E, IH.
Qed.

(** Setting a parameter twice keeps the second value, at the place of the
    first. *)
Lemma sp_set_set (k v v' : string) (l : search_params) :
  sp_set k v (sp_set k v' l) = sp_set k v l.
Proof.
  induction l as [|[k0 v0] l IH]; simpl.
  - now rewrite String.eqb_refl.
  - destruct (k0 =? k) eqn:E; simpl.
    + now rewrite String.eqb_refl, sp_delete_idem.
    + now rewrite E, IH.
Qed.

Lemma sp_set_after_credential (k v : string) (token : option string)
    (l : search_params) :
  sp_set k v (set_if_truthy k token l) = sp_set k v l.
Proof.
  unfold set_if_truthy. destruct token as [t|]; [|reflexivity].
  destruct (truthy (Some t)); [apply sp_set_set | reflexivity].
Qed.

Lemma run_op_protocol (net : transport) (op : data_op) (st : state) :
  run_op net op st = protocol net op st.
Proof.
  destruct op as [params|itemId|seriesId|seriesId seasonId];
    try reflexivity.
  unfold run_op, protocol, getItems, first_request, retry_request, bind.
  destruct (ensureAuthenticated net st) as [[[]|e] st1]; [|reflexivity].
  cbn [get_this].
  destruct (negb (truthy (userId (this st1)))); [reflexivity|].
  destruct (fetch net _ st1) as [[r1|e] st2]; [|reflexivity].
  destruct (expired (this st2) r1); [|reflexivity].
  destruct (authenticate net _ _ st2) as [[d|e] st3]; [|reflexivity].
  destruct (adopt d st3) as [[[]|e] st4]; [|reflexivity].
  now rewrite sp_set_after_credential.
Qed.

(** ** Steps of the monad *)

Lemma fetch_responded net r st resp :
  net (calls st) r = Responded resp ->
  fetch net r st = (Return resp, logged r st).
Proof. unfold fetch, logged. now intros ->. Qed.

Lemma fetch_rejected net r st reason :
  net (calls st) r = Rejected reason ->
  fetch net r st = (Throw (FetchError reason), logged r st).
Proof. unfold fetch, logged. now intros ->. Qed.

Lemma adopt_payload authResult token user st :
  auth_payload authResult token user ->
  adopt authResult st
  = (Return tt,
     {| this := logged_in (this st) (Some token) (Some user);
        calls := calls st |}).
Proof.
  intros (fields & ufields & -> & Htok & Huser & Hid).
  unfold adopt, bind. cbn [prop ret]. rewrite Htok.
  cbn [set_authToken as_string this calls]. rewrite Huser.
  cbn [prop_of prop ret]. rewrite Hid. reflexivity.
Qed.

Lemma authenticate_refused net username password st r :
  net (calls st) (login_request (this st) username password) = Responded r ->
  ok r = false ->
  authenticate net username password st
  = (Throw (Error (status_message label_login r)),
     logged (login_request (this st) username password) st).
Proof.
  intros Hnet Hok. unfold authenticate, bind. cbn [get_this].
  rewrite (fetch_responded _ _ _ _ Hnet), Hok. reflexivity.
Qed.

Lemma authenticate_accepted net username password st r data token user :
  net (calls st) (login_request (this st) username password) = Responded r ->
  ok r = true ->
  parsed r = Some data ->
  auth_payload data token user ->
  authenticate net username password st
  = (Return data,
     {| this := logged_in (this st) (Some token) (Some user);
        calls := (calls st ++ [login_request (this st) username password])%list |}).
Proof.
  intros Hnet Hok Hparsed (fields & ufields & -> & Htok & Huser & Hid).
  unfold authenticate, bind. cbn [get_this].
  rewrite (fetch_responded _ _ _ _ Hnet), Hok.
  unfold response_json. rewrite Hparsed.
  cbn [negb ret prop]. rewrite Htok.
  cbn [set_authToken as_string this calls logged]. rewrite Huser.
  cbn [prop_of prop ret]. rewrite Hid. reflexivity.
Qed.

Lemma ensureAuthenticated_ready net st :
  truthy (apiKey (this st)) = true \/ truthy (authToken (this st)) = true ->
  ensureAuthenticated net st = (Return tt, st).
Proof.
  unfold ensureAuthenticated, bind. cbn [get_this].
  intros [H|H]; rewrite H; [reflexivity|].
  now destruct (truthy (apiKey (this st))).
Qed.

Lemma ensureAuthenticated_idle net st :
  truthy (apiKey (this st)) = false ->
  truthy (authToken (this st)) = false ->
  truthy (username (this st)) && truthy (password (this st)) = false ->
  ensureAuthenticated net st = (Return tt, st).
Proof.
  unfold ensureAuthenticated, bind. cbn [get_this].
  now intros -> -> ->.
Qed.

(** ** The login *)

(** C6, as the code has it.  [authenticate] makes the one login call.  On a
    status that is not a success it throws an error whose message carries the
    status code and the body the server sent, and leaves [authToken] and
    [userId] as they were.  On a success whose body is
    [{ AccessToken, User: { Id } }] it stores both into the session and
    returns the parsed body.  It is not atomic beyond that: on a success
    whose body holds an [AccessToken] and no [User] object the token is
    stored before the read of [User.Id] throws, and [userId] stays as it
    was; on a success whose body cannot be parsed, or is [null], it throws
    with the session untouched. *)
Theorem authenticate_session_update
    (net : transport) (username password : string) (st : state) (r : response) :
  net (calls st) (login_request (this st) username password) = Responded r ->
  let result := authenticate net username password st in
  calls (snd result)
  = (calls st ++ [login_request (this st) username password])%list
  /\ (ok r = false ->
      fst result
      = Throw (Error ("Emby 认证失败 (" ++ num_toString (status r) ++ "): "
                      ++ text r))
      /\ this (snd result) = this st)
  /\ (forall data token user,
         ok r = true -> parsed r = Some data -> auth_payload data token user ->
         fst result = Return data
         /\ authToken (this (snd result)) = Some token
         /\ userId (this (snd result)) = Some user
         /\ field data "AccessToken" = Some (JStr token)
         /\ this (snd result) = logged_in (this st) (Some token) (Some user))
  /\ (forall fields token,
         ok r = true -> parsed r = Some (JObj fields) ->
         assoc "AccessToken" fields = Some (JStr token) ->
         assoc "User" fields = None \/ assoc "User" fields = Some JNull ->
         fst result = Throw TypeError
         /\ authToken (this (snd result)) = Some token
         /\ userId (this (snd result)) = userId (this st)
         /\ this (snd result) = logged_in (this st) (Some token) (userId (this st)))
  /\ (ok r = true -> parsed r = None ->
      fst result = Throw SyntaxError /\ this (snd result) = this st)
  /\ (ok r = true -> parsed r = Some JNull ->
      fst result = Throw TypeError /\ this (snd result) = this st).
Proof.
  intros Hnet result. subst result. split; [|split; [|split; [|split; [|split]]]].
  - unfold authenticate, bind. cbn [get_this].
    rewrite (fetch_responded _ _ _ _ Hnet).
    destruct (negb (ok r)); [reflexivity|].
    unfold response_json. destruct (parsed r) as [data|]; [|reflexivity].
    destruct data as [| | | | |fields]; try reflexivity.
    cbn [prop ret set_authToken]. cbn [this calls logged].
    destruct (assoc "User" fields) as [u|]; [|reflexivity].
    cbn [prop_of]. now destruct u.
  - intros Hok. now rewrite (authenticate_refused _ _ _ _ _ Hnet Hok).
  - intros data token user Hok Hparsed Hpay.
    rewrite (authenticate_accepted _ _ _ _ _ _ _ _ Hnet Hok Hparsed Hpay).
    destruct Hpay as (fields & ufields & -> & Htok & _).
    repeat split. exact Htok.
  - intros fields token Hok Hparsed Htok Huser.
    unfold authenticate, bind. cbn [get_this].
    rewrite (fetch_responded _ _ _ _ Hnet), Hok.
    unfold response_json. rewrite Hparsed.
    cbn [negb ret prop]. rewrite Htok.
    cbn [set_authToken as_string this calls logged].
    destruct Huser as [-> | ->]; repeat split.
  - intros Hok Hparsed.
    unfold authenticate, bind. cbn [get_this].
    rewrite (fetch_responded _ _ _ _ Hnet), Hok.
    unfold response_json. rewrite Hparsed. split; reflexivity.
  - intros Hok Hparsed.
    unfold authenticate, bind. cbn [get_this].
    rewrite (fetch_responded _ _ _ _ Hnet), Hok.
    unfold response_json. rewrite Hparsed. split; reflexivity.
Qed.

Lemma authenticate_session_update_witness :
  (fst (authenticate net_login_refused "alice" "secret" (fresh config_with_token))
   = Throw (Error "Emby 认证失败 (401): token expired")
   /\ authToken (this (snd (authenticate net_login_refused "alice" "secret"
                              (fresh config_with_token)))) = Some "stale")
  /\ authToken (this (snd (authenticate net_always_401 "alice" "secret"
                             (fresh config_with_token)))) = Some "fresh"
  /\ (fst (authenticate net_login_no_user "alice" "secret"
             (fresh config_with_token)) = Throw TypeError
      /\ authToken (this (snd (authenticate net_login_no_user "alice" "secret"
                                 (fresh config_with_token)))) = Some "fresh"
      /\ userId (this (snd (authenticate net_login_no_user "alice" "secret"
                              (fresh config_with_token)))) = Some "u0").
Proof.
  split; [|split].
  - destruct (authenticate_session_update net_login_refused "alice" "secret"
                (fresh config_with_token) response_401 eq_refl)
      as (_ & H & _).
    destruct (H eq_refl) as [H1 H2]. split; [exact H1 | now rewrite H2].
  - destruct (authenticate_session_update net_always_401 "alice" "secret"
                (fresh config_with_token) response_login_ok eq_refl)
      as (_ & _ & H & _).
    refine (proj1 (proj2 (H login_payload "fresh" "u1" eq_refl eq_refl _))).
    exists [("AccessToken", JStr "fresh"); ("User", JObj [("Id", JStr "u1")])],
           [("Id", JStr "u1")].
    repeat split.
  - destruct (authenticate_session_update net_login_no_user "alice" "secret"
                (fresh config_with_token) response_login_no_user eq_refl)
      as (_ & _ & _ & H & _).
    destruct (H [("AccessToken", JStr "fresh")] "fresh" eq_refl eq_refl eq_refl
                (or_introl eq_refl)) as (H1 & H2 & H3 & _).
    split; [exact H1 | split; [exact H2 | exact H3]].
Defined.

(** C6 as stated fails: the login is not atomic.  A success status whose
    body holds a token and no [User] makes [authenticate] fail, and the
    session's token has been replaced all the same. *)
Lemma authenticate_not_atomic_counterexample :
  let st := fresh config_with_token in
  let result := authenticate net_login_no_user "alice" "secret" st in
  net_login_no_user (calls st) (login_request (this st) "alice" "secret")
  = Responded response_login_no_user
  /\ ok response_login_no_user = true
  /\ throws (fst result) = true
  /\ fst result = Throw TypeError
  /\ authToken (this st) = Some "stale"
  /\ authToken (this (snd result)) = Some "fresh"
  /\ this (snd result) <> this st.
Proof.
  repeat split. cbv zeta. intros H.
  apply (f_equal authToken) in H. vm_compute in H. discriminate H.
Qed.

(** ** The connectivity probe *)

(** C7.  [checkConnectivity] returns for every client and every network:
    with [true] exactly when the network answers the probe with a successful
    response, with [false] when the status is not a success and when the
    transport raises.  It leaves the session alone. *)
Theorem checkConnectivity_never_throws (net : transport) (st : state) :
  checkConnectivity net st
  = (Return
       match net (calls st) (GET (probe_url (this st))) with
       | Responded r => ok r
       | Rejected _ => false
       end,
     logged (GET (probe_url (this st))) st).
Proof.
  unfold checkConnectivity, try_catch, bind. cbn [get_this].
  unfold fetch, logged.
  now destruct (net (calls st) (GET (probe_url (this st)))).
Qed.

(** ** The protocol, step by step *)

Lemma deliver_state op r st : snd (deliver op r st) = st.
Proof.
  unfold deliver, response_json, bind.
  destruct (returns_collection op), (parsed r) as [data|]; try reflexivity.
  now destruct data.
Qed.

Lemma deliver_result op r st st' : fst (deliver op r st) = fst (deliver op r st').
Proof.
  unfold deliver, response_json, bind.
  destruct (returns_collection op), (parsed r) as [data|]; try reflexivity.
  now destruct data.
Qed.

Lemma expired_with_key c r : truthy (apiKey c) = true -> expired c r = false.
Proof.
  unfold expired. intros ->. now rewrite andb_false_r.
Qed.

Lemma expired_without_password c r :
  truthy (username c) && truthy (password c) = false -> expired c r = false.
Proof.
  unfold expired. intros H.
  destruct (truthy (username c)), (truthy (password c)); try discriminate;
    now rewrite ?andb_false_r.
Qed.

Lemma expired_401 c r :
  status r = 401 -> truthy (username c) = true -> truthy (password c) = true ->
  truthy (apiKey c) = false -> expired c r = true.
Proof.
  unfold expired. now intros -> -> -> ->.
Qed.

(** A response with status 401 is not successful. *)
Lemma unauthorized_not_ok r : status r = 401 -> ok r = false.
Proof. unfold ok. now intros ->. Qed.

Lemma protocol_no_user net op st :
  ensureAuthenticated net st = (Return tt, st) ->
  truthy (userId (this st)) = false ->
  protocol net op st = (Throw (Error msg_no_user_id), st).
Proof.
  intros Hens Hid. unfold protocol, bind. rewrite Hens. cbn [get_this].
  now rewrite Hid.
Qed.

Lemma protocol_rejected net op st reason :
  ensureAuthenticated net st = (Return tt, st) ->
  truthy (userId (this st)) = true ->
  net (calls st) (first_request (this st) op) = Rejected reason ->
  protocol net op st
  = (Throw (FetchError reason), logged (first_request (this st) op) st).
Proof.
  intros Hens Hid Hnet. unfold protocol, bind. rewrite Hens. cbn [get_this].
  rewrite Hid. cbn [negb]. now rewrite (fetch_rejected _ _ _ _ Hnet).
Qed.

Lemma protocol_plain net op st r :
  ensureAuthenticated net st = (Return tt, st) ->
  truthy (userId (this st)) = true ->
  net (calls st) (first_request (this st) op) = Responded r ->
  expired (this st) r = false ->
  protocol net op st
  = if negb (ok r)
    then (Throw (request_error op r), logged (first_request (this st) op) st)
    else deliver op r (logged (first_request (this st) op) st).
Proof.
  intros Hens Hid Hnet Hexp. unfold protocol, bind. rewrite Hens.
  cbn [get_this]. rewrite Hid. cbn [negb].
  rewrite (fetch_responded _ _ _ _ Hnet). cbn [this logged].
  rewrite Hexp. now destruct (negb (ok r)).
Qed.

Lemma protocol_retry net op st r :
  ensureAuthenticated net st = (Return tt, st) ->
  truthy (userId (this st)) = true ->
  net (calls st) (first_request (this st) op) = Responded r ->
  expired (this st) r = true ->
  protocol net op st
  = match relogin net (logged (first_request (this st) op) st) with
    | (Return _, st2) =>
        match net (calls st2) (retry_request (this st2) op) with
        | Responded r2 =>
            if negb (ok r2)
            then (Throw (request_error op r2),
                  logged (retry_request (this st2) op) st2)
            else deliver op r2 (logged (retry_request (this st2) op) st2)
        | Rejected reason =>
            (Throw (FetchError reason), logged (retry_request (this st2) op) st2)
        end
    | (Throw e, st2) => (Throw e, st2)
    end.
Proof.
  intros Hens Hid Hnet Hexp. unfold protocol, relogin, bind. rewrite Hens.
  cbn [get_this]. rewrite Hid. cbn [negb].
  rewrite (fetch_responded _ _ _ _ Hnet). cbn [this logged].
  rewrite Hexp.
  destruct (authenticate net _ _ _) as [[d|e] st3]; [|reflexivity].
  destruct (adopt d st3) as [[[]|e] st4]; [|reflexivity].
  unfold fetch, logged.
  destruct (net (calls st4) (retry_request (this st4) op)) as [r2|reason];
    [|reflexivity].
  now destruct (negb (ok r2)).
Qed.

(** The outcome of an operation is decided by its last response. *)
Lemma protocol_final net op st r :
  final_response net op st = Some r ->
  fst (protocol net op st)
  = if ok r then fst (deliver op r st) else Throw (request_error op r).
Proof.
  unfold final_response, protocol, bind.
  destruct (ensureAuthenticated net st) as [[[]|e] st1]; [|discriminate].
  cbn [get_this].
  destruct (truthy (userId (this st1))); [|discriminate]. cbn [negb].
  unfold fetch at 1.
  destruct (net (calls st1) (first_request (this st1) op)) as [r1|];
    [|discriminate].
  cbn [this calls]. fold (logged (first_request (this st1) op) st1).
  destruct (expired (this st1) r1).
  - unfold relogin, bind. cbn [get_this this logged].
    destruct (authenticate net _ _ _) as [[d|e] st3]; [|discriminate].
    destruct (adopt d st3) as [[[]|e] st4]; [|discriminate].
    unfold fetch.
    destruct (net (calls st4) (retry_request (this st4) op)) as [r2|];
      [|discriminate].
    intros [= ->]. destruct (ok r); cbn [negb]; [|reflexivity].
    apply deliver_result.
  - intros [= ->]. destruct (ok r); cbn [negb]; [|reflexivity].
    apply deliver_result.
Qed.

(** ** Query parameters *)

Lemma sp_set_fresh k v l :
  sp_has k l = false -> sp_set k v l = (l ++ [(k, v)])%list.
Proof.
  unfold sp_has. induction l as [|[k0 v0] l IH]; [reflexivity|].
  cbn [existsb fst sp_set app].
  destruct (k0 =? k); [discriminate|].
  cbn [orb]. intros Hl. now rewrite IH.
Qed.

Lemma set_if_truthy_fresh k v l :
  sp_has k l = false -> set_if_truthy k v l = (l ++ param k (kept v))%list.
Proof.
  intros Hl. unfold set_if_truthy, kept, param.
  destruct v as [s|]; [|now rewrite app_nil_r].
  destruct (truthy (Some s)); [now apply sp_set_fresh | now rewrite app_nil_r].
Qed.

Lemma set_if_defined_fresh {A} k (v : option A) show l :
  sp_has k l = false ->
  set_if_defined k v show l = (l ++ param k (option_map show v))%list.
Proof.
  intros Hl. unfold set_if_defined, param.
  destruct v as [a|]; [now apply sp_set_fresh | now rewrite app_nil_r].
Qed.

Lemma sp_has_app k l1 l2 :
  sp_has k (l1 ++ l2)%list = sp_has k l1 || sp_has k l2.
Proof. unfold sp_has. apply existsb_app. Qed.

Lemma sp_has_param k k' v : (k' =? k) = false -> sp_has k (param k' v) = false.
Proof.
  intros Hk. destruct v as [s|]; [|reflexivity].
  unfold sp_has. cbn. now rewrite Hk.
Qed.

Ltac fresh_key :=
  repeat rewrite sp_has_app;
  repeat (rewrite sp_has_param by reflexivity);
  reflexivity.

Lemma items_filters_concat params :
  items_filters params
  = (param "ParentId" (kept (ParentId params))
     ++ param "IncludeItemTypes" (kept (IncludeItemTypes params))
     ++ param "Recursive" (option_map bool_toString (Recursive params))
     ++ param "Fields" (kept (Fields params))
     ++ param "SortBy" (kept (SortBy params))
     ++ param "SortOrder" (kept (SortOrder params))
     ++ param "StartIndex" (option_map num_toString (StartIndex params))
     ++ param "Limit" (option_map num_toString (Limit params))
     ++ param "searchTerm" (kept (searchTerm params)))%list.
Proof.
  unfold items_filters.
  rewrite (set_if_truthy_fresh "ParentId") by reflexivity.
  rewrite (set_if_truthy_fresh "IncludeItemTypes") by fresh_key.
  rewrite (set_if_defined_fresh "Recursive") by fresh_key.
  rewrite (set_if_truthy_fresh "Fields") by fresh_key.
  rewrite (set_if_truthy_fresh "SortBy") by fresh_key.
  rewrite (set_if_truthy_fresh "SortOrder") by fresh_key.
  rewrite (set_if_defined_fresh "StartIndex") by fresh_key.
  rewrite (set_if_defined_fresh "Limit") by fresh_key.
  rewrite (set_if_truthy_fresh "searchTerm") by fresh_key.
  cbn [app]. now rewrite <- !app_assoc.
Qed.

Lemma append_empty_r (s : string) : s ++ "" = s.
Proof. induction s as [|c s IH]; [reflexivity|]. cbn [append]. now rewrite IH. Qed.

Lemma set_if_truthy_falsy k v l : truthy v = false -> set_if_truthy k v l = l.
Proof. intros H. unfold set_if_truthy. rewrite H. now destruct v. Qed.

(** ** Credentials *)

Lemma login_payload_shape : auth_payload login_payload "fresh" "u1".
Proof.
  exists [("AccessToken", JStr "fresh"); ("User", JObj [("Id", JStr "u1")])],
         [("Id", JStr "u1")].
  repeat split.
Defined.

(** C5.  With an API key (a non-empty [apiKey]) the client never calls the
    login endpoint, whatever [username] and [password] hold and whatever the
    network answers: [ensureAuthenticated] returns at once, no response makes
    a data operation log in again, and a data operation, the probe and
    [getCurrentUser] each send at most their own single request. *)
Theorem api_key_never_logs_in (net : transport) (st : state) (op : data_op) :
  truthy (apiKey (this st)) = true ->
  let c := this st in
  ensureAuthenticated net st = (Return tt, st)
  /\ (forall r, expired c r = false)
  /\ (let sent := if truthy (userId c) then [first_request c op] else [] in
      calls (snd (run_op net op st)) = (calls st ++ sent)%list
      /\ login_calls c sent = 0%nat
      /\ this (snd (run_op net op st)) = c)
  /\ (exists q, calls (snd (checkConnectivity net st)) = (calls st ++ [q])%list
                /\ login_calls c [q] = 0%nat)
  /\ (exists q, calls (snd (getCurrentUser net st)) = (calls st ++ [q])%list
                /\ login_calls c [q] = 0%nat).
Proof.
  intros Hkey c.
  assert (Hens : ensureAuthenticated net st = (Return tt, st))
    by (apply ensureAuthenticated_ready; now left).
  split; [exact Hens|].
  split; [intros r; now apply expired_with_key|].
  split; [|split].
  - rewrite run_op_protocol.
    destruct (truthy (userId c)) eqn:Hid.
    + split; [|split; [now destruct op|]];
        destruct (net (calls st) (first_request c op)) as [r|reason] eqn:Hnet.
      * rewrite (protocol_plain _ _ _ _ Hens Hid Hnet (expired_with_key _ _ Hkey)).
        destruct (negb (ok r)); [reflexivity|]. now rewrite deliver_state.
      * now rewrite (protocol_rejected _ _ _ _ Hens Hid Hnet).
      * rewrite (protocol_plain _ _ _ _ Hens Hid Hnet (expired_with_key _ _ Hkey)).
        destruct (negb (ok r)); [reflexivity|]. now rewrite deliver_state.
      * now rewrite (protocol_rejected _ _ _ _ Hens Hid Hnet).
    + rewrite (protocol_no_user _ _ _ Hens Hid). cbn [snd].
      now rewrite app_nil_r.
  - exists (GET (probe_url c)). split; [|reflexivity].
    unfold checkConnectivity, try_catch, bind. cbn [get_this]. unfold fetch.
    now destruct (net (calls st) (GET (probe_url (this st)))).
  - eexists. split.
    + unfold getCurrentUser, bind. cbn [get_this]. unfold fetch.
      destruct (net (calls st) _) as [r|]; [|reflexivity].
      destruct (negb (ok r)); [reflexivity|].
      unfold response_json. now destruct (parsed r).
    + reflexivity.
Qed.

Lemma api_key_never_logs_in_witness :
  ensureAuthenticated net_always_401 (fresh (config_api_key))
  = (Return tt, fresh config_api_key)
  /\ calls (snd (getSeasons net_always_401 "s1" (fresh config_api_key)))
     = [GET "http://host:8096/emby/Shows/s1/Seasons?userId=u0&api_key=key"].
Proof.
  destruct (api_key_never_logs_in net_always_401 (fresh config_api_key)
              (GetSeasons "s1") eq_refl) as (H1 & _ & (H2 & _) & _).
  split; [exact H1 | exact H2].
Defined.

(** C2, as the code has it.  A client with no API key, no token and not both
    of [username] and [password] is not refused by [ensureAuthenticated]:
    the gate returns normally, sends nothing and changes nothing.  A data
    operation then fails at once, with no network call, only when [userId]
    is missing, and with the error about the user id; with a [userId] it
    sends its one request, without a credential, and leaves the session as
    it was.  The request is spelled out for each operation: it has no
    header, and its query holds neither [api_key] nor [X-Emby-Token]. *)
Theorem no_credential_passes_the_gate (net : transport) (st : state) (op : data_op) :
  truthy (apiKey (this st)) = false ->
  truthy (authToken (this st)) = false ->
  truthy (username (this st)) && truthy (password (this st)) = false ->
  let c := this st in
  let episode_filters seasonId :=
    ([("userId", tpl (userId c)); ("Fields", "MediaSources")]
     ++ param "seasonId" (kept seasonId))%list in
  let bare :=
    {| meth := "GET";
       url :=
         serverUrl c
         ++ match op with
            | GetItems params =>
                "/Users/" ++ tpl (userId c) ++ "/Items?"
                ++ sp_toString (items_filters params)
            | GetItem itemId =>
                "/Users/" ++ tpl (userId c) ++ "/Items/" ++ itemId
                ++ "?Fields=MediaSources"
            | GetSeasons seriesId =>
                "/Shows/" ++ seriesId ++ "/Seasons?userId=" ++ tpl (userId c)
            | GetEpisodes seriesId seasonId =>
                "/Shows/" ++ seriesId ++ "/Episodes?"
                ++ sp_toString (episode_filters seasonId)
            end;
       headers := [];
       body := None |} in
  ensureAuthenticated net st = (Return tt, st)
  /\ (truthy (userId c) = false ->
      run_op net op st = (Throw (Error msg_no_user_id), st))
  /\ (truthy (userId c) = true ->
      calls (snd (run_op net op st)) = (calls st ++ [first_request c op])%list
      /\ api_key_suffix "&" (js_or (apiKey c) (authToken c)) = ""
      /\ set_if_truthy "X-Emby-Token" (js_or (apiKey c) (authToken c)) [] = [])
  /\ first_request c op = bare
  /\ (truthy (userId c) = true ->
      calls (snd (run_op net op st)) = (calls st ++ [bare])%list
      /\ this (snd (run_op net op st)) = c)
  /\ (forall params,
         sp_has "api_key" (items_filters params) = false
         /\ sp_has "X-Emby-Token" (items_filters params) = false)
  /\ (forall seasonId,
         sp_has "api_key" (episode_filters seasonId) = false
         /\ sp_has "X-Emby-Token" (episode_filters seasonId) = false).
Proof.
  intros Hkey Htok Hcred c episode_filters bare.
  assert (Hens : ensureAuthenticated net st = (Return tt, st))
    by now apply ensureAuthenticated_idle.
  assert (Hrun : truthy (userId c) = true ->
                 calls (snd (run_op net op st))
                 = (calls st ++ [first_request c op])%list
                 /\ this (snd (run_op net op st)) = c).
  { intros Hid. rewrite run_op_protocol.
    destruct (net (calls st) (first_request c op)) as [r|reason] eqn:Hnet.
    - rewrite (protocol_plain _ _ _ _ Hens Hid Hnet
                 (expired_without_password _ _ Hcred)).
      destruct (negb (ok r)); [now split|]. now rewrite deliver_state.
    - now rewrite (protocol_rejected _ _ _ _ Hens Hid Hnet). }
  assert (Hbare : first_request c op = bare).
  { subst bare episode_filters c. unfold first_request, GET.
    rewrite (js_or_absent _ _ Hkey). f_equal.
    destruct op as [params|itemId|seriesId|seriesId seasonId].
    - unfold items_url. now rewrite (set_if_truthy_falsy _ _ _ Htok).
    - unfold item_url, api_key_suffix. now rewrite Htok.
    - unfold seasons_url, api_key_suffix.
      now rewrite Htok, append_empty_r.
    - unfold episodes_url.
      rewrite (set_if_truthy_fresh "seasonId") by reflexivity.
      now rewrite (set_if_truthy_falsy _ _ _ Htok). }
  split; [exact Hens|]. split; [|split; [|split; [|split; [|split]]]].
  - intros Hid. rewrite run_op_protocol. now apply protocol_no_user.
  - intros Hid. split; [exact (proj1 (Hrun Hid))|].
    subst c. rewrite (js_or_absent _ _ Hkey).
    unfold api_key_suffix, set_if_truthy. rewrite Htok.
    now destruct (authToken (this st)).
  - exact Hbare.
  - intros Hid. rewrite <- Hbare. exact (Hrun Hid).
  - intros params. rewrite items_filters_concat. split; fresh_key.
  - intros seasonId. subst episode_filters. cbv beta.
    rewrite !sp_has_app, !sp_has_param by reflexivity. now split.
Qed.

Lemma no_credential_passes_the_gate_witness :
  ensureAuthenticated net_500 (fresh config_no_credential)
  = (Return tt, fresh config_no_credential)
  /\ calls (snd (getSeasons net_500 "s1" (fresh config_no_credential)))
     = [GET "http://host:8096/emby/Shows/s1/Seasons?userId=u0"]
  /\ calls (snd (getItem net_500 "i1" (fresh config_no_credential)))
     = [GET "http://host:8096/emby/Users/u0/Items/i1?Fields=MediaSources"]
  /\ calls (snd (getEpisodes net_500 "s1" (Some "se1")
                   (fresh config_no_credential)))
     = [GET ("http://host:8096/emby/Shows/s1/Episodes"
             ++ "?userId=u0&Fields=MediaSources&seasonId=se1")].
Proof.
  destruct (no_credential_passes_the_gate net_500 (fresh config_no_credential)
              (GetSeasons "s1") eq_refl eq_refl eq_refl)
    as (H1 & _ & _ & _ & H5 & _).
  destruct (no_credential_passes_the_gate net_500 (fresh config_no_credential)
              (GetItem "i1") eq_refl eq_refl eq_refl)
    as (_ & _ & _ & _ & H5' & _).
  destruct (no_credential_passes_the_gate net_500 (fresh config_no_credential)
              (GetEpisodes "s1" (Some "se1")) eq_refl eq_refl eq_refl)
    as (_ & _ & _ & _ & H5'' & _).
  split; [exact H1|]. split; [exact (proj1 (H5 eq_refl))|].
  split; [exact (proj1 (H5' eq_refl)) | exact (proj1 (H5'' eq_refl))].
Defined.

(** C2 as stated fails: with no credential at all the gate does not throw,
    and an operation of a client that has a [userId] goes to the network. *)
Lemma no_usable_credential_counterexample :
  let st := fresh config_no_credential in
  truthy (apiKey (this st)) = false
  /\ truthy (authToken (this st)) = false
  /\ truthy (username (this st)) && truthy (password (this st)) = false
  /\ throws (fst (ensureAuthenticated net_500 st)) = false
  /\ calls (snd (getSeasons net_500 "s1" st))
     = [GET "http://host:8096/emby/Shows/s1/Seasons?userId=u0"]
  /\ fst (getSeasons net_500 "s1" st) = Throw (Error label_seasons).
Proof. repeat split. Qed.

(** ** The single-shot retry *)

Lemma logged_in_twice c token user :
  logged_in (logged_in c token user) token user = logged_in c token user.
Proof. reflexivity. Qed.

(** C1, as the code has it.  Take a client with [username] and [password],
    no API key, and a token and a user id already in the session, so that
    the operation starts with its data call.  When that call is answered
    401 and the login that follows succeeds, the operation makes exactly
    three calls: the data call, one login, and one more data call built from
    the token and user id that login returned.  Whatever comes back from
    the second data call, nothing more is sent; a response that is not a
    success (a second 401 too) makes the operation throw. *)
Theorem single_shot_retry
    (net : transport) (op : data_op) (st : state)
    (r1 rl : response) (data : json) (token user : string) :
  let c := this st in
  let first := first_request c op in
  let login := login_request c (the (username c)) (the (password c)) in
  let c' := logged_in c (Some token) (Some user) in
  let retry := retry_request c' op in
  truthy (username c) = true ->
  truthy (password c) = true ->
  truthy (apiKey c) = false ->
  truthy (authToken c) = true ->
  truthy (userId c) = true ->
  net (calls st) first = Responded r1 ->
  status r1 = 401 ->
  net (calls st ++ [first])%list login = Responded rl ->
  ok rl = true ->
  parsed rl = Some data ->
  auth_payload data token user ->
  let result := run_op net op st in
  calls (snd result) = (calls st ++ [first; login; retry])%list
  /\ login_calls c [first; login; retry] = 1%nat
  /\ data_calls [first; login; retry] = 2%nat
  /\ authToken (this (snd result)) = Some token
  /\ this (snd result) = c'
  /\ (forall r2,
         net (calls st ++ [first; login])%list retry = Responded r2 ->
         ok r2 = false ->
         fst result = Throw (request_error op r2))
  /\ (forall r2,
         net (calls st ++ [first; login])%list retry = Responded r2 ->
         ok r2 = true ->
         fst result = fst (deliver op r2 st)).
Proof.
  intros c first login c' retry Hu Hp Hkey Htok Hid Hfirst H401 Hlogin Hok
         Hparsed Hpay result.
  assert (Hens : ensureAuthenticated net st = (Return tt, st))
    by (apply ensureAuthenticated_ready; now right).
  assert (Hexp : expired c r1 = true) by now apply expired_401.
  assert (Hre : relogin net (logged first st)
                = (Return tt,
                   {| this := c'; calls := (calls st ++ [first; login])%list |})).
  { unfold relogin, bind. cbn [get_this this logged].
    fold c. fold login.
    rewrite (authenticate_accepted net _ _ (logged first st) rl data token user
               Hlogin Hok Hparsed Hpay).
    rewrite (adopt_payload _ _ _ _ Hpay).
    cbn [this calls logged]. fold c. fold login.
    now rewrite logged_in_twice, <- app_assoc. }
  assert (Hrun : result
                 = match net (calls st ++ [first; login])%list retry with
                   | Responded r2 =>
                       if negb (ok r2)
                       then (Throw (request_error op r2),
                             logged retry {| this := c';
                                             calls := (calls st ++ [first; login])%list |})
                       else deliver op r2
                              (logged retry {| this := c';
                                               calls := (calls st ++ [first; login])%list |})
                   | Rejected reason =>
                       (Throw (FetchError reason),
                        logged retry {| this := c';
                                        calls := (calls st ++ [first; login])%list |})
                   end).
  { subst result. rewrite run_op_protocol.
    rewrite (protocol_retry _ _ _ _ Hens Hid Hfirst Hexp).
    fold c. fold first. now rewrite Hre. }
  assert (Hcalls : ((calls st ++ [first; login]) ++ [retry]
                    = calls st ++ [first; login; retry])%list)
    by now rewrite <- app_assoc.
  assert (Hstate : snd result
                   = {| this := c';
                        calls := (calls st ++ [first; login; retry])%list |}).
  { rewrite Hrun.
    destruct (net (calls st ++ [first; login])%list retry) as [r2|reason];
      [destruct (negb (ok r2)); [|rewrite deliver_state]|];
      unfold logged; cbn [snd this calls]; now rewrite Hcalls. }
  split; [now rewrite Hstate|].
  split.
  { unfold login_calls, is_login_call. subst first login retry.
    destruct op; cbn [first_request retry_request GET login_request meth url
                      filter andb String.eqb Ascii.eqb Bool.eqb length];
      now rewrite String.eqb_refl. }
  split; [now destruct op|].
  split; [now rewrite Hstate|].
  split; [now rewrite Hstate|].
  split.
  - intros r2 Hretry Hbad. rewrite Hrun, Hretry, Hbad. reflexivity.
  - intros r2 Hretry Hgood. rewrite Hrun, Hretry, Hgood. cbn [negb].
    apply deliver_result.
Qed.

Lemma single_shot_retry_witness :
  calls (snd (getSeasons net_always_401 "s1" (fresh config_with_token)))
  = [ GET "http://host:8096/emby/Shows/s1/Seasons?userId=u0&api_key=stale";
      login_request (new_EmbyClient config_with_token) "alice" "secret";
      GET "http://host:8096/emby/Shows/s1/Seasons?userId=u1&api_key=fresh" ]
  /\ fst (getSeasons net_always_401 "s1" (fresh config_with_token))
     = Throw (Error label_seasons).
Proof.
  destruct (single_shot_retry net_always_401 (GetSeasons "s1")
              (fresh config_with_token) response_401 response_login_ok
              login_payload "fresh" "u1"
              eq_refl eq_refl eq_refl eq_refl eq_refl eq_refl eq_refl
              eq_refl eq_refl eq_refl login_payload_shape)
    as (H1 & _ & _ & _ & _ & H2 & _).
  split; [exact H1 | exact (H2 response_401 eq_refl eq_refl)].
Defined.

(** C1 as stated fails twice.  A client that has no token yet logs in at the
    gate and again on the 401: two login calls.  A client whose re-login is
    refused never sends its second data call: one data call. *)
Lemma single_retry_counts_counterexample :
  (let c := new_EmbyClient config_password_only in
   let sent := calls (snd (getSeasons net_always_401 "s1" (fresh config_password_only))) in
   truthy (username c) = true /\ truthy (password c) = true
   /\ truthy (apiKey c) = false
   /\ option_map (fun q => net_always_401 (firstn 1 sent) q) (nth_error sent 1)
      = Some (Responded response_401)
   /\ status response_401 = 401
   /\ login_calls c sent = 2%nat
   /\ data_calls sent = 2%nat)
  /\ (let c := new_EmbyClient config_with_token in
      let sent := calls (snd (getSeasons net_login_refused "s1" (fresh config_with_token))) in
      truthy (username c) = true /\ truthy (password c) = true
      /\ truthy (apiKey c) = false
      /\ option_map (fun q => net_login_refused [] q) (nth_error sent 0)
         = Some (Responded response_401)
      /\ login_calls c sent = 1%nat
      /\ data_calls sent = 1%nat
      /\ fst (getSeasons net_login_refused "s1" (fresh config_with_token))
         = Throw (Error "Emby 认证失败 (401): token expired")).
Proof. split; repeat split. Qed.

(** ** Outcomes *)

Lemma deliver_without_items op r data st :
  parsed r = Some data ->
  data <> JNull ->
  field data "Items" = None ->
  fst (deliver op r st)
  = Return (if returns_collection op then JArr [] else data).
Proof.
  intros Hparsed Hnull Hitems. unfold deliver, response_json, bind.
  rewrite Hparsed. destruct (returns_collection op); [|reflexivity].
  destruct data; try reflexivity; [now elim Hnull|].
  cbn [ret prop]. cbn [field] in Hitems. now rewrite Hitems.
Qed.

(** C3, as the code has it.  When the last response of an operation is a
    success whose body is a JSON value other than [null] without an [Items]
    field, [getSeasons] and [getEpisodes] return the empty collection;
    [getItems] (and [getItem]) return the parsed body as it is. *)
Theorem missing_items_defaults
    (net : transport) (op : data_op) (st : state) (r : response) (data : json) :
  final_response net op st = Some r ->
  ok r = true ->
  parsed r = Some data ->
  data <> JNull ->
  field data "Items" = None ->
  fst (run_op net op st)
  = Return match op with
           | GetSeasons _ | GetEpisodes _ _ => JArr []
           | GetItems _ | GetItem _ => data
           end.
Proof.
  intros Hfinal Hok Hparsed Hnull Hitems.
  rewrite run_op_protocol, (protocol_final _ _ _ _ Hfinal), Hok.
  rewrite (deliver_without_items _ _ _ _ Hparsed Hnull Hitems).
  now destruct op.
Qed.

Lemma missing_items_defaults_witness :
  fst (getEpisodes net_expired_once "s1" None (fresh config_with_token))
  = Return (JArr [])
  /\ fst (getSeasons net_no_items "s1" (fresh config_api_key)) = Return (JArr []).
Proof.
  split.
  - apply (missing_items_defaults net_expired_once (GetEpisodes "s1" None)
             (fresh config_with_token) response_no_items (JObj []));
      [reflexivity | reflexivity | reflexivity | discriminate | reflexivity].
  - apply (missing_items_defaults net_no_items (GetSeasons "s1")
             (fresh config_api_key) response_no_items (JObj []));
      [reflexivity | reflexivity | reflexivity | discriminate | reflexivity].
Defined.

(** C3 as stated fails for [getItems]: on a successful body without [Items]
    it returns that body, which is not a collection and still has no
    [Items]. *)
Lemma getItems_missing_items_counterexample :
  let result := fst (getItems net_no_items sample_params (fresh config_api_key)) in
  ok response_no_items = true
  /\ parsed response_no_items = Some (JObj [])
  /\ field (JObj []) "Items" = None
  /\ result = Return (JObj [])
  /\ result <> Return (JArr [])
  /\ (forall data, result = Return data -> field data "Items" = None).
Proof.
  repeat split; try discriminate.
  intros data [= <-]. reflexivity.
Qed.

(** C4, as the code has it.  When the last response of an operation is not a
    success the operation throws an error with its own label.  [getItems]
    alone puts the status code and the body text after the label; [getItem],
    [getSeasons] and [getEpisodes] throw the bare label. *)
Theorem request_error_message
    (net : transport) (op : data_op) (st : state) (r : response) :
  final_response net op st = Some r ->
  ok r = false ->
  fst (run_op net op st)
  = Throw (Error match op with
                 | GetItems _ =>
                     "获取 Emby 媒体列表失败 (" ++ num_toString (status r)
                     ++ "): " ++ text r
                 | GetItem _ => "获取 Emby 媒体详情失败"
                 | GetSeasons _ => "获取 Emby 季列表失败"
                 | GetEpisodes _ _ => "获取 Emby 集列表失败"
                 end).
Proof.
  intros Hfinal Hok.
  rewrite run_op_protocol, (protocol_final _ _ _ _ Hfinal), Hok.
  now destruct op.
Qed.

Lemma request_error_message_witness :
  fst (getItems net_always_401 sample_params (fresh config_with_token))
  = Throw (Error "获取 Emby 媒体列表失败 (401): token expired")
  /\ fst (getItem net_500 "i1" (fresh config_api_key))
     = Throw (Error "获取 Emby 媒体详情失败").
Proof.
  split.
  - exact (request_error_message net_always_401 (GetItems sample_params)
             (fresh config_with_token) response_401 eq_refl eq_refl).
  - exact (request_error_message net_500 (GetItem "i1")
             (fresh config_api_key) response_500 eq_refl eq_refl).
Defined.

(** C4 as stated fails for [getItem]: the error of a 500 with body [boom]
    names neither the status nor the body, and is the error of a 404 with
    body [gone]. *)
Lemma getItem_error_counterexample :
  final_response net_500 (GetItem "i1") (fresh config_api_key)
  = Some response_500
  /\ ok response_500 = false
  /\ exists message,
       fst (getItem net_500 "i1" (fresh config_api_key)) = Throw (Error message)
       /\ includes message (num_toString (status response_500)) = false
       /\ includes message (text response_500) = false
       /\ fst (getItem net_404 "i1" (fresh config_api_key))
          = Throw (Error message).
Proof.
  split; [reflexivity|]. split; [reflexivity|].
  exists label_item. repeat split.
Qed.

(** ** Remarks *)

(** The request of a retry carries the token of the re-login. *)
Lemma sp_set_in (k v : string) (l : search_params) : In (k, v) (sp_set k v l).
Proof.
  induction l as [|[k0 v0] l IH]; simpl; [now left|].
  destruct (k0 =? k); [now left | now right].
Qed.

Lemma retry_request_token (c : EmbyClient) (token user : string) :
  token <> "" ->
  let c' := logged_in c (Some token) (Some user) in
  (forall itemId,
      url (retry_request c' (GetItem itemId))
      = serverUrl c ++ "/Users/" ++ user ++ "/Items/" ++ itemId
        ++ "?Fields=MediaSources&api_key=" ++ token)
  /\ (forall seriesId,
         url (retry_request c' (GetSeasons seriesId))
         = serverUrl c ++ "/Shows/" ++ seriesId ++ "/Seasons?userId=" ++ user
           ++ "&api_key=" ++ token)
  /\ (forall params, exists sp,
         url (retry_request c' (GetItems params))
         = serverUrl c ++ "/Users/" ++ user ++ "/Items?" ++ sp_toString sp
         /\ In ("X-Emby-Token", token) sp)
  /\ (forall seriesId seasonId, exists sp,
         url (retry_request c' (GetEpisodes seriesId seasonId))
         = serverUrl c ++ "/Shows/" ++ seriesId ++ "/Episodes?" ++ sp_toString sp
         /\ In ("api_key", token) sp).
Proof.
  intros Htok c'. pose proof (truthy_nonempty token Htok) as T.
  repeat split.
  - intros itemId. cbn [retry_request GET url]. unfold item_url, api_key_suffix.
    cbn [authToken userId serverUrl c' logged_in tpl]. now rewrite T.
  - intros seriesId. cbn [retry_request GET url].
    unfold seasons_url, api_key_suffix.
    cbn [authToken userId serverUrl c' logged_in tpl]. now rewrite T.
  - intros params. eexists. split; [reflexivity|]. apply sp_set_in.
  - intros seriesId seasonId. eexists. split; [reflexivity|].
    cbn [authToken c' logged_in]. unfold set_if_truthy at 1. rewrite T.
    apply sp_set_in.
Qed.

(** A retry that succeeds returns what the second response delivers. *)
Example retry_then_success :
  getEpisodes net_expired_once "s1" (Some "season2") (fresh config_with_token)
  = (Return (JArr []),
     {| this := logged_in (new_EmbyClient config_with_token)
                  (Some "fresh") (Some "u1");
        calls :=
          [ GET "http://host:8096/emby/Shows/s1/Episodes?userId=u0&Fields=MediaSources&seasonId=season2&api_key=stale";
            login_request (new_EmbyClient config_with_token) "alice" "secret";
            GET "http://host:8096/emby/Shows/s1/Episodes?userId=u1&Fields=MediaSources&seasonId=season2&api_key=fresh" ] |}).
Proof. reflexivity. Qed.

(** With only a user name and a password the first operation logs in once
    before its data call. *)
Example first_call_logs_in :
  calls (snd (getItem net_expired_once "i1" (fresh config_password_only)))
  = [ login_request (new_EmbyClient config_password_only) "alice" "secret";
      GET "http://host:8096/emby/Users/u1/Items/i1?Fields=MediaSources&api_key=fresh" ].
Proof. reflexivity. Qed.

(** The probe against a network that is down. *)
Example probe_network_down :
  fst (checkConnectivity net_down (fresh config_api_key)) = Return false.
Proof. reflexivity. Qed.

(** An empty [apiKey] is no API key: the gate logs in. *)
Example empty_api_key_logs_in :
  calls (snd (ensureAuthenticated net_always_401 (fresh config_empty_api_key)))
  = [ login_request (new_EmbyClient config_empty_api_key) "alice" "secret" ].
Proof. reflexivity. Qed.

(** An empty token is written as an empty credential, not as [undefined]. *)
Example empty_token_stream_url :
  getStreamUrl (new_EmbyClient config_empty_token) "item1" None
  = "http://host:8096/emby/Videos/item1/stream?Static=true&api_key=".
Proof. reflexivity. Qed.

(** A successful login answer without [User] is outside the declared
    response type: the token is stored before the read of [User.Id] throws. *)
Example login_answer_without_user :
  authenticate net_login_no_user "alice" "secret" (fresh config_with_token)
  = (Throw TypeError,
     {| this := logged_in (new_EmbyClient config_with_token)
                  (Some "fresh") (Some "u0");
        calls := [ login_request (new_EmbyClient config_with_token)
                     "alice" "secret" ] |}).
Proof. reflexivity. Qed.

(** [getSeasons] on a successful body that is [null]. *)
Example null_body_throws :
  fst (getSeasons (fun _ _ => Responded {| status := 200; text := "null";
                                           parsed := Some JNull |})
         "s1" (fresh config_api_key))
  = Throw TypeError.
Proof. reflexivity. Qed.

(** * Further properties of the client *)

(** ** What a method leaves behind *)

Lemma same_settings_refl c : same_settings c c.
Proof. now repeat split. Qed.

Lemma same_settings_trans c1 c2 c3 :
  same_settings c1 c2 -> same_settings c2 c3 -> same_settings c1 c3.
Proof.
  intros (A1 & A2 & A3 & A4) (B1 & B2 & B3 & B4).
  repeat split; congruence.
Qed.

Lemma call_matches_settings c c' k r :
  same_settings c c' -> call_matches c' k r -> call_matches c k r.
Proof.
  intros (S1 & S2 & S3 & S4). destruct k; cbn [call_matches].
  - intros ->. unfold login_request. now rewrite S1, S3, S4.
  - intros [suffix ->]. exists suffix. now rewrite S1.
Qed.

Lemma Forall2_call_matches_settings c c' ks l :
  same_settings c c' ->
  Forall2 (call_matches c') ks l -> Forall2 (call_matches c) ks l.
Proof.
  intros S. induction 1; constructor; eauto using call_matches_settings.
Qed.

Lemma authenticate_footprint net u p st :
  calls (snd (authenticate net u p st))
  = (calls st ++ [login_request (this st) u p])%list
  /\ same_settings (this st) (this (snd (authenticate net u p st))).
Proof.
  unfold authenticate, bind. cbn [get_this]. unfold fetch.
  destruct (net (calls st) _) as [r|reason];
    [|split; [reflexivity | apply same_settings_refl]].
  destruct (negb (ok r)); [split; [reflexivity | apply same_settings_refl]|].
  unfold response_json.
  destruct (parsed r) as [data|];
    [|split; [reflexivity | apply same_settings_refl]].
  destruct data as [| | | | |fields];
    try (split; [reflexivity | now repeat split]).
  cbn [prop ret set_authToken this calls].
  destruct (assoc "User" fields) as [u0|];
    [|split; [reflexivity | now repeat split]].
  destruct u0; split; try reflexivity; now repeat split.
Qed.

Lemma adopt_footprint data st :
  calls (snd (adopt data st)) = calls st
  /\ same_settings (this st) (this (snd (adopt data st))).
Proof.
  unfold adopt, bind.
  destruct data as [| | | | |fields];
    try (split; [reflexivity | now repeat split]).
  cbn [prop ret set_authToken this calls].
  destruct (assoc "User" fields) as [u0|];
    [|split; [reflexivity | now repeat split]].
  destruct u0; split; try reflexivity; now repeat split.
Qed.

Lemma relogin_footprint net st :
  calls (snd (relogin net st))
  = (calls st
     ++ [login_request (this st) (the (username (this st)))
           (the (password (this st)))])%list
  /\ same_settings (this st) (this (snd (relogin net st))).
Proof.
  unfold relogin, bind. cbn [get_this].
  pose proof (authenticate_footprint net (the (username (this st)))
                (the (password (this st))) st) as [Hc Hs].
  destruct (authenticate net _ _ st) as [[data|e] st1]; cbn [snd] in *;
    [|now split].
  pose proof (adopt_footprint data st1) as [Hc' Hs'].
  split; [congruence | eauto using same_settings_trans].
Qed.

Lemma gate_is_relogin net st :
  truthy (apiKey (this st)) = false ->
  truthy (authToken (this st)) = false ->
  truthy (username (this st)) && truthy (password (this st)) = true ->
  ensureAuthenticated net st = relogin net st.
Proof.
  unfold ensureAuthenticated, relogin, bind. cbn [get_this].
  now intros -> -> ->.
Qed.

(** The gate sends nothing, or the one login. *)
Lemma ensureAuthenticated_trace net st :
  exists ks new,
    calls (snd (ensureAuthenticated net st)) = (calls st ++ new)%list
    /\ In ks gate_shapes
    /\ Forall2 (call_matches (this st)) ks new
    /\ same_settings (this st) (this (snd (ensureAuthenticated net st))).
Proof.
  destruct (truthy (apiKey (this st))) eqn:Hkey.
  { rewrite ensureAuthenticated_ready by now left.
    exists [], []. cbn [snd]. rewrite app_nil_r.
    repeat split; [now left | constructor]. }
  destruct (truthy (authToken (this st))) eqn:Htok.
  { rewrite ensureAuthenticated_ready by now right.
    exists [], []. cbn [snd]. rewrite app_nil_r.
    repeat split; [now left | constructor]. }
  destruct (truthy (username (this st)) && truthy (password (this st))) eqn:Hcred.
  - rewrite (gate_is_relogin _ _ Hkey Htok Hcred).
    destruct (relogin_footprint net st) as [Hc Hs].
    exists [LoginCall], [login_request (this st) (the (username (this st)))
                           (the (password (this st)))].
    repeat split; try apply Hs; [exact Hc | right; now left |].
    constructor; [reflexivity | constructor].
  - rewrite (ensureAuthenticated_idle _ _ Hkey Htok Hcred).
    exists [], []. cbn [snd]. rewrite app_nil_r.
    repeat split; [now left | constructor].
Qed.

Lemma first_request_is_data c op : call_matches c DataCall (first_request c op).
Proof.
  destruct op; cbn [call_matches first_request]; eexists; reflexivity.
Qed.

Lemma retry_request_is_data c op : call_matches c DataCall (retry_request c op).
Proof.
  destruct op; cbn [call_matches retry_request]; eexists; reflexivity.
Qed.

Lemma retry_phase_trace net op st :
  exists ks new,
    calls (snd (retry_phase net op st)) = (calls st ++ new)%list
    /\ In ks retry_shapes
    /\ Forall2 (call_matches (this st)) ks new
    /\ same_settings (this st) (this (snd (retry_phase net op st))).
Proof.
  unfold retry_phase, bind.
  destruct (relogin_footprint net st) as [Hc Hs].
  set (login := login_request (this st) (the (username (this st)))
                  (the (password (this st)))) in *.
  destruct (relogin net st) as [[[]|e] st1]; cbn [snd] in *.
  - cbn [get_this]. set (retry := retry_request (this st1) op).
    assert (Hretry : call_matches (this st) DataCall retry)
      by (apply (call_matches_settings _ _ _ _ Hs), retry_request_is_data).
    exists [LoginCall; DataCall], [login; retry].
    assert (Hstate : snd (match fetch net retry st1 with
                          | (Return a, st') =>
                              (if negb (ok a) then throw (request_error op a)
                               else deliver op a) st'
                          | (Throw e, st') => (Throw e, st')
                          end) = logged retry st1).
    { unfold fetch, logged.
      destruct (net (calls st1) retry) as [r|reason]; [|reflexivity].
      destruct (negb (ok r)); [reflexivity|]. now rewrite deliver_state. }
    rewrite Hstate. cbn [logged calls this].
    repeat split; try apply Hs.
    + rewrite Hc. now rewrite <- app_assoc.
    + right. now left.
    + constructor; [reflexivity|]. constructor; [exact Hretry | constructor].
  - exists [LoginCall], [login].
    repeat split; try apply Hs;
      [exact Hc | now left | constructor; [reflexivity | constructor]].
Qed.

Lemma data_phase_trace net op st :
  exists ks new,
    calls (snd (data_phase net op st)) = (calls st ++ new)%list
    /\ In ks data_shapes
    /\ Forall2 (call_matches (this st)) ks new
    /\ same_settings (this st) (this (snd (data_phase net op st))).
Proof.
  unfold data_phase, bind. cbn [get_this].
  destruct (negb (truthy (userId (this st)))).
  { exists [], []. cbn [snd throw]. rewrite app_nil_r.
    repeat split; [now left | constructor]. }
  set (first := first_request (this st) op).
  pose proof (first_request_is_data (this st) op) as Hfirst. fold first in Hfirst.
  unfold fetch.
  destruct (net (calls st) first) as [r1|reason].
  2:{ exists [DataCall], [first]. cbn [snd calls this].
      repeat split; [right; now left | constructor; [exact Hfirst | constructor]]. }
  cbn [this calls]. fold (logged first st).
  destruct (expired (this st) r1).
  - destruct (retry_phase_trace net op (logged first st))
      as (ks & new & Hc & Hin & Hall & Hs).
    exists (DataCall :: ks), (first :: new).
    cbn [logged calls this] in *.
    split; [rewrite Hc; now rewrite <- app_assoc|].
    split.
    { destruct Hin as [<-|[<-|[]]]; cbn; intuition. }
    split; [now constructor | exact Hs].
  - exists [DataCall], [first].
    assert (Hstate : snd ((if negb (ok r1) then throw (request_error op r1)
                           else deliver op r1) (logged first st))
                     = logged first st).
    { destruct (negb (ok r1)); [reflexivity | apply deliver_state]. }
    rewrite Hstate. cbn [logged calls this].
    repeat split; [right; now left | constructor; [exact Hfirst | constructor]].
Qed.

Lemma protocol_phases net op st :
  protocol net op st = (ensureAuthenticated net ;; data_phase net op) st.
Proof.
  unfold protocol, data_phase, retry_phase, relogin, bind.
  destruct (ensureAuthenticated net st) as [[[]|e] st1]; [|reflexivity].
  cbn [get_this].
  destruct (negb (truthy (userId (this st1)))); [reflexivity|].
  destruct (fetch net _ st1) as [[r1|e] st2]; [|reflexivity].
  destruct (expired (this st2) r1); [|reflexivity].
  destruct (authenticate net _ _ st2) as [[d|e] st3]; [|reflexivity].
  now destruct (adopt d st3) as [[[]|e] st4].
Qed.

(** The calls of a data operation: an optional login at the gate, then the
    data call, then after a 401 one login and one more data call. *)
Lemma run_op_trace net op st :
  exists ks new,
    calls (snd (run_op net op st)) = (calls st ++ new)%list
    /\ In ks op_shapes
    /\ Forall2 (call_matches (this st)) ks new
    /\ same_settings (this st) (this (snd (run_op net op st))).
Proof.
  rewrite run_op_protocol, protocol_phases. unfold bind.
  destruct (ensureAuthenticated_trace net st) as (ks0 & new0 & Hc0 & Hin0 & Hall0 & Hs0).
  destruct (ensureAuthenticated net st) as [[[]|e] st1]; cbn [snd] in *.
  - destruct (data_phase_trace net op st1) as (ks1 & new1 & Hc1 & Hin1 & Hall1 & Hs1).
    exists (ks0 ++ ks1)%list, (new0 ++ new1)%list.
    split; [rewrite Hc1, Hc0; now rewrite app_assoc|].
    split.
    { destruct Hin0 as [<-|[<-|[]]];
        destruct Hin1 as [<-|[<-|[<-|[<-|[]]]]]; cbn; intuition. }
    split; [|eauto using same_settings_trans].
    apply Forall2_app; [exact Hall0|].
    eauto using Forall2_call_matches_settings.
  - exists ks0, new0. repeat split; try apply Hs0; try assumption.
    destruct Hin0 as [<-|[<-|[]]]; cbn; intuition.
Qed.

Lemma is_login_call_login c u p : is_login_call c (login_request c u p) = true.
Proof.
  unfold is_login_call, login_request. cbn [meth url].
  now rewrite !String.eqb_refl.
Qed.

Lemma call_counts c ks new :
  Forall2 (call_matches c) ks new ->
  length new = length ks
  /\ login_calls c new = count_kind LoginCall ks
  /\ data_calls new = count_kind DataCall ks.
Proof.
  unfold login_calls, data_calls, count_kind.
  induction 1 as [|k r ks new Hk _ (IH1 & IH2 & IH3)]; [now repeat split|].
  destruct k; cbn [call_matches] in Hk.
  - subst r. cbn [filter]. rewrite is_login_call_login.
    change (is_data_call (login_request c (the (username c)) (the (password c))))
      with false.
    cbn [length]. now rewrite IH1, IH2, IH3.
  - destruct Hk as [suffix ->]. cbn [filter].
    change (is_login_call c (GET (serverUrl c ++ suffix))) with false.
    change (is_data_call (GET (serverUrl c ++ suffix))) with true.
    cbn [length]. now rewrite IH1, IH2, IH3.
Qed.

(** X1.  Whatever the network answers, a data operation sends at most four
    requests, of which at most two are logins and at most two are data
    calls, and the calls made before it are kept. *)
Theorem data_operation_call_bound (net : transport) (op : data_op) (st : state) :
  exists new,
    calls (snd (run_op net op st)) = (calls st ++ new)%list
    /\ (length new <= 4)%nat
    /\ (login_calls (this st) new <= 2)%nat
    /\ (data_calls new <= 2)%nat
    /\ (login_calls (this st) new + data_calls new)%nat = length new.
Proof.
  destruct (run_op_trace net op st) as (ks & new & Hc & Hin & Hall & _).
  exists new. split; [exact Hc|].
  destruct (call_counts _ _ _ Hall) as (-> & -> & ->).
  cbn in Hin.
  repeat (destruct Hin as [<-|Hin]; [cbn; repeat split; repeat constructor|]).
  destruct Hin.
Qed.

(** X2.  No method assigns the endpoint, the API key, the user name or the
    password: a data operation, the gate and the login leave them as they
    were, whatever the network answers. *)
Theorem settings_are_kept
    (net : transport) (op : data_op) (u p : string) (st : state) :
  same_settings (this st) (this (snd (run_op net op st)))
  /\ same_settings (this st) (this (snd (ensureAuthenticated net st)))
  /\ same_settings (this st) (this (snd (authenticate net u p st))).
Proof.
  split; [|split].
  - now destruct (run_op_trace net op st) as (ks & new & _ & _ & _ & Hs).
  - now destruct (ensureAuthenticated_trace net st) as (ks & new & _ & _ & _ & Hs).
  - apply authenticate_footprint.
Qed.

(** X3.  Every request of a data operation goes to the client's own
    endpoint: its URL is the normalized endpoint followed by a path. *)
Theorem requests_stay_on_the_endpoint
    (net : transport) (op : data_op) (st : state) :
  exists new,
    calls (snd (run_op net op st)) = (calls st ++ new)%list
    /\ Forall (fun r => exists path, url r = serverUrl (this st) ++ path) new.
Proof.
  destruct (run_op_trace net op st) as (ks & new & Hc & _ & Hall & _).
  exists new. split; [exact Hc|]. clear Hc.
  induction Hall as [|k r ks new Hk _ IH]; [constructor|].
  constructor; [|exact IH].
  destruct k; cbn [call_matches] in Hk.
  - subst r. now eexists.
  - destruct Hk as [suffix ->]. now exists suffix.
Qed.

(** ** The gate *)

Lemma run_op_after_gate net op st st1 :
  ensureAuthenticated net st = (Return tt, st1) ->
  run_op net op st = data_phase net op st1.
Proof.
  intros Hens. rewrite run_op_protocol, protocol_phases. unfold bind.
  now rewrite Hens.
Qed.

Lemma data_phase_plain net op st r :
  truthy (userId (this st)) = true ->
  net (calls st) (first_request (this st) op) = Responded r ->
  expired (this st) r = false ->
  data_phase net op st
  = if ok r then deliver op r (logged (first_request (this st) op) st)
    else (Throw (request_error op r), logged (first_request (this st) op) st).
Proof.
  intros Hid Hnet Hexp. unfold data_phase, bind. cbn [get_this].
  rewrite Hid. cbn [negb]. rewrite (fetch_responded _ _ _ _ Hnet).
  cbn [this logged]. rewrite Hexp. now destruct (ok r).
Qed.

(** X4.  A client that holds only a user name and a password logs in once,
    before its data call, and then sends that call with the token and the
    user id the login returned, whatever [userId] it was configured with.
    When the answer is not a 401 nothing else is sent. *)
Theorem gate_login_then_data
    (net : transport) (op : data_op) (st : state)
    (rl r1 : response) (data : json) (token user : string) :
  let c := this st in
  let login := login_request c (the (username c)) (the (password c)) in
  let c' := logged_in c (Some token) (Some user) in
  let after := {| this := c';
                  calls := (calls st ++ [login; first_request c' op])%list |} in
  truthy (apiKey c) = false ->
  truthy (authToken c) = false ->
  truthy (username c) = true ->
  truthy (password c) = true ->
  net (calls st) login = Responded rl ->
  ok rl = true ->
  parsed rl = Some data ->
  auth_payload data token user ->
  user <> "" ->
  net (calls st ++ [login])%list (first_request c' op) = Responded r1 ->
  status r1 <> 401 ->
  run_op net op st
  = if ok r1 then deliver op r1 after else (Throw (request_error op r1), after).
Proof.
  intros c login c' after Hkey Htok Hu Hp Hlogin Hok Hparsed Hpay Huser Hfirst Hstatus.
  assert (Hens : ensureAuthenticated net st
                 = (Return tt, {| this := c';
                                  calls := (calls st ++ [login])%list |})).
  { rewrite gate_is_relogin by (try assumption; unfold c in *; now rewrite Hu, Hp).
    unfold relogin, bind. cbn [get_this]. fold c. fold login.
    rewrite (authenticate_accepted net _ _ st rl data token user
               Hlogin Hok Hparsed Hpay).
    now rewrite (adopt_payload _ _ _ _ Hpay). }
  rewrite (run_op_after_gate _ _ _ _ Hens).
  rewrite (data_phase_plain _ _ _ r1); cbn [this calls logged].
  - subst after. unfold logged. cbn [this calls]. now rewrite <- app_assoc.
  - now apply truthy_nonempty.
  - exact Hfirst.
  - unfold expired. destruct (Z.eqb_spec (status r1) 401); [contradiction|].
    reflexivity.
Qed.

Lemma gate_login_then_data_witness :
  getItem net_expired_once "i1" (fresh config_password_only)
  = (Return (JObj []),
     {| this := logged_in (new_EmbyClient config_password_only)
                  (Some "fresh") (Some "u1");
        calls :=
          [ login_request (new_EmbyClient config_password_only) "alice" "secret";
            GET "http://host:8096/emby/Users/u1/Items/i1?Fields=MediaSources&api_key=fresh" ] |}).
Proof.
  apply (gate_login_then_data net_expired_once (GetItem "i1")
           (fresh config_password_only) response_login_ok response_no_items
           login_payload "fresh" "u1");
    try reflexivity; [exact login_payload_shape | discriminate | discriminate].
Defined.

(** X5.  When the login at the gate is answered with a status that is not a
    success, the data operation throws the authentication error, sends no
    data call, and the session is what it was. *)
Theorem gate_login_failure_stops
    (net : transport) (op : data_op) (st : state) (rl : response) :
  let c := this st in
  let login := login_request c (the (username c)) (the (password c)) in
  truthy (apiKey c) = false ->
  truthy (authToken c) = false ->
  truthy (username c) = true ->
  truthy (password c) = true ->
  net (calls st) login = Responded rl ->
  ok rl = false ->
  run_op net op st
  = (Throw (Error ("Emby 认证失败 (" ++ num_toString (status rl) ++ "): "
                   ++ text rl)),
     {| this := c; calls := (calls st ++ [login])%list |}).
Proof.
  intros c login Hkey Htok Hu Hp Hlogin Hok.
  rewrite run_op_protocol, protocol_phases. unfold bind.
  rewrite gate_is_relogin by (try assumption; unfold c in *; now rewrite Hu, Hp).
  unfold relogin, bind. cbn [get_this]. fold c. fold login.
  now rewrite (authenticate_refused net _ _ st rl Hlogin Hok).
Qed.

Lemma gate_login_failure_stops_witness :
  getEpisodes net_login_refused "s1" None (fresh config_password_only)
  = (Throw (Error "Emby 认证失败 (401): token expired"),
     {| this := new_EmbyClient config_password_only;
        calls := [ login_request (new_EmbyClient config_password_only)
                     "alice" "secret" ] |}).
Proof.
  exact (gate_login_failure_stops net_login_refused (GetEpisodes "s1" None)
           (fresh config_password_only) response_401
           eq_refl eq_refl eq_refl eq_refl eq_refl eq_refl).
Defined.

(** ** One call when there is nothing to retry *)

(** X6.  A client that holds a credential and a user id sends exactly one
    request and never logs in when the answer is not a 401, or when it has
    no user name and password to log in with: a failure is thrown at once
    and the session stays as it was. *)
Theorem no_retry_without_401
    (net : transport) (op : data_op) (st : state) (r : response) :
  let c := this st in
  let first := first_request c op in
  truthy (apiKey c) = true \/ truthy (authToken c) = true ->
  truthy (userId c) = true ->
  net (calls st) first = Responded r ->
  status r <> 401 \/ truthy (username c) && truthy (password c) = false ->
  run_op net op st
  = if ok r then deliver op r (logged first st)
    else (Throw (request_error op r), logged first st).
Proof.
  intros c first Hcred Hid Hnet Hwhy.
  rewrite (run_op_after_gate net op st st)
    by now apply ensureAuthenticated_ready.
  apply data_phase_plain; try assumption.
  destruct Hwhy as [Hstatus|Hnone].
  - unfold expired. now destruct (Z.eqb_spec (status r) 401).
  - now apply expired_without_password.
Qed.

Lemma no_retry_without_401_witness :
  getSeasons net_always_401 "s1" (fresh config_token_only)
  = (Throw (Error label_seasons),
     {| this := new_EmbyClient config_token_only;
        calls := [ GET "http://host:8096/emby/Shows/s1/Seasons?userId=u0&api_key=stale" ] |})
  /\ getItems net_500 sample_params (fresh config_with_token)
     = (Throw (Error "获取 Emby 媒体列表失败 (500): boom"),
        {| this := new_EmbyClient config_with_token;
           calls := [ GET "http://host:8096/emby/Users/u0/Items?ParentId=lib1&IncludeItemTypes=Movie&Recursive=true&StartIndex=0&Limit=20&X-Emby-Token=stale" ] |}).
Proof.
  split.
  - apply (no_retry_without_401 net_always_401 (GetSeasons "s1")
             (fresh config_token_only) response_401);
      [now right | reflexivity | reflexivity | now right].
  - apply (no_retry_without_401 net_500 (GetItems sample_params)
             (fresh config_with_token) response_500);
      [now right | reflexivity | reflexivity | left; discriminate].
Defined.

(** ** Transport failures *)

(** X7.  When the network rejects every request, a data operation makes at
    most one attempt and throws (the transport failure, or the missing
    user id error before any attempt); [getCurrentUser] throws too; only
    [checkConnectivity] turns the failure into [false]. *)
Theorem network_down_is_not_retried
    (net : transport) (reason : string) (op : data_op) (st : state) :
  (forall history r, net history r = Rejected reason) ->
  (exists new,
      calls (snd (run_op net op st)) = (calls st ++ new)%list
      /\ (length new <= 1)%nat
      /\ (fst (run_op net op st) = Throw (FetchError reason)
          \/ (fst (run_op net op st) = Throw (Error msg_no_user_id)
              /\ new = [])))
  /\ fst (getCurrentUser net st) = Throw (FetchError reason)
  /\ fst (checkConnectivity net st) = Return false.
Proof.
  intros Hdown. split; [|split].
  - rewrite run_op_protocol, protocol_phases. unfold bind.
    assert (Hgate : ensureAuthenticated net st = (Return tt, st)
                    \/ ensureAuthenticated net st
                       = (Throw (FetchError reason),
                          logged (login_request (this st)
                                    (the (username (this st)))
                                    (the (password (this st)))) st)).
    { destruct (truthy (apiKey (this st))) eqn:Hkey;
        [left; apply ensureAuthenticated_ready; now left|].
      destruct (truthy (authToken (this st))) eqn:Htok;
        [left; apply ensureAuthenticated_ready; now right|].
      destruct (truthy (username (this st)) && truthy (password (this st)))
        eqn:Hcred; [|left; now apply ensureAuthenticated_idle].
      right. rewrite (gate_is_relogin _ _ Hkey Htok Hcred).
      unfold relogin, authenticate, bind. cbn [get_this].
      now rewrite (fetch_rejected _ _ _ _ (Hdown _ _)). }
    destruct Hgate as [-> | ->].
    + unfold data_phase, bind. cbn [get_this].
      destruct (truthy (userId (this st))); cbn [negb].
      * rewrite (fetch_rejected _ _ _ _ (Hdown _ _)).
        eexists. split; [reflexivity|]. split; [cbn; constructor | now left].
      * exists []. cbn [throw snd fst]. rewrite app_nil_r.
        split; [reflexivity|]. split; [constructor; constructor | now right].
    + eexists. split; [reflexivity|]. split; [cbn; constructor | now left].
  - unfold getCurrentUser, bind. cbn [get_this].
    now rewrite (fetch_rejected _ _ _ _ (Hdown _ _)).
  - unfold checkConnectivity, try_catch, bind. cbn [get_this].
    now rewrite (fetch_rejected _ _ _ _ (Hdown _ _)).
Qed.

Lemma network_down_is_not_retried_witness :
  fst (getItem net_down "i1" (fresh config_with_token))
  = Throw (FetchError "ECONNREFUSED")
  /\ fst (checkConnectivity net_down (fresh config_with_token)) = Return false.
Proof.
  destruct (network_down_is_not_retried net_down "ECONNREFUSED" (GetItem "i1")
              (fresh config_with_token) (fun _ _ => eq_refl))
    as ((new & _ & _ & [H | [H _]]) & _ & Hprobe).
  - split; [exact H | exact Hprobe].
  - discriminate H.
Defined.

(** ** Credentials *)

(** X8.  With an API key, the token of the session is never used: every
    request and every URL the client builds is the one it builds with any
    other token, and the header carries the key. *)
Theorem api_key_takes_precedence
    (c : EmbyClient) (token : option string) (op : data_op)
    (itemId : string) (imageType : option ImageType) (maxWidth : option Z)
    (direct : option bool) (item : EmbyItem) :
  truthy (apiKey c) = true ->
  let c' := logged_in c token (userId c) in
  first_request c' op = first_request c op
  /\ probe_url c' = probe_url c
  /\ getHeaders c' = [("Content-Type", "application/json");
                      ("X-Emby-Token", the (apiKey c))]
  /\ getImageUrl c' itemId imageType maxWidth
     = getImageUrl c itemId imageType maxWidth
  /\ getStreamUrl c' itemId direct = getStreamUrl c itemId direct
  /\ getSubtitles c' item = getSubtitles c item
  /\ url (first_request c' (GetItem itemId))
     = serverUrl c ++ "/Users/" ++ tpl (userId c) ++ "/Items/" ++ itemId
       ++ "?Fields=MediaSources&api_key=" ++ the (apiKey c).
Proof.
  intros Hkey c'.
  assert (Hor : forall t, js_or (apiKey c) t = apiKey c)
    by (intros t; now apply js_or_present).
  unfold first_request, probe_url, getHeaders, getImageUrl, getStreamUrl,
    getSubtitles, item_url, seasons_url, episodes_url, items_url,
    api_key_suffix.
  cbn [c' logged_in apiKey authToken userId serverUrl].
  rewrite !Hor, Hkey.
  repeat split; try reflexivity.
  cbn [GET url]. destruct (apiKey c); [reflexivity | discriminate Hkey].
Qed.

Lemma api_key_takes_precedence_witness :
  url (first_request (new_EmbyClient config_key_and_token) (GetItem "i1"))
  = "http://host:8096/emby/Users/u0/Items/i1?Fields=MediaSources&api_key=key"
  /\ getHeaders (new_EmbyClient config_key_and_token)
     = [("Content-Type", "application/json"); ("X-Emby-Token", "key")].
Proof.
  destruct (api_key_takes_precedence (new_EmbyClient config_key_and_token)
              (Some "stale") (GetItem "i1") "i1" None None None
              item_with_subtitles eq_refl)
    as (_ & _ & H1 & _ & _ & _ & H2).
  split; [exact H2 | exact H1].
Defined.

(** X9.  A client that holds an API key or a token but no user id fails a
    data operation at once with the configuration error: nothing is sent
    and the session is untouched. *)
Theorem missing_user_id_fails_fast
    (net : transport) (op : data_op) (st : state) :
  truthy (apiKey (this st)) = true \/ truthy (authToken (this st)) = true ->
  truthy (userId (this st)) = false ->
  run_op net op st
  = (Throw (Error "未配置 Emby 用户 ID，请在管理面板重新保存 Emby 配置"), st).
Proof.
  intros Hcred Hid.
  rewrite run_op_protocol.
  apply protocol_no_user; [now apply ensureAuthenticated_ready | exact Hid].
Qed.

Lemma missing_user_id_fails_fast_witness :
  getSeasons net_no_items "s1" (fresh config_key_no_user)
  = (Throw (Error msg_no_user_id), fresh config_key_no_user).
Proof.
  exact (missing_user_id_fails_fast net_no_items (GetSeasons "s1")
           (fresh config_key_no_user) (or_introl eq_refl) eq_refl).
Defined.

(** ** [getCurrentUser] *)



(** ** Query strings *)

(** X11.  The query of [getItems] lists the filters in a fixed order: a
    string filter that is absent or empty is dropped, while [Recursive],
    [StartIndex] and [Limit] are written whenever they are given ([false]
    and [0] too).  The credential comes last and once: the retry replaces
    the stale token instead of adding a second one. *)
Theorem getItems_query
    (c : EmbyClient) (params : GetItemsParams) (stale token : string) :
  let filters :=
    (param "ParentId" (kept (ParentId params))
     ++ param "IncludeItemTypes" (kept (IncludeItemTypes params))
     ++ param "Recursive" (option_map bool_toString (Recursive params))
     ++ param "Fields" (kept (Fields params))
     ++ param "SortBy" (kept (SortBy params))
     ++ param "SortOrder" (kept (SortOrder params))
     ++ param "StartIndex" (option_map num_toString (StartIndex params))
     ++ param "Limit" (option_map num_toString (Limit params))
     ++ param "searchTerm" (kept (searchTerm params)))%list in
  items_filters params = filters
  /\ url (first_request (logged_in c (Some stale) (userId c)) (GetItems params))
     = serverUrl c ++ "/Users/" ++ tpl (userId c) ++ "/Items?"
       ++ sp_toString
            (if truthy (js_or (apiKey c) (Some stale))
             then filters ++ [("X-Emby-Token", the (js_or (apiKey c) (Some stale)))]
             else filters)%list
  /\ sp_set "X-Emby-Token" token
       (set_if_truthy "X-Emby-Token" (Some stale) (items_filters params))
     = (filters ++ [("X-Emby-Token", token)])%list
  /\ url (retry_request (logged_in c (Some token) (userId c)) (GetItems params))
     = serverUrl c ++ "/Users/" ++ tpl (userId c) ++ "/Items?"
       ++ sp_toString (filters ++ [("X-Emby-Token", token)])%list.
Proof.
  intros filters.
  assert (Hf : items_filters params = filters) by apply items_filters_concat.
  assert (Hfresh : sp_has "X-Emby-Token" filters = false)
    by (subst filters; fresh_key).
  split; [exact Hf|]. split; [|split].
  - cbn [first_request GET url logged_in apiKey authToken userId serverUrl].
    unfold items_url. cbn [userId serverUrl]. rewrite Hf.
    rewrite (set_if_truthy_fresh _ _ _ Hfresh). unfold kept.
    destruct (js_or (apiKey c) (Some stale)) as [t|] eqn:E.
    + destruct (truthy (Some t)); [reflexivity | now rewrite app_nil_r].
    + cbn. now rewrite app_nil_r.
  - rewrite sp_set_after_credential, Hf. now apply sp_set_fresh.
  - cbn [retry_request GET url logged_in apiKey authToken userId serverUrl tpl].
    unfold items_url. cbn [userId serverUrl]. rewrite Hf.
    now rewrite (sp_set_fresh _ _ _ Hfresh).
Qed.

(** ** Image and subtitle URLs *)

(** X12.  With a credential, [getImageUrl] ends its query with the
    credential, form-encoded, after [maxWidth] (the width as printed, then
    form-encoded) when a width other than 0 is asked for; [getStreamUrl]
    writes the same credential as it is. *)
Theorem image_url_with_credential
    (c : EmbyClient) (itemId token : string) (imageType : option ImageType)
    (maxWidth : option Z) :
  js_or (apiKey c) (authToken c) = Some token ->
  token <> "" ->
  getImageUrl c itemId imageType maxWidth
  = serverUrl c ++ "/Items/" ++ itemId ++ "/Images/"
    ++ ImageType_toString (match imageType with Some t => t | None => Primary end)
    ++ match maxWidth with
       | Some w =>
           if (w =? 0)%Z then "?api_key=" ++ form_encode token
           else "?maxWidth=" ++ form_encode (num_toString w) ++ "&api_key="
                ++ form_encode token
       | None => "?api_key=" ++ form_encode token
       end
  /\ getStreamUrl c itemId (Some false)
     = serverUrl c ++ "/Videos/" ++ itemId ++ "/master.m3u8?api_key=" ++ token
  /\ getStreamUrl c itemId (Some true)
     = serverUrl c ++ "/Videos/" ++ itemId ++ "/stream?Static=true&api_key="
       ++ token.
Proof.
  intros Htok Hne. pose proof (truthy_nonempty token Hne) as T.
  unfold getImageUrl, getStreamUrl. rewrite Htok.
  split; [|split; reflexivity].
  unfold set_if_truthy. rewrite T.
  assert (One : sp_toString [("api_key", token)]
                = String "a" ("pi_key=" ++ form_encode token))
    by reflexivity.
  assert (Two : forall w,
             sp_toString [("maxWidth", num_toString w); ("api_key", token)]
             = String "m" ("axWidth=" ++ form_encode (num_toString w)
                           ++ "&api_key=" ++ form_encode token))
    by reflexivity.
  destruct maxWidth as [w|]; [destruct (w =? 0)%Z|]; cbn [negb].
  - change (sp_set "api_key" token []) with [("api_key", token)].
    rewrite One. reflexivity.
  - change (sp_set "api_key" token (sp_set "maxWidth" (num_toString w) []))
      with [("maxWidth", num_toString w); ("api_key", token)].
    rewrite Two. reflexivity.
  - change (sp_set "api_key" token []) with [("api_key", token)].
    rewrite One. reflexivity.
Qed.

Lemma image_url_with_credential_witness :
  getImageUrl (new_EmbyClient config_odd_token) "i1" (Some Backdrop) (Some 640)
  = "http://host:8096/emby/Items/i1/Images/Backdrop?maxWidth=640&api_key=a%2Fb+c%3D"
  /\ getStreamUrl (new_EmbyClient config_odd_token) "i1" (Some false)
     = "http://host:8096/emby/Videos/i1/master.m3u8?api_key=a/b c=".
Proof.
  destruct (image_url_with_credential (new_EmbyClient config_odd_token) "i1"
              "a/b c=" (Some Backdrop) (Some 640) eq_refl
              ltac:(discriminate)) as (H1 & H2 & _).
  split; [exact H1 | exact H2].
Defined.

(** X13.  For any stream of type [Subtitle] of the first media source: an
    external stream with a non-empty delivery URL gets the endpoint followed
    by that URL and nothing else, whatever the credential; an external
    stream whose delivery URL is absent or empty, like a stream that is not
    external, gets the stream URL built from its index and the
    credential. *)
Theorem subtitle_urls
    (c : EmbyClient) (itemId : string) (mediaSource : MediaSource)
    (others : list MediaSource) (streams : list MediaStream) :
  MediaStreams mediaSource = Some streams ->
  let item := {| Id := itemId; MediaSources := Some (mediaSource :: others) |} in
  let stream_url index :=
    serverUrl c ++ "/Videos/" ++ itemId ++ "/" ++ ms_Id mediaSource
    ++ "/Subtitles/" ++ num_toString index ++ "/Stream.vtt?api_key="
    ++ tpl (js_or (apiKey c) (authToken c)) in
  Forall2
    (fun stream entry =>
       (forall delivery,
           IsExternal stream = Some true ->
           DeliveryUrl stream = Some delivery ->
           delivery <> "" ->
           sub_url entry = serverUrl c ++ delivery)
       /\ (IsExternal stream = Some true ->
           truthy (DeliveryUrl stream) = false ->
           sub_url entry = stream_url (Index stream))
       /\ (IsExternal stream <> Some true ->
           sub_url entry = stream_url (Index stream)))
    (filter is_subtitle streams) (getSubtitles c item).
Proof.
  intros Hstreams item stream_url.
  unfold getSubtitles. cbn [item MediaSources]. rewrite Hstreams.
  apply Forall2_map_r. intros s _.
  unfold subtitle_entry, is_external. cbn [item Id].
  repeat split.
  - intros delivery -> -> Hne. now rewrite (truthy_nonempty _ Hne).
  - now intros -> ->.
  - intros Hext. destruct (IsExternal s) as [[|]|];
      [now elim Hext | reflexivity..].
Qed.

Lemma subtitle_urls_witness :
  exists entry,
    getSubtitles (new_EmbyClient config_api_key) item_external_without_url
    = [entry]
    /\ sub_url entry
       = "http://host:8096/emby/Videos/item2/src2/Subtitles/7/Stream.vtt?api_key=key".
Proof.
  pose proof (subtitle_urls (new_EmbyClient config_api_key) "item2"
                {| ms_Id := "src2";
                   MediaStreams := Some [stream_external_without_url] |}
                [] [stream_external_without_url] eq_refl) as H.
  cbv zeta in H.
  change (filter is_subtitle [stream_external_without_url])
    with [stream_external_without_url] in H.
  change (getSubtitles (new_EmbyClient config_api_key)
            {| Id := "item2";
               MediaSources :=
                 Some [ {| ms_Id := "src2";
                           MediaStreams := Some [stream_external_without_url] |} ] |})
    with [subtitle_entry (new_EmbyClient config_api_key)
            item_external_without_url
            {| ms_Id := "src2";
               MediaStreams := Some [stream_external_without_url] |}
            (Some "key") stream_external_without_url] in H.
  apply Forall2_cons_iff in H. destruct H as [(_ & Hurl & _) _].
  eexists. split; [reflexivity | exact (Hurl eq_refl eq_refl)].
Defined.

(** ** The login request *)

Lemma hex_digit_safe n : form_safe (hex_digit n) = true.
Proof.
  do 15 (destruct n as [|n]; [reflexivity|]). reflexivity.
Qed.

Lemma form_encode_output s :
  Forall (fun ch => form_output ch = true) (list_ascii_of_string (form_encode s)).
Proof.
  induction s as [|ch s IH]; [constructor|].
  cbn [form_encode]. unfold form_output.
  destruct (form_safe ch) eqn:Hsafe.
  - cbn [list_ascii_of_string]. constructor; [now rewrite Hsafe | exact IH].
  - destruct (nat_of_ascii ch =? 32)%nat; cbn [list_ascii_of_string].
    + constructor; [reflexivity | exact IH].
    + constructor; [reflexivity|].
      constructor; [now rewrite hex_digit_safe|].
      constructor; [now rewrite hex_digit_safe | exact IH].
Qed.

Lemma form_decode_char ch s :
  form_decode (form_encode (String ch s))
  = option_map (String ch) (form_decode (form_encode s)).
Proof.
  destruct ch as [[|] [|] [|] [|] [|] [|] [|] [|]]; reflexivity.
Qed.

Lemma form_decode_encode s : form_decode (form_encode s) = Some s.
Proof.
  induction s as [|ch s IH]; [reflexivity|].
  now rewrite form_decode_char, IH.
Qed.

(** X14.  The login sends the credentials in the body of a [POST] and not in
    the URL.  The body is [Username=<u>&Pw=<p>] where the two encoded values
    are made of letters, digits and [* - . _ + %] only, so that no [&] or
    [=] of a password can break the form, and decoding them gives back the
    user name and the password exactly. *)
Theorem login_body_round_trip (c : EmbyClient) (username password : string) :
  let q := login_request c username password in
  meth q = "POST"
  /\ url q = serverUrl c ++ "/Users/AuthenticateByName"
  /\ body q = Some ("Username=" ++ form_encode username
                    ++ "&Pw=" ++ form_encode password)
  /\ form_decode (form_encode username) = Some username
  /\ form_decode (form_encode password) = Some password
  /\ Forall (fun ch => form_output ch = true)
       (list_ascii_of_string (form_encode username))
  /\ Forall (fun ch => form_output ch = true)
       (list_ascii_of_string (form_encode password))
  /\ form_output "&" = false /\ form_output "=" = false.
Proof.
  cbv zeta. repeat split;
    try apply form_decode_encode; try apply form_encode_output.
Qed.

(** ** The endpoint *)

Lemma string_app_assoc (a b c : string) : (a ++ b) ++ c = a ++ b ++ c.
Proof.
  induction a as [|x a IH]; cbn [append]; [reflexivity | now rewrite IH].
Qed.

Lemma append_slash_differs (y : string) : (y ++ "/emby") ++ "/" <> y ++ "/emby".
Proof.
  induction y as [|ch y IH]; [discriminate|].
  cbn [append]. intros [= E]. now apply IH.
Qed.

Lemma slash_is_not_the_root (x : string) : endsWith (x ++ "/") "/emby" = false.
Proof.
  destruct (endsWith (x ++ "/") "/emby") eqn:E; [|reflexivity].
  apply endsWith_split in E. destruct E as [y E].
  pose proof (f_equal strip_trailing_slash E) as E'.
  rewrite strip_one_slash, strip_emby in E'. subst x.
  now apply append_slash_differs in E.
Qed.

(** X15.  The endpoint a client is built with always ends with [/emby] and
    has no trailing slash left, so that the paths appended to it start at
    one slash.  An address that already ends with [/emby], with or without a
    slash after it, is not given a second [/emby]; only one trailing slash
    is removed. *)
Theorem endpoint_shape (config : EmbyConfig) (x : string) :
  endsWith (serverUrl (new_EmbyClient config)) "/emby" = true
  /\ strip_trailing_slash (serverUrl (new_EmbyClient config))
     = serverUrl (new_EmbyClient config)
  /\ normalize (x ++ "/emby") = x ++ "/emby"
  /\ normalize (x ++ "/emby/") = x ++ "/emby"
  /\ normalize (x ++ "//") = x ++ "//emby".
Proof.
  cbn [new_EmbyClient serverUrl].
  destruct (normalize_ends_with_root (ServerURL config)) as [y ->].
  split; [apply endsWith_append|]. split; [apply strip_emby|].
  split; [|split].
  - unfold normalize. now rewrite strip_emby, endsWith_append.
  - change (x ++ "/emby/") with (x ++ "/emby" ++ "/").
    rewrite <- string_app_assoc. unfold normalize.
    now rewrite strip_one_slash, endsWith_append.
  - change (x ++ "//") with (x ++ "/" ++ "/").
    rewrite <- string_app_assoc. unfold normalize.
    rewrite strip_one_slash, slash_is_not_the_root. cbn [negb].
    now rewrite string_app_assoc.
Qed.

(** * Properties of the admin route *)

(** ** How a request reaches an action *)

Lemma POST_local_storage env co net :
  database_storage env = false ->
  POST env co net
  = ({| http_status := 400; route_body := ErrorBody msg_storage |}, no_effects).
Proof.
  unfold database_storage, POST. intros Hs.
  now destruct (_ =? "localstorage").
Qed.

Lemma POST_finish env co net :
  database_storage env = true ->
  POST env co net = finish co (handler env co net no_effects).
Proof.
  unfold database_storage, POST, finish. intros Hs.
  destruct (_ =? "localstorage"); [discriminate|].
  now destruct (handler env co net no_effects) as [[[]|r|e] eff].
Qed.

Lemma reply_ends status b eff : ends (@reply unit status b eff).
Proof. exact I. Qed.

Lemma hbind_ends {A} (c : Step A) (k : A -> Step unit) eff :
  (forall a eff', ends (k a eff')) -> ends (hbind c k eff).
Proof.
  intros Hk. unfold ends, hbind.
  destruct (c eff) as [[a|r|e] eff']; [apply Hk | exact I | exact I].
Qed.

Ltac ends_step :=
  first
    [ apply reply_ends
    | apply hbind_ends; intros
    | match goal with
      | |- ends ((match ?x with _ => _ end) _) => destruct x
      end ].

Lemma save_action_ends co net body adminConfig eff :
  ends (save_action co net body adminConfig eff).
Proof. unfold save_action. repeat ends_step. Qed.

Lemma test_action_ends co net body eff : ends (test_action co net body eff).
Proof. unfold test_action. repeat ends_step. Qed.

(** Past the permission check the handler is the action the body names. *)
Lemma handler_dispatch env co net body adminConfig :
  request_json co = Return body ->
  getConfig co = Return adminConfig ->
  authorized env co = true ->
  handler env co net no_effects
  = (if action_is body "save" then save_action co net body adminConfig
     else if action_is body "test" then test_action co net body
     else reply 400 (ErrorBody msg_unsupported)) no_effects.
Proof.
  unfold authorized, requester, handler, hbind, await, kept.
  intros -> Hcfg.
  destruct (getAuthInfoFromCookie co) as [[info|]|e]; try discriminate.
  destruct (truthy (auth_username info)) eqn:Hname; [|discriminate].
  cbn [negb]. rewrite Hcfg.
  destruct (auth_username info) as [username|]; [|discriminate].
  cbn [the]. intros Hauth.
  pose proof (save_action_ends co net body adminConfig no_effects) as Hsave.
  pose proof (test_action_ends co net body no_effects) as Htest.
  unfold ends in Hsave, Htest.
  destruct (differs username (USERNAME env)).
  - destruct (getUserInfoV2 co username) as [[u|]|e]; try discriminate.
    destruct (role u =? "admin"); [|discriminate].
    destruct (banned u); [discriminate|]. cbn [negb orb continue].
    destruct (action_is body "save").
    + destruct (save_action co net body adminConfig no_effects)
        as [[[]|r|e] eff]; [elim Hsave | reflexivity..].
    + unfold continue at 1. cbv beta iota.
      destruct (action_is body "test"); [|reflexivity].
      destruct (test_action co net body no_effects) as [[[]|r|e] eff];
        [elim Htest | reflexivity..].
  - cbn [continue].
    destruct (action_is body "save").
    + destruct (save_action co net body adminConfig no_effects)
        as [[[]|r|e] eff]; [elim Hsave | reflexivity..].
    + unfold continue at 1. cbv beta iota.
      destruct (action_is body "test"); [|reflexivity].
      destruct (test_action co net body no_effects) as [[[]|r|e] eff];
        [elim Htest | reflexivity..].
Qed.

(** Short of the permission check nothing is sent and nothing is stored. *)
Lemma handler_stops env co net :
  (forall body, request_json co <> Return body)
  \/ (forall adminConfig, getConfig co <> Return adminConfig)
  \/ authorized env co = false ->
  snd (handler env co net no_effects) = no_effects
  /\ ends (handler env co net no_effects).
Proof.
  unfold authorized, requester, handler, hbind, await, kept, reply, ends.
  intros Hwhy.
  destruct (request_json co) as [body|e];
    [|split; [reflexivity | exact I]].
  destruct (getAuthInfoFromCookie co) as [[info|]|e];
    try (split; [reflexivity | exact I]).
  destruct (truthy (auth_username info)) eqn:Hname;
    [|split; [reflexivity | exact I]].
  cbn [negb].
  destruct (getConfig co) as [adminConfig|e];
    [|split; [reflexivity | exact I]].
  destruct (auth_username info) as [username|]; [|discriminate].
  cbn [the].
  destruct Hwhy as [Hwhy|[Hwhy|Hwhy]];
    [now elim (Hwhy body) | now elim (Hwhy adminConfig) |].
  destruct (differs username (USERNAME env)); [|discriminate].
  destruct (getUserInfoV2 co username) as [[u|]|e];
    try (split; [reflexivity | exact I]).
  destruct (role u =? "admin"); cbn [negb orb];
    [|split; [reflexivity | exact I]].
  destruct (banned u); [|discriminate].
  split; [reflexivity | exact I].
Qed.

(** ** The two actions *)

Lemma probe_and_save_run co net body adminConfig finalUserId authToken client eff :
  let probe := GET (probe_url client) in
  let stored := with_EmbyConfig adminConfig
                  (enabled_config co body finalUserId authToken) in
  probe_and_save co net body adminConfig finalUserId authToken client eff
  = if reachable net (sent eff) probe then
      (match saveAdminConfig co stored with
       | Return _ =>
           Respond {| http_status := 200;
                      route_body := ResultBody true msg_saved |}
       | Throw e => Raise e
       end,
       and_saved stored (and_sent probe eff))
    else
      (Respond {| http_status := 400; route_body := ErrorBody msg_unreachable |},
       and_sent probe eff).
Proof.
  cbv zeta.
  unfold probe_and_save, hbind, on_client, checkConnectivity, try_catch, bind,
    fetch, reachable, await, save, reply, and_saved, and_sent.
  cbn [get_this this calls].
  destruct (net (sent eff) (GET (probe_url client))) as [r|reason];
    cbn [fst snd sent saved this calls]; [|reflexivity].
  destruct (ok r); cbn [negb]; [|reflexivity].
  now destruct (saveAdminConfig co _).
Qed.

Lemma probe_and_report_run net client eff :
  let probe := GET (probe_url client) in
  probe_and_report net client eff
  = (Respond
       (if reachable net (sent eff) probe
        then {| http_status := 200; route_body := ResultBody true msg_test_ok |}
        else {| http_status := 200;
                route_body := ResultBody false msg_unreachable |}),
     and_sent probe eff).
Proof.
  cbv zeta.
  unfold probe_and_report, hbind, on_client, checkConnectivity, try_catch, bind,
    fetch, reachable, await, reply, and_sent.
  cbn [get_this this calls].
  destruct (net (sent eff) (GET (probe_url client))) as [r|reason];
    cbn [fst snd sent saved this calls]; [|reflexivity].
  now destruct (ok r).
Qed.

Lemma uses_password_with_key body :
  truthy (body_ApiKey body) = true ->
  uses_password body = false /\ lacks_credential body = false.
Proof. unfold uses_password, lacks_credential. now intros ->. Qed.

Lemma uses_password_without_key body :
  truthy (body_ApiKey body) = false ->
  truthy (body_Username body) = true ->
  truthy (body_Password body) = true ->
  uses_password body = true /\ lacks_credential body = false.
Proof. unfold uses_password, lacks_credential. now intros -> -> ->. Qed.

Lemma save_action_with_key co net body adminConfig eff :
  body_Enabled body = true ->
  truthy (body_ServerURL body) = true ->
  truthy (body_ApiKey body) = true ->
  save_action co net body adminConfig eff
  = probe_and_save co net body adminConfig (body_UserId body) None
      (save_client body) eff.
Proof.
  intros He Hs Hk. destruct (uses_password_with_key _ Hk) as [Hu Hl].
  unfold save_action. rewrite He, Hs, Hl, Hu. reflexivity.
Qed.

Lemma save_action_with_password co net body adminConfig eff :
  body_Enabled body = true ->
  truthy (body_ServerURL body) = true ->
  uses_password body = true ->
  save_action co net body adminConfig eff
  = match save_login net body {| this := save_client body; calls := sent eff |} with
    | (Return (finalUserId, authToken), st) =>
        probe_and_save co net body adminConfig finalUserId authToken (this st)
          {| sent := calls st; saved := saved eff |}
    | (Throw error, st) =>
        (Respond {| http_status := 400;
                    route_body := ErrorBody (msg_auth_failed
                                             ++ message_of_exn co error) |},
         {| sent := calls st; saved := saved eff |})
    end.
Proof.
  intros He Hs Hu.
  assert (Hl : lacks_credential body = false).
  { unfold uses_password in Hu. unfold lacks_credential.
    destruct (truthy (body_ApiKey body)); [discriminate|].
    destruct (truthy (body_Username body)); [|discriminate].
    now destruct (truthy (body_Password body)). }
  unfold save_action. rewrite He, Hs, Hl, Hu. cbn [negb].
  unfold hbind at 1. unfold hbind at 1. unfold on_client at 1.
  fold (save_client body).
  destruct (save_login net body _) as [[[finalUserId authToken]|error] st];
    reflexivity.
Qed.

Lemma POST_action env co net body adminConfig :
  admitted env co body adminConfig ->
  POST env co net
  = finish co
      ((if action_is body "save" then save_action co net body adminConfig
        else if action_is body "test" then test_action co net body
        else reply 400 (ErrorBody msg_unsupported)) no_effects).
Proof.
  intros (Hdb & Hbody & Hcfg & Hauth).
  rewrite (POST_finish _ _ _ Hdb).
  now rewrite (handler_dispatch _ _ _ _ _ Hbody Hcfg Hauth).
Qed.

Lemma owner_is_admitted body :
  admitted env_database (owner_sends body) body admin_config0.
Proof. now repeat split. Defined.

(** ** Requests that are turned away *)

(** X16.  Without a database the route is closed: when the storage type is
    unset, empty or [localstorage], every request is answered 400 and
    nothing is read, sent or stored, whoever sends it. *)
Theorem local_storage_is_refused
    (env : Environment) (co : Collaborators) (net : transport) :
  truthy (NEXT_PUBLIC_STORAGE_TYPE env) = false
  \/ NEXT_PUBLIC_STORAGE_TYPE env = Some "localstorage" ->
  POST env co net
  = ({| http_status := 400;
        route_body := ErrorBody "不支持本地存储进行管理员配置" |},
     {| sent := []; saved := [] |}).
Proof.
  intros Hs. apply POST_local_storage. unfold database_storage.
  destruct Hs as [Hs | ->]; [|reflexivity].
  now rewrite (js_or_absent _ _ Hs).
Qed.

Lemma local_storage_is_refused_witness :
  POST env_default (owner_sends body_save_key) net_all_ok
  = ({| http_status := 400; route_body := ErrorBody msg_storage |}, no_effects).
Proof.
  exact (local_storage_is_refused env_default (owner_sends body_save_key)
           net_all_ok (or_introl eq_refl)).
Defined.

Lemma handler_unauthorized env co net :
  authorized env co = false ->
  snd (handler env co net no_effects) = no_effects
  /\ (fst (handler env co net no_effects)
       = Respond {| http_status := 401; route_body := ErrorBody "Unauthorized" |}
      \/ fst (handler env co net no_effects)
         = Respond {| http_status := 401; route_body := ErrorBody msg_forbidden |}
      \/ exists e, fst (handler env co net no_effects) = Raise e).
Proof.
  unfold authorized, requester, handler, hbind, await, kept, reply.
  destruct (request_json co) as [body|e];
    [|intros _; split; [reflexivity | right; right; now eexists]].
  destruct (getAuthInfoFromCookie co) as [[info|]|e];
    [| intros _; split; [reflexivity | now left]
     | intros _; split; [reflexivity | right; right; now eexists]].
  destruct (truthy (auth_username info)) eqn:Hname;
    [|intros _; split; [reflexivity | now left]].
  cbn [negb].
  destruct (getConfig co) as [adminConfig|e];
    [|intros _; split; [reflexivity | right; right; now eexists]].
  destruct (auth_username info) as [username|]; [|discriminate].
  cbn [the].
  destruct (differs username (USERNAME env)); [|discriminate].
  destruct (getUserInfoV2 co username) as [[u|]|e];
    [| intros _; split; [reflexivity | right; now left]
     | intros _; split; [reflexivity | right; right; now eexists]].
  destruct (role u =? "admin"); cbn [negb orb andb];
    [|intros _; split; [reflexivity | right; now left]].
  destruct (banned u); [|discriminate].
  intros _; split; [reflexivity | right; now left].
Qed.

(** X17.  A requester that does not pass the permission check (no auth
    cookie, no user name in it, or a user that is neither the owner nor an
    unbanned admin) changes nothing: the route sends no request to the media
    server, stores no configuration, and answers 401, or 500 when a
    collaborator threw before the check was done. *)
Theorem unauthorized_requests_change_nothing
    (env : Environment) (co : Collaborators) (net : transport) :
  database_storage env = true ->
  authorized env co = false ->
  snd (POST env co net) = no_effects
  /\ (fst (POST env co net)
       = {| http_status := 401; route_body := ErrorBody "Unauthorized" |}
      \/ fst (POST env co net)
         = {| http_status := 401; route_body := ErrorBody "权限不足" |}
      \/ http_status (fst (POST env co net)) = 500).
Proof.
  intros Hdb Hauth. rewrite (POST_finish _ _ _ Hdb).
  destruct (handler_unauthorized env co net Hauth) as [Heff Hwhat].
  destruct (handler env co net no_effects) as [f eff].
  cbn [fst snd] in *. subst eff.
  destruct Hwhat as [-> | [-> | [e ->]]]; cbn [finish fst snd];
    split; auto.
Qed.

Lemma unauthorized_requests_change_nothing_witness :
  POST env_database (user_sends body_save_key) net_all_ok
  = ({| http_status := 401; route_body := ErrorBody msg_forbidden |}, no_effects).
Proof.
  destruct (unauthorized_requests_change_nothing env_database
              (user_sends body_save_key) net_all_ok eq_refl eq_refl)
    as [Heff [H | [H | H]]].
  - discriminate H.
  - rewrite (surjective_pairing (POST _ _ _)). now rewrite H, Heff.
  - discriminate H.
Defined.

(** X18.  The body is parsed before the requester is looked at: a request
    whose body cannot be read is answered 500 with the parser's message,
    authorized or not, and nothing is sent or stored. *)
Theorem unreadable_body_is_a_500
    (env : Environment) (co : Collaborators) (net : transport) (e : exn) :
  database_storage env = true ->
  request_json co = Throw e ->
  POST env co net
  = ({| http_status := 500;
        route_body := ErrorBody ("Emby 配置保存失败: " ++ message_of_exn co e) |},
     no_effects).
Proof.
  intros Hdb Hbody. rewrite (POST_finish _ _ _ Hdb).
  unfold handler, hbind, await. now rewrite Hbody.
Qed.

Lemma unreadable_body_is_a_500_witness :
  POST env_database garbage_sent net_all_ok
  = ({| http_status := 500;
        route_body := ErrorBody "Emby 配置保存失败: Unexpected token" |},
     no_effects).
Proof.
  exact (unreadable_body_is_a_500 env_database garbage_sent net_all_ok
           SyntaxError eq_refl eq_refl).
Defined.

(** X19.  For an admitted requester, a body without a server address, or
    with neither an API key nor both of user name and password, is refused
    with a 400 before any client is built: nothing is sent and nothing is
    stored, for the test action and for the save of an enabled
    configuration.  An action other than [save] and [test] is refused the
    same way. *)
Theorem invalid_bodies_are_refused_first
    (env : Environment) (co : Collaborators) (net : transport)
    (body : RequestBody) (adminConfig : AdminConfig) :
  admitted env co body adminConfig ->
  (action_is body "save" = true /\ body_Enabled body = true)
  \/ action_is body "save" = false ->
  (action_is body "save" = false -> action_is body "test" = false ->
   POST env co net
   = ({| http_status := 400; route_body := ErrorBody "不支持的操作" |},
      no_effects))
  /\ (action_is body "save" = true \/ action_is body "test" = true ->
      truthy (body_ServerURL body) = false ->
      POST env co net
      = ({| http_status := 400; route_body := ErrorBody "请填写 Emby 服务器地址" |},
         no_effects))
  /\ (action_is body "save" = true \/ action_is body "test" = true ->
      truthy (body_ServerURL body) = true ->
      lacks_credential body = true ->
      POST env co net
      = ({| http_status := 400;
            route_body := ErrorBody "请填写 API Key 或用户名密码" |},
         no_effects)).
Proof.
  intros Hadm Hshape. rewrite (POST_action _ _ _ _ _ Hadm).
  split; [|split].
  - now intros -> ->.
  - intros Hact Hurl.
    destruct Hshape as [[Hsave Hen] | Hsave]; rewrite Hsave.
    + unfold save_action. now rewrite Hen, Hurl.
    + destruct Hact as [Hact | Hact]; [congruence|]. rewrite Hact.
      unfold test_action. now rewrite Hurl.
  - intros Hact Hurl Hcred.
    destruct Hshape as [[Hsave Hen] | Hsave]; rewrite Hsave.
    + unfold save_action. now rewrite Hen, Hurl, Hcred.
    + destruct Hact as [Hact | Hact]; [congruence|]. rewrite Hact.
      unfold test_action. now rewrite Hurl, Hcred.
Qed.

Lemma invalid_bodies_are_refused_first_witness :
  POST env_database (owner_sends body_save_no_credential) net_all_ok
  = ({| http_status := 400; route_body := ErrorBody msg_need_credential |},
     no_effects).
Proof.
  destruct (invalid_bodies_are_refused_first env_database
              (owner_sends body_save_no_credential) net_all_ok
              body_save_no_credential admin_config0
              (owner_is_admitted _) (or_introl (conj eq_refl eq_refl)))
    as (_ & _ & H).
  exact (H (or_introl eq_refl) eq_refl eq_refl).
Defined.

(** ** Saving *)

(** X20.  Saving a disabled configuration contacts no server and checks no
    field: for an admitted requester it hands one configuration to the
    database, with [Enabled] false, the four text fields as sent or empty,
    no user id, no token and no sync time, the rest of the admin
    configuration untouched; the answer is 200, or 500 when the database
    throws. *)
Theorem disabled_save_skips_the_server
    (env : Environment) (co : Collaborators) (net : transport)
    (body : RequestBody) (adminConfig : AdminConfig) :
  admitted env co body adminConfig ->
  action_is body "save" = true ->
  body_Enabled body = false ->
  let stored :=
    {| admin_EmbyConfig :=
         Some {| stored_Enabled := false;
                 stored_ServerURL := Some (if truthy (body_ServerURL body)
                                           then the (body_ServerURL body) else "");
                 stored_ApiKey := Some (if truthy (body_ApiKey body)
                                        then the (body_ApiKey body) else "");
                 stored_Username := Some (if truthy (body_Username body)
                                          then the (body_Username body) else "");
                 stored_Password := Some (if truthy (body_Password body)
                                          then the (body_Password body) else "");
                 stored_UserId := None;
                 stored_AuthToken := None;
                 stored_Libraries := items_or_empty (body_Libraries body);
                 stored_LastSyncTime := None |};
       admin_others := admin_others adminConfig |} in
  POST env co net
  = (match saveAdminConfig co stored with
     | Return _ => {| http_status := 200;
                      route_body := ResultBody true "Emby 配置已保存（未启用）" |}
     | Throw e => {| http_status := 500;
                     route_body := ErrorBody ("Emby 配置保存失败: "
                                              ++ message_of_exn co e) |}
     end,
     {| sent := []; saved := [stored] |}).
Proof.
  intros Hadm Hsave Hen stored.
  rewrite (POST_action _ _ _ _ _ Hadm), Hsave.
  unfold save_action. rewrite Hen. cbn [negb].
  assert (Hstored : with_EmbyConfig adminConfig (disabled_config body) = stored).
  { unfold with_EmbyConfig, disabled_config, stored, js_or.
    destruct (body_ServerURL body) as [a|], (body_ApiKey body) as [b|],
      (body_Username body) as [u|], (body_Password body) as [p|];
      cbn [the truthy];
      repeat match goal with
             | |- context [negb (?s =? "")] => destruct (negb (s =? ""))
             end; reflexivity. }
  unfold hbind, save, reply. rewrite Hstored.
  now destruct (saveAdminConfig co stored).
Qed.

Lemma disabled_save_skips_the_server_witness :
  POST env_database (owner_sends body_save_disabled) net_down
  = ({| http_status := 200; route_body := ResultBody true msg_saved_disabled |},
     {| sent := [];
        saved := [ with_EmbyConfig admin_config0
                     (disabled_config body_save_disabled) ] |}).
Proof.
  exact (disabled_save_skips_the_server env_database
           (owner_sends body_save_disabled) net_down body_save_disabled
           admin_config0 (owner_is_admitted _) eq_refl eq_refl).
Defined.

(** X21.  Saving an enabled configuration with an API key sends exactly one
    request, the probe with the key, and never logs in.  The configuration
    is handed to the database only when the probe is answered with a
    success, with the user id of the body, no token and the current time;
    otherwise the answer is 400 and nothing is stored. *)
Theorem save_with_api_key
    (env : Environment) (co : Collaborators) (net : transport)
    (body : RequestBody) (adminConfig : AdminConfig) :
  admitted env co body adminConfig ->
  action_is body "save" = true ->
  body_Enabled body = true ->
  truthy (body_ServerURL body) = true ->
  truthy (body_ApiKey body) = true ->
  let probe := GET (normalize (the (body_ServerURL body))
                    ++ "/System/Info/Public?api_key=" ++ the (body_ApiKey body)) in
  let stored :=
    with_EmbyConfig adminConfig
      (enabled_config co body (body_UserId body) None) in
  POST env co net
  = if reachable net [] probe then
      (match saveAdminConfig co stored with
       | Return _ => {| http_status := 200;
                        route_body := ResultBody true "Emby 配置已保存并测试成功" |}
       | Throw e => {| http_status := 500;
                       route_body := ErrorBody ("Emby 配置保存失败: "
                                                ++ message_of_exn co e) |}
       end,
       {| sent := [probe]; saved := [stored] |})
    else
      ({| http_status := 400;
          route_body := ErrorBody "Emby 连接失败，请检查服务器地址和认证信息" |},
       {| sent := [probe]; saved := [] |}).
Proof.
  intros Hadm Hsave Hen Hurl Hkey probe stored.
  rewrite (POST_action _ _ _ _ _ Hadm), Hsave.
  rewrite (save_action_with_key _ _ _ _ _ Hen Hurl Hkey).
  rewrite probe_and_save_run.
  assert (Hprobe : GET (probe_url (save_client body)) = probe).
  { unfold probe, probe_url, save_client, api_key_suffix.
    cbn [new_EmbyClient testConfig serverUrl apiKey authToken ServerURL ApiKey
         AuthToken].
    rewrite (js_or_present _ _ Hkey), Hkey.
    now destruct (body_ApiKey body). }
  rewrite Hprobe. fold stored. cbn [no_effects sent].
  destruct (reachable net [] probe); [|reflexivity].
  now destruct (saveAdminConfig co stored).
Qed.

Lemma save_with_api_key_witness :
  POST env_database (owner_sends body_save_key) net_500
  = ({| http_status := 400; route_body := ErrorBody msg_unreachable |},
     {| sent := [GET "http://host:8096/emby/System/Info/Public?api_key=key"];
        saved := [] |}).
Proof.
  exact (save_with_api_key env_database (owner_sends body_save_key) net_500
           body_save_key admin_config0 (owner_is_admitted _)
           eq_refl eq_refl eq_refl eq_refl).
Defined.

Lemma save_login_accepted net body st r data token user :
  let login := login_request (this st) (the (body_Username body))
                 (the (body_Password body)) in
  net (calls st) login = Responded r ->
  ok r = true ->
  parsed r = Some data ->
  auth_payload data token user ->
  save_login net body st
  = (Return (Some user, Some token),
     {| this := logged_in (this st) (Some token) (Some user);
        calls := (calls st ++ [login])%list |}).
Proof.
  intros login Hnet Hok Hparsed Hpay. unfold save_login, bind.
  rewrite (authenticate_accepted net _ _ st r data token user
             Hnet Hok Hparsed Hpay).
  destruct Hpay as (fields & ufields & -> & Htok & Huser & Hid).
  cbn [prop ret]. rewrite Huser. cbn [prop_of prop ret]. rewrite Hid, Htok.
  reflexivity.
Qed.

(** X22.  Saving an enabled configuration without an API key logs in with
    the user name and password of the body, then probes with the token it
    got.  When both succeed the stored configuration holds the user id and
    the token the login returned (a user id typed into the body is
    dropped), no API key, and the current time. *)
Theorem save_with_password
    (env : Environment) (co : Collaborators) (net : transport)
    (body : RequestBody) (adminConfig : AdminConfig)
    (rl : response) (data : json) (token user : string) :
  admitted env co body adminConfig ->
  action_is body "save" = true ->
  body_Enabled body = true ->
  truthy (body_ServerURL body) = true ->
  truthy (body_ApiKey body) = false ->
  truthy (body_Username body) = true ->
  truthy (body_Password body) = true ->
  let client := save_client body in
  let login := login_request client (the (body_Username body))
                 (the (body_Password body)) in
  let probe := GET (normalize (the (body_ServerURL body))
                    ++ "/System/Info/Public"
                    ++ api_key_suffix "?" (Some token)) in
  let stored :=
    {| admin_EmbyConfig :=
         Some {| stored_Enabled := true;
                 stored_ServerURL := body_ServerURL body;
                 stored_ApiKey := None;
                 stored_Username := body_Username body;
                 stored_Password := body_Password body;
                 stored_UserId := Some user;
                 stored_AuthToken := Some token;
                 stored_Libraries := items_or_empty (body_Libraries body);
                 stored_LastSyncTime := Some (Date_now co) |};
       admin_others := admin_others adminConfig |} in
  net [] login = Responded rl ->
  ok rl = true ->
  parsed rl = Some data ->
  auth_payload data token user ->
  POST env co net
  = if reachable net [login] probe then
      (match saveAdminConfig co stored with
       | Return _ => {| http_status := 200;
                        route_body := ResultBody true "Emby 配置已保存并测试成功" |}
       | Throw e => {| http_status := 500;
                       route_body := ErrorBody ("Emby 配置保存失败: "
                                                ++ message_of_exn co e) |}
       end,
       {| sent := [login; probe]; saved := [stored] |})
    else
      ({| http_status := 400;
          route_body := ErrorBody "Emby 连接失败，请检查服务器地址和认证信息" |},
       {| sent := [login; probe]; saved := [] |}).
Proof.
  intros Hadm Hsave Hen Hurl Hkey Hu Hp client login probe stored
         Hnet Hok Hparsed Hpay.
  destruct (uses_password_without_key _ Hkey Hu Hp) as [Huse _].
  rewrite (POST_action _ _ _ _ _ Hadm), Hsave.
  rewrite (save_action_with_password _ _ _ _ _ Hen Hurl Huse).
  cbn [no_effects sent saved].
  rewrite (save_login_accepted net body
             {| this := save_client body; calls := [] |}
             rl data token user Hnet Hok Hparsed Hpay).
  cbn [this calls app]. fold client. fold login.
  rewrite probe_and_save_run. cbn [sent saved].
  assert (Hprobe : GET (probe_url (logged_in client (Some token) (Some user)))
                   = probe).
  { unfold probe, probe_url, client, save_client.
    cbn [logged_in new_EmbyClient testConfig serverUrl apiKey authToken
         ServerURL ApiKey].
    now rewrite (js_or_absent _ _ Hkey). }
  assert (Hstored : with_EmbyConfig adminConfig
                      (enabled_config co body (Some user) (Some token))
                    = stored).
  { unfold with_EmbyConfig, enabled_config, stored.
    rewrite (js_or_absent _ _ Hkey), (js_or_present _ _ Hu),
      (js_or_present _ _ Hp).
    reflexivity. }
  rewrite Hprobe, Hstored.
  destruct (reachable net [login] probe); [|reflexivity].
  now destruct (saveAdminConfig co stored).
Qed.

Lemma save_with_password_witness :
  fst (POST env_database (owner_sends body_save_password) net_all_ok)
  = {| http_status := 200; route_body := ResultBody true msg_saved |}
  /\ option_map stored_UserId
       (admin_EmbyConfig
          (hd admin_config0
             (saved (snd (POST env_database (owner_sends body_save_password)
                            net_all_ok)))))
     = Some (Some "u1").
Proof.
  pose proof (save_with_password env_database (owner_sends body_save_password)
                net_all_ok body_save_password admin_config0
                response_login_ok login_payload "fresh" "u1"
                (owner_is_admitted _) eq_refl eq_refl eq_refl eq_refl eq_refl
                eq_refl eq_refl eq_refl eq_refl login_payload_shape) as H.
  rewrite H. split; reflexivity.
Defined.

(** X23.  When the login of a save is refused, the route answers 400 with
    the login's own message after its prefix (the label appears twice),
    does not probe, and stores nothing. *)
Theorem save_login_refused
    (env : Environment) (co : Collaborators) (net : transport)
    (body : RequestBody) (adminConfig : AdminConfig) (rl : response) :
  admitted env co body adminConfig ->
  action_is body "save" = true ->
  body_Enabled body = true ->
  truthy (body_ServerURL body) = true ->
  truthy (body_ApiKey body) = false ->
  truthy (body_Username body) = true ->
  truthy (body_Password body) = true ->
  let login := login_request (save_client body) (the (body_Username body))
                 (the (body_Password body)) in
  net [] login = Responded rl ->
  ok rl = false ->
  POST env co net
  = ({| http_status := 400;
        route_body :=
          ErrorBody ("Emby 认证失败: Emby 认证失败 ("
                     ++ num_toString (status rl) ++ "): " ++ text rl) |},
     {| sent := [login]; saved := [] |}).
Proof.
  intros Hadm Hsave Hen Hurl Hkey Hu Hp login Hnet Hok.
  destruct (uses_password_without_key _ Hkey Hu Hp) as [Huse _].
  rewrite (POST_action _ _ _ _ _ Hadm), Hsave.
  rewrite (save_action_with_password _ _ _ _ _ Hen Hurl Huse).
  cbn [no_effects sent saved].
  unfold save_login, bind.
  rewrite (authenticate_refused net _ _
             {| this := save_client body; calls := [] |} rl Hnet Hok).
  reflexivity.
Qed.

Lemma save_login_refused_witness :
  POST env_database (owner_sends body_save_password) net_login_refused
  = ({| http_status := 400;
        route_body :=
          ErrorBody "Emby 认证失败: Emby 认证失败 (401): token expired" |},
     {| sent := [ login_request (save_client body_save_password)
                    "alice" "secret" ];
        saved := [] |}).
Proof.
  exact (save_login_refused env_database (owner_sends body_save_password)
           net_login_refused body_save_password admin_config0 response_401
           (owner_is_admitted _) eq_refl eq_refl eq_refl eq_refl eq_refl
           eq_refl eq_refl eq_refl).
Defined.

(** ** Testing *)

Lemma reply_stores_nothing {A} status b : stores_nothing (@reply A status b).
Proof. now intros eff. Qed.

Lemma continue_stores_nothing {A} (a : A) : stores_nothing (continue a).
Proof. now intros eff. Qed.

Lemma await_stores_nothing {A} (o : outcome A) : stores_nothing (await o).
Proof. intros eff. unfold await. now destruct o. Qed.

Lemma on_client_stores_nothing {A} (m : M A) client :
  stores_nothing (on_client m client).
Proof. intros eff. unfold on_client. now destruct (m _). Qed.

Lemma hbind_stores_nothing {A B} (c : Step A) (k : A -> Step B) :
  stores_nothing c -> (forall a, stores_nothing (k a)) ->
  stores_nothing (hbind c k).
Proof.
  intros Hc Hk eff. unfold hbind. specialize (Hc eff).
  destruct (c eff) as [[a|r|e] eff']; cbn [snd] in *; [|assumption..].
  rewrite <- Hc. apply Hk.
Qed.

Ltac stores_nothing_step :=
  first
    [ apply reply_stores_nothing
    | apply continue_stores_nothing
    | apply await_stores_nothing
    | apply on_client_stores_nothing
    | apply hbind_stores_nothing; [|intros]
    | match goal with
      | |- stores_nothing (match ?x with _ => _ end) => destruct x
      end ].

Lemma test_action_stores_nothing co net body :
  stores_nothing (test_action co net body).
Proof. unfold test_action. repeat stores_nothing_step. Qed.

Lemma test_action_with_key co net body eff :
  truthy (body_ServerURL body) = true ->
  truthy (body_ApiKey body) = true ->
  test_action co net body eff
  = probe_and_report net (new_EmbyClient (testConfig body None)) eff.
Proof.
  intros Hs Hk. destruct (uses_password_with_key _ Hk) as [Hu Hl].
  unfold test_action. rewrite Hs, Hl, Hu. reflexivity.
Qed.

(** X24.  The test action with an API key sends the one probe and reports
    its result with status 200 either way, [success] telling which; it
    stores nothing, and the user id of the body plays no part. *)
Theorem test_reports_the_probe
    (env : Environment) (co : Collaborators) (net : transport)
    (body : RequestBody) (adminConfig : AdminConfig) :
  admitted env co body adminConfig ->
  action_is body "save" = false ->
  action_is body "test" = true ->
  truthy (body_ServerURL body) = true ->
  truthy (body_ApiKey body) = true ->
  let probe := GET (normalize (the (body_ServerURL body))
                    ++ "/System/Info/Public?api_key=" ++ the (body_ApiKey body)) in
  POST env co net
  = (if reachable net [] probe
     then {| http_status := 200;
             route_body := ResultBody true "Emby 连接测试成功" |}
     else {| http_status := 200;
             route_body :=
               ResultBody false "Emby 连接失败，请检查服务器地址和认证信息" |},
     {| sent := [probe]; saved := [] |}).
Proof.
  intros Hadm Hsave Htest Hurl Hkey probe.
  rewrite (POST_action _ _ _ _ _ Hadm), Hsave, Htest.
  rewrite (test_action_with_key _ _ _ _ Hurl Hkey).
  rewrite probe_and_report_run.
  assert (Hprobe : GET (probe_url (new_EmbyClient (testConfig body None)))
                   = probe).
  { unfold probe, probe_url, api_key_suffix.
    cbn [new_EmbyClient testConfig serverUrl apiKey authToken ServerURL ApiKey
         AuthToken].
    rewrite (js_or_present _ _ Hkey), Hkey.
    now destruct (body_ApiKey body). }
  rewrite Hprobe. reflexivity.
Qed.

Lemma test_reports_the_probe_witness :
  POST env_database (owner_sends body_test_key) net_down
  = ({| http_status := 200; route_body := ResultBody false msg_unreachable |},
     {| sent := [GET "http://host:8096/emby/System/Info/Public?api_key=key"];
        saved := [] |}).
Proof.
  exact (test_reports_the_probe env_database (owner_sends body_test_key)
           net_down body_test_key admin_config0 (owner_is_admitted _)
           eq_refl eq_refl eq_refl eq_refl).
Defined.

(** ** What reaches the database *)

Lemma credential_is_a_key body :
  lacks_credential body = false -> uses_password body = false ->
  truthy (body_ApiKey body) = true.
Proof.
  unfold lacks_credential, uses_password.
  destruct (truthy (body_ApiKey body)); [reflexivity|].
  now destruct (truthy (body_Username body)), (truthy (body_Password body)).
Qed.

Lemma probe_and_save_guard co net body adminConfig finalUserId authToken client eff :
  saved eff = [] ->
  let after := snd (probe_and_save co net body adminConfig finalUserId
                      authToken client eff) in
  saved after = []
  \/ (length (saved after) = 1%nat
      /\ exists probe r,
           sent after = (sent eff ++ [probe])%list
           /\ net (sent eff) probe = Responded r
           /\ ok r = true
           /\ probe = GET (probe_url client)).
Proof.
  intros Hnone. cbv zeta. rewrite probe_and_save_run.
  unfold reachable.
  destruct (net (sent eff) (GET (probe_url client))) as [r|reason] eqn:Hnet;
    [|left; exact Hnone].
  destruct (ok r) eqn:Hok; [|left; exact Hnone].
  right. cbn [snd and_saved and_sent saved sent]. rewrite Hnone.
  split; [reflexivity|]. now exists (GET (probe_url client)), r.
Qed.

Lemma save_action_guard co net body adminConfig :
  let after := snd (save_action co net body adminConfig no_effects) in
  saved after = []
  \/ (length (saved after) = 1%nat
      /\ (body_Enabled body = true ->
          exists history probe r,
            sent after = (history ++ [probe])%list
            /\ net history probe = Responded r
            /\ ok r = true
            /\ meth probe = "GET")).
Proof.
  cbv zeta.
  destruct (body_Enabled body) eqn:Hen.
  2:{ right. unfold save_action. rewrite Hen. cbn [negb].
      unfold hbind, save, reply.
      destruct (saveAdminConfig co _); split; try reflexivity; discriminate. }
  destruct (truthy (body_ServerURL body)) eqn:Hurl;
    [|left; unfold save_action; now rewrite Hen, Hurl].
  destruct (lacks_credential body) eqn:Hl;
    [left; unfold save_action; now rewrite Hen, Hurl, Hl|].
  destruct (uses_password body) eqn:Hu.
  - rewrite (save_action_with_password _ _ _ _ _ Hen Hurl Hu).
    destruct (save_login net body _) as [[[finalUserId authToken]|e] st];
      [|now left].
    destruct (probe_and_save_guard co net body adminConfig finalUserId
                authToken (this st)
                {| sent := calls st; saved := saved no_effects |} eq_refl)
      as [H | (H1 & probe & r & H2 & H3 & H4 & H5)]; [now left|].
    right. split; [exact H1|]. intros _.
    exists (calls st), probe, r. repeat split; try assumption. now subst probe.
  - rewrite (save_action_with_key _ _ _ _ _ Hen Hurl
               (credential_is_a_key _ Hl Hu)).
    destruct (probe_and_save_guard co net body adminConfig (body_UserId body)
                None (save_client body) no_effects eq_refl)
      as [H | (H1 & probe & r & H2 & H3 & H4 & H5)]; [now left|].
    right. split; [exact H1|]. intros _.
    exists [], probe, r. repeat split; try assumption. now subst probe.
Qed.

(** X25.  Whatever the request and whatever the network and the
    collaborators answer, the route hands a configuration to the database
    at most once, and only for the [save] action of a requester that passed
    the storage and permission checks; when the configuration is enabled,
    only after the last request it sent, a probe, was answered with a
    success. *)
Theorem stored_only_by_a_checked_save
    (env : Environment) (co : Collaborators) (net : transport) :
  let after := snd (POST env co net) in
  saved after = []
  \/ (length (saved after) = 1%nat
      /\ database_storage env = true
      /\ authorized env co = true
      /\ exists body,
           request_json co = Return body
           /\ action_is body "save" = true
           /\ (body_Enabled body = true ->
               exists history probe r,
                 sent after = (history ++ [probe])%list
                 /\ net history probe = Responded r
                 /\ ok r = true
                 /\ meth probe = "GET")).
Proof.
  cbv zeta.
  destruct (database_storage env) eqn:Hdb;
    [|left; now rewrite (POST_local_storage _ _ _ Hdb)].
  destruct (authorized env co) eqn:Hauth.
  2:{ left. rewrite (POST_finish _ _ _ Hdb).
      destruct (handler_unauthorized env co net Hauth) as [Heff _].
      destruct (handler env co net no_effects) as [[[]|r|e] eff];
        cbn [snd finish] in *; now subst eff. }
  destruct (request_json co) as [body|e] eqn:Hbody.
  2:{ left. rewrite (POST_finish _ _ _ Hdb).
      destruct (handler_stops env co net) as [Heff _];
        [left; intros body; congruence|].
      destruct (handler env co net no_effects) as [[[]|r|e'] eff];
        cbn [snd finish] in *; now subst eff. }
  destruct (getConfig co) as [adminConfig|e] eqn:Hcfg.
  2:{ left. rewrite (POST_finish _ _ _ Hdb).
      destruct (handler_stops env co net) as [Heff _];
        [right; left; intros c; congruence|].
      destruct (handler env co net no_effects) as [[[]|r|e'] eff];
        cbn [snd finish] in *; now subst eff. }
  rewrite (POST_action env co net body adminConfig) by now repeat split.
  destruct (action_is body "save") eqn:Hsave.
  - destruct (save_action_guard co net body adminConfig) as [H | [H1 H2]].
    + left. destruct (save_action co net body adminConfig no_effects)
        as [[[]|r|e] eff]; exact H.
    + right.
      assert (Hsnd : snd (finish co (save_action co net body adminConfig
                                       no_effects))
                     = snd (save_action co net body adminConfig no_effects))
        by now destruct (save_action co net body adminConfig no_effects)
             as [[[]|r|e] eff].
      rewrite Hsnd. split; [exact H1|].
      split; [reflexivity|]. split; [reflexivity|].
      exists body. split; [reflexivity|]. split; [exact Hsave | exact H2].
  - left. destruct (action_is body "test"); [|reflexivity].
    pose proof (test_action_stores_nothing co net body no_effects) as H.
    now destruct (test_action co net body no_effects) as [[[]|r|e] eff].
Qed.

Lemma stored_only_by_a_checked_save_witness :
  length (saved (snd (POST env_database (owner_sends body_save_key) net_all_ok)))
  = 1%nat
  /\ authorized env_database (owner_sends body_save_key) = true.
Proof.
  destruct (stored_only_by_a_checked_save env_database
              (owner_sends body_save_key) net_all_ok)
    as [H | (Hlen & _ & Hauth & _)].
  - discriminate H.
  - split; [exact Hlen | exact Hauth].
Defined.

(** ** What reaches the media server *)

Lemma save_login_footprint net body st :
  calls (snd (save_login net body st))
  = (calls st ++ [login_request (this st) (the (body_Username body))
                    (the (body_Password body))])%list
  /\ serverUrl (this (snd (save_login net body st))) = serverUrl (this st).
Proof.
  unfold save_login, bind.
  destruct (authenticate_footprint net (the (body_Username body))
              (the (body_Password body)) st) as [Hc (Hs & _)].
  destruct (authenticate net _ _ st) as [[data|e] st1]; cbn [snd] in *;
    [|now split].
  destruct data as [| | | | |fields]; try (now split).
  cbn [prop ret]. destruct (assoc "User" fields) as [u|]; [|now split].
  cbn [prop_of]. destruct u as [| | | | |ufields]; now split.
Qed.

Lemma test_action_with_password co net body eff :
  truthy (body_ServerURL body) = true ->
  uses_password body = true ->
  test_action co net body eff
  = match authenticate net (the (body_Username body)) (the (body_Password body))
            {| this := new_EmbyClient (testConfig body None);
               calls := sent eff |} with
    | (Return _, st) =>
        probe_and_report net (this st) {| sent := calls st; saved := saved eff |}
    | (Throw error, st) =>
        (Respond {| http_status := 200;
                    route_body := ResultBody false
                                    (msg_auth_failed ++ message_of_exn co error) |},
         {| sent := calls st; saved := saved eff |})
    end.
Proof.
  intros Hs Hu.
  assert (Hl : lacks_credential body = false).
  { unfold uses_password in Hu. unfold lacks_credential.
    destruct (truthy (body_ApiKey body)); [discriminate|].
    destruct (truthy (body_Username body)); [|discriminate].
    now destruct (truthy (body_Password body)). }
  unfold test_action. rewrite Hs, Hl, Hu. cbn [negb].
  unfold hbind at 1. unfold hbind at 1. unfold on_client at 1.
  destruct (authenticate net _ _ _) as [[data|error] st]; reflexivity.
Qed.

Lemma probe_url_on_server client :
  exists path, url (GET (probe_url client)) = serverUrl client ++ path.
Proof. unfold probe_url. cbn [GET url]. now eexists. Qed.

Lemma probe_and_save_sent co net body adminConfig finalUserId authToken client eff :
  sent (snd (probe_and_save co net body adminConfig finalUserId authToken
               client eff))
  = (sent eff ++ [GET (probe_url client)])%list.
Proof.
  rewrite probe_and_save_run. now destruct (reachable net _ _).
Qed.

Lemma probe_and_report_sent net client eff :
  sent (snd (probe_and_report net client eff))
  = (sent eff ++ [GET (probe_url client)])%list.
Proof. now rewrite probe_and_report_run. Qed.

Lemma login_then_probe_on_address body client client' :
  serverUrl client = normalize (the (body_ServerURL body)) ->
  serverUrl client' = serverUrl client ->
  on_address body
    [ login_request client (the (body_Username body)) (the (body_Password body));
      GET (probe_url client') ].
Proof.
  intros Hc Hc'. split; [cbn; repeat constructor|].
  constructor; [|constructor; [|constructor]].
  - cbn [login_request url]. rewrite Hc. now eexists.
  - destruct (probe_url_on_server client') as [path ->].
    rewrite Hc', Hc. now eexists.
Qed.

Lemma save_action_on_address co net body adminConfig :
  let l := sent (snd (save_action co net body adminConfig no_effects)) in
  l = []
  \/ (body_Enabled body = true
      /\ truthy (body_ServerURL body) = true
      /\ lacks_credential body = false
      /\ on_address body l).
Proof.
  cbv zeta.
  destruct (body_Enabled body) eqn:Hen.
  2:{ left. unfold save_action. rewrite Hen. cbn [negb].
      unfold hbind, save, reply. now destruct (saveAdminConfig co _). }
  destruct (truthy (body_ServerURL body)) eqn:Hurl;
    [|left; unfold save_action; now rewrite Hen, Hurl].
  destruct (lacks_credential body) eqn:Hl;
    [left; unfold save_action; now rewrite Hen, Hurl, Hl|].
  right. repeat split; try reflexivity.
  - destruct (uses_password body) eqn:Hu.
    + rewrite (save_action_with_password _ _ _ _ _ Hen Hurl Hu).
      destruct (save_login_footprint net body
                  {| this := save_client body; calls := sent no_effects |})
        as [Hc _].
      destruct (save_login net body _) as [[[finalUserId authToken]|e] st];
        cbn [snd] in *.
      * rewrite probe_and_save_sent. cbn [sent]. rewrite Hc. cbn.
        repeat constructor.
      * cbn [sent]. rewrite Hc. cbn. repeat constructor.
    + rewrite (save_action_with_key _ _ _ _ _ Hen Hurl
                 (credential_is_a_key _ Hl Hu)).
      rewrite probe_and_save_sent. cbn. repeat constructor.
  - destruct (uses_password body) eqn:Hu.
    + rewrite (save_action_with_password _ _ _ _ _ Hen Hurl Hu).
      destruct (save_login_footprint net body
                  {| this := save_client body; calls := sent no_effects |})
        as [Hc Hs].
      destruct (save_login net body _) as [[[finalUserId authToken]|e] st];
        cbn [snd this calls sent no_effects app] in *.
      * rewrite probe_and_save_sent. cbn [sent]. rewrite Hc.
        now apply login_then_probe_on_address.
      * rewrite Hc. constructor; [|constructor].
        cbn [login_request url]. now eexists.
    + rewrite (save_action_with_key _ _ _ _ _ Hen Hurl
                 (credential_is_a_key _ Hl Hu)).
      rewrite probe_and_save_sent. cbn [no_effects sent app].
      constructor; [|constructor]. apply probe_url_on_server.
Qed.

Lemma test_action_on_address co net body :
  let l := sent (snd (test_action co net body no_effects)) in
  l = []
  \/ (truthy (body_ServerURL body) = true
      /\ lacks_credential body = false
      /\ on_address body l).
Proof.
  cbv zeta.
  destruct (truthy (body_ServerURL body)) eqn:Hurl;
    [|left; unfold test_action; now rewrite Hurl].
  destruct (lacks_credential body) eqn:Hl;
    [left; unfold test_action; now rewrite Hurl, Hl|].
  right. split; [reflexivity|]. split; [reflexivity|].
  destruct (uses_password body) eqn:Hu.
  - rewrite (test_action_with_password _ _ _ _ Hurl Hu).
    destruct (authenticate_footprint net (the (body_Username body))
                (the (body_Password body))
                {| this := new_EmbyClient (testConfig body None);
                   calls := sent no_effects |}) as [Hc (Hs & _)].
    destruct (authenticate net _ _ _) as [[data|e] st];
      cbn [snd this calls sent no_effects app] in *.
    + rewrite probe_and_report_sent. cbn [sent]. rewrite Hc.
      now apply login_then_probe_on_address.
    + rewrite Hc. split; [cbn; repeat constructor|].
      constructor; [|constructor]. cbn [login_request url]. now eexists.
  - rewrite (test_action_with_key _ _ _ _ Hurl (credential_is_a_key _ Hl Hu)).
    rewrite probe_and_report_sent. cbn [no_effects sent app].
    split; [cbn; repeat constructor|].
    constructor; [|constructor]. apply probe_url_on_server.
Qed.

(** X26.  Whatever the request, the route contacts the media server only
    for a requester that passed the permission check, only for the test
    action or the save of an enabled configuration, and only when the body
    carries a server address and a credential (an API key, or a user name
    and a password).  It then sends at most two requests, a login and a
    probe, both to the normalized address of the body. *)
Theorem server_contacted_only_with_credentials
    (env : Environment) (co : Collaborators) (net : transport) :
  let l := sent (snd (POST env co net)) in
  l = []
  \/ (authorized env co = true
      /\ exists body,
           request_json co = Return body
           /\ truthy (body_ServerURL body) = true
           /\ (truthy (body_ApiKey body) = true
               \/ truthy (body_Username body) && truthy (body_Password body)
                  = true)
           /\ (action_is body "save" = true /\ body_Enabled body = true
               \/ action_is body "test" = true)
           /\ (length l <= 2)%nat
           /\ Forall (fun q => exists path,
                          url q = normalize (the (body_ServerURL body)) ++ path)
                l).
Proof.
  cbv zeta.
  destruct (database_storage env) eqn:Hdb;
    [|left; now rewrite (POST_local_storage _ _ _ Hdb)].
  destruct (authorized env co) eqn:Hauth.
  2:{ left. rewrite (POST_finish _ _ _ Hdb).
      destruct (handler_unauthorized env co net Hauth) as [Heff _].
      destruct (handler env co net no_effects) as [[[]|r|e] eff];
        cbn [snd finish] in *; now subst eff. }
  destruct (request_json co) as [body|e] eqn:Hbody.
  2:{ left. rewrite (POST_finish _ _ _ Hdb).
      destruct (handler_stops env co net) as [Heff _];
        [left; intros body; congruence|].
      destruct (handler env co net no_effects) as [[[]|r|e'] eff];
        cbn [snd finish] in *; now subst eff. }
  destruct (getConfig co) as [adminConfig|e] eqn:Hcfg.
  2:{ left. rewrite (POST_finish _ _ _ Hdb).
      destruct (handler_stops env co net) as [Heff _];
        [right; left; intros c; congruence|].
      destruct (handler env co net no_effects) as [[[]|r|e'] eff];
        cbn [snd finish] in *; now subst eff. }
  rewrite (POST_action env co net body adminConfig) by now repeat split.
  assert (Hcred : lacks_credential body = false ->
                  truthy (body_ApiKey body) = true
                  \/ truthy (body_Username body) && truthy (body_Password body)
                     = true).
  { unfold lacks_credential.
    destruct (truthy (body_ApiKey body)); [now left|].
    destruct (truthy (body_Username body)), (truthy (body_Password body));
      cbn; intros; try discriminate. now right. }
  destruct (action_is body "save") eqn:Hsave.
  - assert (Hsnd : snd (finish co (save_action co net body adminConfig
                                     no_effects))
                   = snd (save_action co net body adminConfig no_effects))
      by now destruct (save_action co net body adminConfig no_effects)
           as [[[]|r|e] eff].
    rewrite Hsnd.
    destruct (save_action_on_address co net body adminConfig)
      as [H | (Hen & Hurl & Hl & Hlen & Hall)]; [now left|].
    right. split; [reflexivity|]. exists body.
    repeat split; auto.
  - destruct (action_is body "test") eqn:Htest; [|now left].
    assert (Hsnd : snd (finish co (test_action co net body no_effects))
                   = snd (test_action co net body no_effects))
      by now destruct (test_action co net body no_effects) as [[[]|r|e] eff].
    rewrite Hsnd.
    destruct (test_action_on_address co net body)
      as [H | (Hurl & Hl & Hlen & Hall)]; [now left|].
    right. split; [reflexivity|]. exists body.
    repeat split; auto.
Qed.

Lemma server_contacted_only_with_credentials_witness :
  authorized env_database (owner_sends body_test_key) = true
  /\ (length (sent (snd (POST env_database (owner_sends body_test_key)
                           net_all_ok))) <= 2)%nat.
Proof.
  destruct (server_contacted_only_with_credentials env_database
              (owner_sends body_test_key) net_all_ok)
    as [H | (Hauth & body & _ & _ & _ & _ & Hlen & _)].
  - discriminate H.
  - split; [exact Hauth | exact Hlen].
Defined.

(** X27.  When the login of a test is refused, the route reports it with
    status 200 and [success] false, the login's message after the prefix;
    it does not probe and stores nothing. *)
Theorem test_login_refused
    (env : Environment) (co : Collaborators) (net : transport)
    (body : RequestBody) (adminConfig : AdminConfig) (rl : response) :
  admitted env co body adminConfig ->
  action_is body "save" = false ->
  action_is body "test" = true ->
  truthy (body_ServerURL body) = true ->
  truthy (body_ApiKey body) = false ->
  truthy (body_Username body) = true ->
  truthy (body_Password body) = true ->
  let login := login_request (new_EmbyClient (testConfig body None))
                 (the (body_Username body)) (the (body_Password body)) in
  net [] login = Responded rl ->
  ok rl = false ->
  POST env co net
  = ({| http_status := 200;
        route_body :=
          ResultBody false ("Emby 认证失败: Emby 认证失败 ("
                            ++ num_toString (status rl) ++ "): " ++ text rl) |},
     {| sent := [login]; saved := [] |}).
Proof.
  intros Hadm Hsave Htest Hurl Hkey Hu Hp login Hnet Hok.
  destruct (uses_password_without_key _ Hkey Hu Hp) as [Huse _].
  rewrite (POST_action _ _ _ _ _ Hadm), Hsave, Htest.
  rewrite (test_action_with_password _ _ _ _ Hurl Huse).
  cbn [no_effects sent saved].
  rewrite (authenticate_refused net _ _
             {| this := new_EmbyClient (testConfig body None); calls := [] |}
             rl Hnet Hok).
  reflexivity.
Qed.

Lemma test_login_refused_witness :
  fst (POST env_database (owner_sends body_test_password) net_login_refused)
  = {| http_status := 200;
       route_body :=
         ResultBody false "Emby 认证失败: Emby 认证失败 (401): token expired" |}.
Proof.
  exact (f_equal fst
           (test_login_refused env_database (owner_sends body_test_password)
              net_login_refused body_test_password admin_config0 response_401
              (owner_is_admitted _) eq_refl eq_refl eq_refl eq_refl eq_refl
              eq_refl eq_refl eq_refl)).
Defined.
